(** * Business-Notifications: delivery decision and fan-out engine

  A shallow embedding of the TypeScript sources of the notification
  service (domain entities, the domain service, the bulk / single creation
  and mark-as-read use cases, the push reconciliation of the queue worker
  and the presence tracker), followed by the properties established about
  them.

  Conventions of the embedding.
  - A JavaScript [Date] is its time value: milliseconds since the epoch,
    an integer ([Z]).  Invalid dates are not represented.
  - A JavaScript string is a [string]; one character stands for one UTF-16
    code unit below 256, so [String.length] is [.length].
  - [undefined] / [null] for an optional field is [None].
  - A JavaScript number that only ever holds an integer is a [Z].
  - Code that reads the clock, draws a uuid or talks to a collaborator is
    written in a state-and-exception monad over an abstract world [W];
    [await] is sequencing in that monad.  Logging is not represented. *)

From Stdlib Require Import ZArith String Ascii List Lia Bool.
From stdpp Require Import base gmap sets list strings.

Set Default Proof Using "Type".
#[local] Set Warnings "-clear-no-such-hyp".
Open Scope string_scope.
Open Scope list_scope.

(* ===================================================================== *)
(** * Part I. The embedding *)
(* ===================================================================== *)

(** ** JavaScript values and built-ins used by the sources *)

Module JS.

Definition Date := Z.

(** The [any]-typed payloads (metadata, action data, socket metadata). *)
#[local] Unset Elimination Schemes.
Inductive Value :=
| Null
| Boolean (b : bool)
| Number (z : Z)
| Str (s : string)
| Array (l : list Value)
| Object (fields : list (string * Value)).
#[local] Set Elimination Schemes.

(** ToBoolean on strings and on payloads; arrays and objects are truthy. *)
Definition truthyString (s : string) : bool :=
  match s with EmptyString => false | String _ _ => true end.

Definition truthy (v : Value) : bool :=
  match v with
  | Null => false
  | Boolean b => b
  | Number z => negb (z =? 0)%Z
  | Str s => truthyString s
  | Array _ | Object _ => true
  end.

(** [a || b] where [a] is an optional string / an optional number. *)
Definition orString (a : option string) (b : string) : string :=
  match a with
  | Some s => if truthyString s then s else b
  | None => b
  end.

Definition orNumber (a : option Z) (b : Z) : Z :=
  match a with
  | Some z => if (z =? 0)%Z then b else z
  | None => b
  end.

(** [a || b] where [a] is an optional object (array, Date): every object
    is truthy, also the empty array. *)
Definition orObject {A} (a : option A) (b : A) : A :=
  match a with Some x => x | None => b end.

(** White space and line terminators removed by [String.prototype.trim],
    among the code units below 256. *)
Definition isWhiteSpace (c : ascii) : bool :=
  let n := nat_of_ascii c in
  (n =? 9)%nat || (n =? 10)%nat || (n =? 11)%nat || (n =? 12)%nat ||
  (n =? 13)%nat || (n =? 32)%nat || (n =? 160)%nat.

Fixpoint trimStart (s : string) : string :=
  match s with
  | EmptyString => EmptyString
  | String c s' => if isWhiteSpace c then trimStart s' else s
  end.

Fixpoint trimEnd (s : string) : string :=
  match s with
  | EmptyString => EmptyString
  | String c s' =>
      match trimEnd s' with
      | EmptyString => if isWhiteSpace c then EmptyString else String c EmptyString
      | t => String c t
      end
  end.

Definition trim (s : string) : string := trimEnd (trimStart s).

(** [s.split(sep)] for a one-character separator. *)
Fixpoint split (sep : ascii) (s : string) : list string :=
  match s with
  | EmptyString => [EmptyString]
  | String c s' =>
      if Ascii.eqb c sep then EmptyString :: split sep s'
      else match split sep s' with
           | [] => [String c EmptyString]
           | p :: ps => String c p :: ps
           end
  end.

(** Numbers that may be NaN: [None] is NaN. *)
Definition num := option Z.

Definition digit (c : ascii) : option Z :=
  let n := nat_of_ascii c in
  if ((48 <=? n) && (n <=? 57))%nat then Some (Z.of_nat n - 48)%Z else None.

Fixpoint digits (acc : Z) (s : string) : num :=
  match s with
  | EmptyString => Some acc
  | String c s' =>
      match digit c with
      | Some d => digits (10 * acc + d)%Z s'
      | None => None
      end
  end.

(** [Number(s)] on a run of decimal digits, surrounding white space
    allowed: its value - exact as long as it stays below 2^53 - and 0 for
    the blank string.  These are the components of an [HH:mm] text.  Any
    other text is NaN here, which is [Number]'s answer except on the other
    forms of a numeric literal (signs, fractions, exponents, radix prefixes
    and [Infinity]); those are outside this model.  The properties below
    rest on its value for the components of [HH:mm] texts only; for a text
    without a colon the minutes of the day are NaN whatever number the
    text reads as, the minute component being [undefined]. *)
Definition toNumber (s : string) : num := digits 0 (trim s).

(** [Number] applied to an array hole: [undefined] gives NaN. *)
Definition toNumberOpt (s : option string) : num :=
  match s with Some s => toNumber s | None => None end.

Definition mul (a b : num) : num :=
  match a, b with Some x, Some y => Some (x * y)%Z | _, _ => None end.
Definition add (a b : num) : num :=
  match a, b with Some x, Some y => Some (x + y)%Z | _, _ => None end.
(** Comparisons with NaN are false. *)
Definition lt (a b : num) : bool :=
  match a, b with Some x, Some y => (x <? y)%Z | _, _ => false end.
Definition ge (a b : num) : bool :=
  match a, b with Some x, Some y => (y <=? x)%Z | _, _ => false end.

(** [arr.slice(start, end)] for integer arguments: negative indices count
    from the end, both are clamped to the array. *)
Definition relIndex (len k : Z) : Z :=
  if (k <? 0)%Z then Z.max (len + k) 0 else Z.min k len.

Definition slice {A} (l : list A) (start stop : Z) : list A :=
  let len := Z.of_nat (length l) in
  let k := relIndex len start in
  let final := relIndex len stop in
  take (Z.to_nat (Z.max (final - k) 0)) (drop (Z.to_nat k) l).

(** Time arithmetic of ECMAScript's Date. *)
Definition msPerMinute : Z := 60000.
Definition msPerHour : Z := 3600000.
Definition msPerDay : Z := 86400000.

(** The host's time zone: [LocalTZA t isUTC] is the offset of local time
    from UTC in milliseconds, at the UTC instant [t] when [isUTC] and at
    the local time [t] otherwise. *)
Class Host := { LocalTZA : Z -> bool -> Z }.

Section HostTime.
Context {host : Host}.

Definition LocalTime (t : Date) : Z := (t + LocalTZA t true)%Z.
Definition UTC (t : Z) : Date := (t - LocalTZA t false)%Z.

Definition HourFromTime (t : Z) : Z := ((t / msPerHour) mod 24)%Z.
Definition MinFromTime (t : Z) : Z := ((t / msPerMinute) mod 60)%Z.

Definition getHours (d : Date) : Z := HourFromTime (LocalTime d).
Definition getMinutes (d : Date) : Z := MinFromTime (LocalTime d).

(** [d.setDate(d.getDate() + n)]: [MakeDay] with an overflowing day of
    month moves the local time by [n] whole days; the result is taken
    back to UTC. *)
Definition setDatePlus (d : Date) (n : Z) : Date :=
  UTC (LocalTime d + n * msPerDay)%Z.
End HostTime.

End JS.

(** ** Thrown values

    A thrown value is an object with an optional [message] and an optional
    [statusCode] ([throw null] is not represented).  [Error(message)]
    carries a message only. *)

Module Thrown.
Record t := mk { message : option string; statusCode : option Z }.
Definition Error (msg : string) : t := mk (Some msg) None.
(** Modelled from the spec: the class [AppError] (shared/errors/AppError) is
    not among the sources.  An error surfaced to the caller carries a
    message and a status code - not found (404), authorization (403), 500
    otherwise - which are the two arguments of every [new AppError(...)]
    in the use cases. *)
Definition AppError (msg : string) (code : Z) : t := mk (Some msg) (Some code).
End Thrown.

(** ** The state-and-exception monad of the use cases *)

Section Monad.
Context {W : Type}.

Definition M (A : Type) : Type := W -> (Thrown.t + A) * W.

Definition ret {A} (a : A) : M A := fun w => (inr a, w).

Definition bind {A B} (c : M A) (k : A -> M B) : M B :=
  fun w => match c w with
           | (inr a, w') => k a w'
           | (inl e, w') => (inl e, w')
           end.

Definition throw {A} (e : Thrown.t) : M A := fun w => (inl e, w).

(** [try { c } catch (error) { h error }] *)
Definition tryCatch {A} (c : M A) (h : Thrown.t -> M A) : M A :=
  fun w => match c w with
           | (inr a, w') => (inr a, w')
           | (inl e, w') => h e w'
           end.

(** An effect that cannot throw. *)
Definition lift {A} (f : W -> A * W) : M A :=
  fun w => let (a, w') := f w in (inr a, w').
End Monad.

Arguments M W A : clear implicits.

Notation "x <- c ;; k" := (bind c (fun x => k))
  (at level 100, c at next level, right associativity).
Notation "c ;;; k" := (bind c (fun _ => k))
  (at level 100, right associativity).

(** The runtime services every component draws on: [new Date()] and
    [uuidv4()]. *)
Class Runtime (W : Type) := {
  newDate : W -> JS.Date * W;
  uuidv4 : W -> string * W
}.

(** ** Notification entity (domain/entities/Notification) *)

Module Notification.

Inductive NotificationType := INFO | SUCCESS | WARNING | ERROR | SYSTEM.
Inductive NotificationChannel := IN_APP | PUSH | WEBSOCKET | ALL.
Inductive NotificationPriority := LOW | NORMAL | HIGH | URGENT.

Record NotificationAction := {
  label : string;
  url : option string;
  action : option string;
  data : option JS.Value
}.

Record t := mk {
  id : string;
  userId : string;
  type : NotificationType;
  title : string;
  message : string;
  channels : list NotificationChannel;
  priority : NotificationPriority;
  metadata : option JS.Value;
  actions : option (list NotificationAction);
  expiresAt : option JS.Date;
  imageUrl : option string;
  iconUrl : option string;
  isRead : bool;
  readAt : option JS.Date;
  createdAt : JS.Date;
  deliveredAt : option JS.Date;
  failedAt : option JS.Date;
  errorMessage : option string
}.

(** The two mutable fields written by [markAsRead]. *)
Definition setRead (n : t) (r : bool) (at_ : option JS.Date) : t :=
  mk (id n) (userId n) (type n) (title n) (message n) (channels n)
     (priority n) (metadata n) (actions n) (expiresAt n) (imageUrl n)
     (iconUrl n) r at_ (createdAt n) (deliveredAt n) (failedAt n)
     (errorMessage n).

Section Methods.
Context {W : Type} {R : Runtime W}.

(** [new Notification(...)] as the use cases call it: twelve arguments, the
    remaining parameters take their defaults ([isRead = false],
    [createdAt = new Date()]). *)
Definition new (id userId : string) (type : NotificationType)
    (title message : string) (channels : list NotificationChannel)
    (priority : NotificationPriority) (metadata : option JS.Value)
    (actions : option (list NotificationAction)) (expiresAt : option JS.Date)
    (imageUrl iconUrl : option string) : M W t :=
  createdAt <- lift newDate ;;
  ret (mk id userId type title message channels priority metadata actions
          expiresAt imageUrl iconUrl false None createdAt None None None).

Definition markAsRead (n : t) : M W t :=
  if negb (isRead n) then
    now <- lift newDate ;;
    ret (setRead n true (Some now))
  else ret n.

Definition isExpired (n : t) : M W bool :=
  match expiresAt n with
  | None => ret false
  | Some e => now <- lift newDate ;; ret (e <? now)%Z
  end.

End Methods.

Definition getPriorityWeight (n : t) : Z :=
  match priority n with LOW => 1 | NORMAL => 2 | HIGH => 3 | URGENT => 4 end.

End Notification.

(** ** UserPreferences entity (domain/entities/UserPreferences) *)

Module UserPreferences.
Import Notification.

Record ChannelPreferences := {
  inApp : bool;
  push : bool;
  websocket : bool
}.

(** One enablement record per notification type, as the interface
    [NotificationTypePreferences] declares. *)
Record NotificationTypePreferences := {
  ofINFO : ChannelPreferences;
  ofSUCCESS : ChannelPreferences;
  ofWARNING : ChannelPreferences;
  ofERROR : ChannelPreferences;
  ofSYSTEM : ChannelPreferences
}.

(** [preferences[type]] *)
Definition index (p : NotificationTypePreferences) (ty : NotificationType)
  : ChannelPreferences :=
  match ty with
  | INFO => ofINFO p
  | SUCCESS => ofSUCCESS p
  | WARNING => ofWARNING p
  | ERROR => ofERROR p
  | SYSTEM => ofSYSTEM p
  end.

Record QuietHours := {
  enabled : bool;
  startTime : string;
  endTime : string;
  timezone : string
}.

Record t := mk {
  id : string;
  userId : string;
  preferences : NotificationTypePreferences;
  quietHours : QuietHours;
  language : string;
  soundEnabled : bool;
  vibrationEnabled : bool;
  createdAt : JS.Date;
  updatedAt : JS.Date
}.

Definition getDefaultPreferences : NotificationTypePreferences :=
  let defaultChannel := {| inApp := true; push := true; websocket := true |} in
  {| ofINFO := defaultChannel; ofSUCCESS := defaultChannel;
     ofWARNING := defaultChannel; ofERROR := defaultChannel;
     ofSYSTEM := defaultChannel |}.

Definition getDefaultQuietHours : QuietHours :=
  {| enabled := false; startTime := "22:00"; endTime := "08:00";
     timezone := "America/Mexico_City" |}.

(** [const [hour, minute] = text.split(':').map(Number)], then
    [hour * 60 + minute]; a missing component is [undefined], which makes
    the sum NaN. *)
Definition component (parts : list JS.num) (i : nat) : JS.num :=
  match parts !! i with Some n => n | None => None end.

Definition minutesOf (text : string) : JS.num :=
  let parts := map JS.toNumber (JS.split ":" text) in
  JS.add (JS.mul (component parts 0) (Some 60%Z)) (component parts 1).

Section Methods.
Context {W : Type} {R : Runtime W} {host : JS.Host}.

Definition isQuietHours (p : t) : M W bool :=
  if negb (enabled (quietHours p)) then ret false
  else
    now <- lift newDate ;;
    let startMinutes := minutesOf (startTime (quietHours p)) in
    let endMinutes := minutesOf (endTime (quietHours p)) in
    let currentMinutes : JS.num :=
      Some (JS.getHours now * 60 + JS.getMinutes now)%Z in
    if JS.lt startMinutes endMinutes then
      ret (JS.ge currentMinutes startMinutes && JS.lt currentMinutes endMinutes)
    else
      (* Quiet hours span midnight *)
      ret (JS.ge currentMinutes startMinutes || JS.lt currentMinutes endMinutes).

(** The guard [if (!typePrefs) return false] of the source cannot fire on a
    record that has all five entries. *)
Definition shouldReceiveNotification (p : t) (ty : NotificationType)
    (channel : NotificationChannel) : M W bool :=
  quiet <- isQuietHours p ;;
  if quiet : bool then ret false
  else
    let typePrefs := index (preferences p) ty in
    ret (match channel with
         | IN_APP => inApp typePrefs
         | PUSH => push typePrefs
         | WEBSOCKET => websocket typePrefs
         | ALL => inApp typePrefs || push typePrefs || websocket typePrefs
         end).

End Methods.

Definition getEnabledChannels (p : t) (ty : NotificationType)
  : list NotificationChannel :=
  let typePrefs := index (preferences p) ty in
  let channels : list NotificationChannel := [] in
  let channels := if inApp typePrefs then channels ++ [IN_APP] else channels in
  let channels := if push typePrefs then channels ++ [PUSH] else channels in
  let channels := if websocket typePrefs then channels ++ [WEBSOCKET] else channels in
  channels.

End UserPreferences.

(** ** PushSubscription entity (domain/entities/PushSubscription) *)

Module PushSubscription.

Inductive DeviceType := WEB | ANDROID | IOS.

Record Keys := { p256dh : string; auth : string }.

Record DeviceInfo := {
  userAgent : option string;
  platform : option string;
  deviceName : option string
}.

Record t := mk {
  id : string;
  userId : string;
  deviceType : DeviceType;
  endpoint : string;
  keys : option Keys;
  fcmToken : option string;
  deviceInfo : option DeviceInfo;
  isActive : bool;
  createdAt : JS.Date;
  lastUsedAt : JS.Date;
  failureCount : Z;
  lastFailureAt : option JS.Date;
  errorMessage : option string
}.

(** Assignment to the mutable fields; the [readonly] ones are kept. *)
Definition assign (s : t) (isActive' : bool) (lastUsedAt' : JS.Date)
    (failureCount' : Z) (lastFailureAt' : option JS.Date)
    (errorMessage' : option string) : t :=
  mk (id s) (userId s) (deviceType s) (endpoint s) (keys s) (fcmToken s)
     (deviceInfo s) isActive' (createdAt s) lastUsedAt' failureCount'
     lastFailureAt' errorMessage'.

Definition deactivate (s : t) : t :=
  assign s false (lastUsedAt s) (failureCount s) (lastFailureAt s)
         (errorMessage s).

Definition activate (s : t) : t :=
  assign s true (lastUsedAt s) 0 (lastFailureAt s) None.

Definition isWebPush (s : t) : bool :=
  match deviceType s with
  | WEB => match keys s with Some _ => true | None => false end
  | _ => false
  end.

Definition isFCM (s : t) : bool :=
  match deviceType s with
  | ANDROID | IOS =>
      match fcmToken s with Some tok => JS.truthyString tok | None => false end
  | WEB => false
  end.

Section Methods.
Context {W : Type} {R : Runtime W}.

Definition updateLastUsed (s : t) : M W t :=
  now <- lift newDate ;;
  ret (assign s (isActive s) now (failureCount s) (lastFailureAt s)
              (errorMessage s)).

Definition recordFailure (error : string) (s : t) : M W t :=
  let count := (failureCount s + 1)%Z in
  now <- lift newDate ;;
  let s := assign s (isActive s) (lastUsedAt s) count (Some now) (Some error) in
  (* Deactivate after 3 consecutive failures *)
  if (3 <=? failureCount s)%Z then ret (deactivate s) else ret s.

Definition recordSuccess (s : t) : M W t :=
  let s := assign s (isActive s) (lastUsedAt s) 0 (lastFailureAt s) None in
  updateLastUsed s.

End Methods.

End PushSubscription.

(** ** Repository interfaces (domain/repositories)

    Only the operations the embedded use cases call are listed. *)

Class INotificationRepository (W : Type) := {
  save : Notification.t -> M W Notification.t;
  findById : string -> M W (option Notification.t);
  markAsRead : string -> M W unit
}.

Class IUserPreferencesRepository (W : Type) := {
  findByUserId : string -> M W (option UserPreferences.t)
}.

Class ISubsriptionRepository (W : Type) := {
  findActiveByUserId : string -> M W (list PushSubscription.t);
  update : PushSubscription.t -> M W PushSubscription.t
}.

(** ** MongoDB repositories (infrastructure/database)

    The driver's collection is the abstract collaborator.  A stored document
    has exactly the fields of its entity ([_id] holding [id]), so documents
    are carried as entity records and [toEntity] is the identity. *)

Class NotificationCollection (W : Type) := {
  (** [collection.insertOne(doc)] *)
  notifications_insertOne : Notification.t -> M W unit;
  (** [collection.findOne({ _id: id })] *)
  notifications_findOne : string -> M W (option Notification.t);
  (** [collection.updateOne({ _id: id }, { $set: { isRead: true, readAt } })] *)
  notifications_setRead : string -> JS.Date -> M W unit
}.

Class UserPreferencesCollection (W : Type) := {
  (** [collection.findOne({ userId })] *)
  preferences_findOne : string -> M W (option UserPreferences.t)
}.

Module MongoNotificationRepository.
Section Repo.
Context {W : Type} {R : Runtime W} {NC : NotificationCollection W}.

Definition save (notification : Notification.t) : M W Notification.t :=
  tryCatch
    (notifications_insertOne notification ;;;
     ret notification)
    (fun _ => throw (Thrown.Error "Failed to save notification")).

Definition findById (id : string) : M W (option Notification.t) :=
  tryCatch
    (doc <- notifications_findOne id ;;
     ret doc)
    (fun _ => throw (Thrown.Error "Failed to find notification")).

Definition markAsRead (id : string) : M W unit :=
  tryCatch
    (now <- lift newDate ;;
     notifications_setRead id now)
    (fun _ => throw (Thrown.Error "Failed to mark notification as read")).

Definition repository : INotificationRepository W :=
  Build_INotificationRepository W save findById markAsRead.
End Repo.
End MongoNotificationRepository.

Module MongoUserPreferencesRepository.
Section Repo.
Context {W : Type} {PC : UserPreferencesCollection W}.

Definition findByUserId (userId : string) : M W (option UserPreferences.t) :=
  tryCatch
    (doc <- preferences_findOne userId ;;
     ret doc)
    (fun _ => throw (Thrown.Error "Failed to find user preferences")).

Definition repository : IUserPreferencesRepository W :=
  Build_IUserPreferencesRepository W findByUserId.
End Repo.
End MongoUserPreferencesRepository.

(** ** NotificationDomainService (domain/services) *)

Module NotificationDomainService.
Import Notification.

Section Service.
Context {W : Type} {R : Runtime W} {host : JS.Host}.

Definition validateNotification (notification : Notification.t) : M W unit :=
  if negb (JS.truthyString (userId notification))
     || String.eqb (JS.trim (userId notification)) "" then
    throw (Thrown.Error "User ID is required")
  else if negb (JS.truthyString (title notification))
     || String.eqb (JS.trim (title notification)) "" then
    throw (Thrown.Error "Notification title is required")
  else if negb (JS.truthyString (message notification))
     || String.eqb (JS.trim (message notification)) "" then
    throw (Thrown.Error "Notification message is required")
  else if (100 <? String.length (title notification))%nat then
    throw (Thrown.Error "Notification title cannot exceed 100 characters")
  else if (500 <? String.length (message notification))%nat then
    throw (Thrown.Error "Notification message cannot exceed 500 characters")
  else if (length (channels notification) =? 0)%nat then
    throw (Thrown.Error "At least one notification channel is required")
  else
    expired <- match expiresAt notification with
               | Some e => now <- lift newDate ;; ret (e <=? now)%Z
               | None => ret false
               end ;;
    if expired : bool then
      throw (Thrown.Error "Expiration date must be in the future")
    else
      match actions notification with
      | Some acts =>
          if (3 <? length acts)%nat then
            throw (Thrown.Error "Maximum 3 actions allowed per notification")
          else ret tt
      | None => ret tt
      end.

Definition shouldSendToUser (notification : Notification.t)
    (preferences : UserPreferences.t) (channel : NotificationChannel)
  : M W bool :=
  (* URGENT notifications bypass quiet hours *)
  match priority notification with
  | URGENT =>
      UserPreferences.shouldReceiveNotification preferences
        (type notification) channel
  | _ =>
      (* Check quiet hours and preferences *)
      quiet <- UserPreferences.isQuietHours preferences ;;
      if quiet : bool then ret false
      else UserPreferences.shouldReceiveNotification preferences
             (type notification) channel
  end.

(** [notifications.filter(n => !n.isExpired())]: the callback runs on the
    elements in order and builds a new array. *)
Fixpoint filterExpired (notifications : list Notification.t)
  : M W (list Notification.t) :=
  match notifications with
  | [] => ret []
  | n :: rest =>
      expired <- Notification.isExpired n ;;
      kept <- filterExpired rest ;;
      ret (if expired : bool then kept else n :: kept)
  end.

Definition calculateExpiryDate (daysFromNow : Z) : M W JS.Date :=
  date <- lift newDate ;;
  ret (JS.setDatePlus date daysFromNow).

End Service.

Definition getPriorityWeight (priority : NotificationPriority) : Z :=
  match priority with LOW => 1 | NORMAL => 2 | HIGH => 3 | URGENT => 4 end.

Definition shouldBatch (notifications : list Notification.t) : bool :=
  (5 <? length notifications)%nat.

End NotificationDomainService.

(** ** Data transfer objects (application/dto/NotificationDTO) *)

Module DTO.
Import Notification.

Record CreateNotificationDTO := {
  c_userId : string;
  c_type : NotificationType;
  c_title : string;
  c_message : string;
  c_channels : option (list NotificationChannel);
  c_priority : option NotificationPriority;
  c_metadata : option JS.Value;
  c_actions : option (list NotificationAction);
  c_expiresAt : option JS.Date;
  c_imageUrl : option string;
  c_iconUrl : option string
}.

Record BulkNotificationDTO := {
  userIds : list string;
  type : NotificationType;
  title : string;
  message : string;
  channels : option (list NotificationChannel);
  priority : option NotificationPriority;
  metadata : option JS.Value;
  actions : option (list NotificationAction);
  expiresAt : option JS.Date;
  imageUrl : option string;
  iconUrl : option string
}.

(** [{ ...dto, userIds: batch }] *)
Definition withUserIds (dto : BulkNotificationDTO) (batch : list string)
  : BulkNotificationDTO :=
  {| userIds := batch; type := type dto; title := title dto;
     message := message dto; channels := channels dto;
     priority := priority dto; metadata := metadata dto;
     actions := actions dto; expiresAt := expiresAt dto;
     imageUrl := imageUrl dto; iconUrl := iconUrl dto |}.

Record NotificationResponseDTO := {
  r_id : string;
  r_userId : string;
  r_type : NotificationType;
  r_title : string;
  r_message : string;
  r_channels : list NotificationChannel;
  r_priority : NotificationPriority;
  r_metadata : option JS.Value;
  r_actions : option (list NotificationAction);
  r_expiresAt : option JS.Date;
  r_imageUrl : option string;
  r_iconUrl : option string;
  r_isRead : bool;
  r_readAt : option JS.Date;
  r_createdAt : JS.Date;
  r_deliveredAt : option JS.Date
}.

Definition toResponseDTO (notification : Notification.t)
  : NotificationResponseDTO :=
  {| r_id := Notification.id notification;
     r_userId := Notification.userId notification;
     r_type := Notification.type notification;
     r_title := Notification.title notification;
     r_message := Notification.message notification;
     r_channels := Notification.channels notification;
     r_priority := Notification.priority notification;
     r_metadata := Notification.metadata notification;
     r_actions := Notification.actions notification;
     r_expiresAt := Notification.expiresAt notification;
     r_imageUrl := Notification.imageUrl notification;
     r_iconUrl := Notification.iconUrl notification;
     r_isRead := Notification.isRead notification;
     r_readAt := Notification.readAt notification;
     r_createdAt := Notification.createdAt notification;
     r_deliveredAt := Notification.deliveredAt notification |}.

End DTO.

(** ** CreateNotification use case *)

Module CreateNotification.
Import Notification DTO.

Section UseCase.
Context {W : Type} {R : Runtime W} {host : JS.Host}
        {NR : INotificationRepository W} {PR : IUserPreferencesRepository W}.

Definition execute (dto : CreateNotificationDTO) : M W NotificationResponseDTO :=
  tryCatch
    ((* Get user preferences *)
     preferences <- findByUserId (c_userId dto) ;;
     (* Determine channels based on preferences *)
     let channels := JS.orObject (c_channels dto) [ALL] in
     let channels :=
       match preferences with
       | Some preferences =>
           let enabledChannels :=
             UserPreferences.getEnabledChannels preferences (c_type dto) in
           if (0 <? length enabledChannels)%nat
              && negb (bool_decide (is_Some (c_channels dto)))
           then enabledChannels else channels
       | None => channels
       end in
     (* Create notification entity *)
     id <- lift uuidv4 ;;
     expiresAt <- match c_expiresAt dto with
                  | Some d => ret d
                  | None => NotificationDomainService.calculateExpiryDate 30
                  end ;;
     notification <-
       Notification.new id (c_userId dto) (c_type dto) (c_title dto)
         (c_message dto) channels (JS.orObject (c_priority dto) NORMAL)
         (c_metadata dto) (c_actions dto) (Some expiresAt) (c_imageUrl dto)
         (c_iconUrl dto) ;;
     (* Validate notification *)
     NotificationDomainService.validateNotification notification ;;;
     (* Save to repository *)
     saved <- save notification ;;
     ret (toResponseDTO saved))
    (fun error =>
       throw (Thrown.AppError
                (JS.orString (Thrown.message error) "Failed to create notification")
                (JS.orNumber (Thrown.statusCode error) 500))).

End UseCase.
End CreateNotification.

(** ** SendBulkNotifications use case *)

Module SendBulkNotifications.
Import Notification DTO.

Record Failed := { userId : string; error : string }.

Record Result := {
  successful : list NotificationResponseDTO;
  failed : list Failed
}.

Section UseCase.
Context {W : Type} {R : Runtime W} {host : JS.Host}
        {NR : INotificationRepository W} {PR : IUserPreferencesRepository W}.

(** The body of the [try] block for one [userId].  Each path through it
    ends with one [push]: [inl] is the entry pushed on [failed] before
    [continue], [inr] the entry pushed on [successful]. *)
Definition tryBody (dto : BulkNotificationDTO) (userId : string)
  : M W (Failed + NotificationResponseDTO) :=
  (* Get user preferences *)
  preferences <- findByUserId userId ;;
  (* Determine channels based on preferences *)
  let channels := JS.orObject (DTO.channels dto) [ALL] in
  let '(channels, disabled) :=
    match preferences with
    | Some preferences =>
        let enabledChannels :=
          UserPreferences.getEnabledChannels preferences (DTO.type dto) in
        let channels :=
          if (0 <? length enabledChannels)%nat
             && negb (bool_decide (is_Some (DTO.channels dto)))
          then enabledChannels else channels in
        (* Check if user should receive this notification *)
        (channels, (length channels =? 0)%nat)
    | None => (channels, false)
    end in
  if disabled : bool then
    ret (inl {| userId := userId;
                error := "User has disabled all channels for this type" |})
  else
    (* Create notification entity *)
    id <- lift uuidv4 ;;
    expiresAt <- match DTO.expiresAt dto with
                 | Some d => ret d
                 | None => NotificationDomainService.calculateExpiryDate 30
                 end ;;
    notification <-
      Notification.new id userId (DTO.type dto) (DTO.title dto)
        (DTO.message dto) channels (JS.orObject (DTO.priority dto) NORMAL)
        (DTO.metadata dto) (DTO.actions dto) (Some expiresAt)
        (DTO.imageUrl dto) (DTO.iconUrl dto) ;;
    (* Validate notification *)
    NotificationDomainService.validateNotification notification ;;;
    (* Save to repository *)
    saved <- save notification ;;
    ret (inr (toResponseDTO saved)).

(** One iteration of the [for ... of dto.userIds] loop: the [try] body and
    its [catch]. *)
Definition iteration (dto : BulkNotificationDTO) (userId : string)
  : M W (Failed + NotificationResponseDTO) :=
  tryCatch (tryBody dto userId)
    (fun err =>
       ret (inl {| userId := userId;
                   error := JS.orString (Thrown.message err)
                                        "Failed to create notification" |})).

Fixpoint loop (dto : BulkNotificationDTO) (ids : list string)
    (successful : list NotificationResponseDTO) (failed : list Failed)
  : M W Result :=
  match ids with
  | [] => ret {| successful := successful; failed := failed |}
  | userId :: rest =>
      pushed <- iteration dto userId ;;
      match pushed with
      | inl f => loop dto rest successful (failed ++ [f])
      | inr r => loop dto rest (successful ++ [r]) failed
      end
  end.

Definition execute (dto : BulkNotificationDTO) : M W Result :=
  loop dto (userIds dto) [] [].

(** [executeBatched]: the [for (let i = 0; i < length; i += batchSize)]
    loop.  The loop need not terminate ([batchSize <= 0]); [fuel] bounds the
    number of iterations and [None] is "still running". *)
Fixpoint batches (fuel : nat) (dto : BulkNotificationDTO) (batchSize i : Z)
    (allSuccessful : list NotificationResponseDTO) (allFailed : list Failed)
    (w : W) : option ((Thrown.t + Result) * W) :=
  match fuel with
  | O => None
  | S fuel' =>
      if (i <? Z.of_nat (length (userIds dto)))%Z then
        let batch := JS.slice (userIds dto) i (i + batchSize) in
        let batchDto := withUserIds dto batch in
        match execute batchDto w with
        | (inr result, w') =>
            batches fuel' dto batchSize (i + batchSize)%Z
              (allSuccessful ++ successful result)
              (allFailed ++ failed result) w'
        | (inl e, w') => Some (inl e, w')
        end
      else
        Some (inr {| successful := allSuccessful; failed := allFailed |}, w)
  end.

(** [batchSize: number = 100]; the batch size is an integer here. *)
Definition executeBatched (fuel : nat) (dto : BulkNotificationDTO)
    (batchSize : option Z) (w : W) : option ((Thrown.t + Result) * W) :=
  batches fuel dto (default 100%Z batchSize) 0 [] [] w.

End UseCase.
End SendBulkNotifications.

(** ** MarkAsRead use case *)

Module MarkAsRead.

Section UseCase.
Context {W : Type} {R : Runtime W} {NR : INotificationRepository W}.

Definition execute (notificationId userId : string) : M W unit :=
  tryCatch
    (notification <- findById notificationId ;;
     match notification with
     | None => throw (Thrown.AppError "Notification not found" 404)
     | Some notification =>
         if negb (String.eqb (Notification.userId notification) userId) then
           throw (Thrown.AppError
                    "Unauthorized to mark this notification as read" 403)
         else if Notification.isRead notification then
           ret tt (* Already read, nothing to do *)
         else
           Notification.markAsRead notification ;;;
           markAsRead notificationId
     end)
    (fun error =>
       throw (Thrown.AppError
                (JS.orString (Thrown.message error)
                             "Failed to mark notification as read")
                (JS.orNumber (Thrown.statusCode error) 500))).

End UseCase.
End MarkAsRead.

(** ** PushNotificationQueue worker (infrastructure/queue) *)

Module PushNotificationQueue.
Import PushSubscription.

(** An action of a push payload: [{ action, title }]. *)
Record PushAction := { action : string; action_title : string }.

(** The interface [PushNotificationJob]. *)
Module Job.
Record t := {
  notificationId : string;
  userId : string;
  title : string;
  message : string;
  data : option JS.Value;
  icon : option string;
  image : option string;
  badge : option string;
  actions : option (list PushAction)
}.
End Job.

(** The payload handed to the providers:
    [{ title, message, data, icon, image, badge, actions }]. *)
Record Payload := {
  title : string;
  message : string;
  data : option JS.Value;
  icon : option string;
  image : option string;
  badge : option string;
  actions : option (list PushAction)
}.

Record FailedSend := { failed_id : string; error : string }.

(** What [sendBatch] of a provider resolves to. *)
Record BatchResult := {
  successful : list string;
  failed : list FailedSend
}.

(** The two send providers ([WebPushProvider], [FCMProvider]) behind
    [IPushProvider.sendBatch]. *)
Class PushProviders (W : Type) := {
  webPushProvider_sendBatch : list PushSubscription.t -> Payload -> M W BatchResult;
  fcmProvider_sendBatch : list PushSubscription.t -> Payload -> M W BatchResult
}.

Section Worker.
Context {W : Type} {R : Runtime W} {SR : ISubsriptionRepository W} {PP : PushProviders W}.

(** [subscriptions.find(s => s.id === wanted)] with the position of the
    object found: the loops mutate that object in place. *)
Definition find (wanted : string) (subscriptions : list PushSubscription.t)
  : option (nat * PushSubscription.t) :=
  list_find (fun s => id s = wanted) subscriptions.

(** Body of [for (const subId of result.successful)]. *)
Definition onSuccessful (subId : string)
    (subscriptions : list PushSubscription.t) : M W (list PushSubscription.t) :=
  match find subId subscriptions with
  | Some (i, sub) =>
      sub <- recordSuccess sub ;;
      update sub ;;;
      ret (<[i := sub]> subscriptions)
  | None => ret subscriptions
  end.

(** The branch taken on one failed send. *)
Definition settle (failed : FailedSend) (sub : PushSubscription.t)
  : M W PushSubscription.t :=
  if String.eqb (error failed) "SUBSCRIPTION_EXPIRED" then
    ret (deactivate sub)
  else
    recordFailure (error failed) sub.

(** Body of [for (const failed of result.failed)]. *)
Definition onFailed (failed : FailedSend)
    (subscriptions : list PushSubscription.t) : M W (list PushSubscription.t) :=
  match find (failed_id failed) subscriptions with
  | Some (i, sub) =>
      sub <- settle failed sub ;;
      update sub ;;;
      ret (<[i := sub]> subscriptions)
  | None => ret subscriptions
  end.

Fixpoint forEach {A} (body : A -> list PushSubscription.t -> M W (list PushSubscription.t))
    (items : list A) (subscriptions : list PushSubscription.t)
  : M W (list PushSubscription.t) :=
  match items with
  | [] => ret subscriptions
  | x :: rest =>
      subscriptions <- body x subscriptions ;;
      forEach body rest subscriptions
  end.

(** Update subscriptions based on results. *)
Definition reconcile (result : BatchResult)
    (subscriptions : list PushSubscription.t) : M W (list PushSubscription.t) :=
  subscriptions <- forEach onSuccessful (successful result) subscriptions ;;
  forEach onFailed (failed result) subscriptions.

(** [processJob]; the value is the final state of the subscription objects
    the job loaded.  [webPushSubs] and [fcmSubs] hold the same objects as
    [subscriptions], so each provider sees their state at the time of its
    call.  The [catch] of the source logs and rethrows. *)
Definition processJob (job : Job.t) : M W (list PushSubscription.t) :=
  (* Get active subscriptions for user *)
  subscriptions <- findActiveByUserId (Job.userId job) ;;
  if (length subscriptions =? 0)%nat then ret subscriptions
  else
    let payload :=
      {| title := Job.title job; message := Job.message job;
         data := Job.data job; icon := Job.icon job; image := Job.image job;
         badge := Job.badge job; actions := Job.actions job |} in
    (* Send Web Push notifications *)
    subscriptions <-
      (let webPushSubs := filter (fun s => isWebPush s = true) subscriptions in
       if (0 <? length webPushSubs)%nat then
         webResult <- webPushProvider_sendBatch webPushSubs payload ;;
         reconcile webResult subscriptions
       else ret subscriptions) ;;
    (* Send FCM notifications *)
    (let fcmSubs := filter (fun s => isFCM s = true) subscriptions in
     if (0 <? length fcmSubs)%nat then
       fcmResult <- fcmProvider_sendBatch fcmSubs payload ;;
       reconcile fcmResult subscriptions
     else ret subscriptions).

End Worker.
End PushNotificationQueue.

(** ** WebSocketManager (infrastructure/websocket)

    The three [Map]s of the manager; a connection is known by its socket id.
    Joining the socket.io room is the transport's business. *)

Module WebSocketManager.

Record t := mk {
  userConnections : gmap string (gset string); (* userId -> Set of socketIds *)
  socketUsers : gmap string string;            (* socketId -> userId *)
  userMetadata : gmap string JS.Value          (* userId -> metadata *)
}.

Definition empty : t := mk ∅ ∅ ∅.

Definition addConnection (socketId userId : string)
    (metadata : option JS.Value) (m : t) : t :=
  (* Add to userConnections *)
  let connections :=
    if bool_decide (is_Some (userConnections m !! userId))
    then userConnections m
    else <[userId := ∅]> (userConnections m) in
  let connections := alter (fun sockets => sockets ∪ {[socketId]}) userId connections in
  (* Add to socketUsers *)
  let users := <[socketId := userId]> (socketUsers m) in
  (* Store metadata *)
  let meta :=
    match metadata with
    | Some md => if JS.truthy md then <[userId := md]> (userMetadata m)
                 else userMetadata m
    | None => userMetadata m
    end in
  mk connections users meta.

Definition removeConnection (socketId : string) (m : t) : t :=
  match socketUsers m !! socketId with
  | Some userId =>
      if JS.truthyString userId then
        let '(connections, meta) :=
          match userConnections m !! userId with
          | Some sockets =>
              let sockets := sockets ∖ {[socketId]} in
              (* If no more connections, remove user entry *)
              if (size sockets =? 0)%nat then
                (delete userId (userConnections m), delete userId (userMetadata m))
              else
                (<[userId := sockets]> (userConnections m), userMetadata m)
          | None => (userConnections m, userMetadata m)
          end in
        mk connections (delete socketId (socketUsers m)) meta
      else m
  | None => m
  end.

Definition isUserOnline (userId : string) (m : t) : bool :=
  match userConnections m !! userId with
  | Some sockets => (0 <? size sockets)%nat
  | None => false
  end.

Definition getUserMetadata (userId : string) (m : t) : option JS.Value :=
  userMetadata m !! userId.

(** Presence events as the socket handler issues them. *)
Inductive Event :=
| Connect (socketId userId : string) (metadata : option JS.Value)
| Disconnect (socketId : string).

Definition step (m : t) (e : Event) : t :=
  match e with
  | Connect socketId userId metadata => addConnection socketId userId metadata m
  | Disconnect socketId => removeConnection socketId m
  end.

Definition run (events : list Event) (m : t) : t := foldl step m events.

End WebSocketManager.

(** ** An in-memory world

    A concrete instance of the collaborators, used to run the embedded code
    on explicit inputs: a clock that advances by [tick] at each reading, a
    supply of uuids, and two collections held as lists.  [insertOne] rejects
    a duplicate [_id], as the database does. *)

Module Sim.

Record World := mk {
  clock : Z;
  tick : Z;
  uuids : list string;
  preferences : list UserPreferences.t;
  notifications : list Notification.t
}.

Definition read_clock (w : World) : JS.Date * World :=
  (clock w,
   mk (clock w + tick w)%Z (tick w) (uuids w) (preferences w) (notifications w)).

Definition draw_uuid (w : World) : string * World :=
  match uuids w with
  | [] => ("", w)
  | u :: rest => (u, mk (clock w) (tick w) rest (preferences w) (notifications w))
  end.

Definition insertOne (doc : Notification.t) : M World unit :=
  fun w =>
    if existsb (fun d => String.eqb (Notification.id d) (Notification.id doc))
               (notifications w)
    then (inl (Thrown.Error "E11000 duplicate key error collection"), w)
    else (inr tt,
          mk (clock w) (tick w) (uuids w) (preferences w)
             (notifications w ++ [doc])).

Definition findOne (id : string) : M World (option Notification.t) :=
  fun w =>
    (inr (List.find (fun d => String.eqb (Notification.id d) id)
                    (notifications w)), w).

Definition setRead (id : string) (readAt : JS.Date) : M World unit :=
  fun w =>
    (inr tt,
     mk (clock w) (tick w) (uuids w) (preferences w)
        (map (fun d => if String.eqb (Notification.id d) id
                       then Notification.setRead d true (Some readAt)
                       else d)
             (notifications w))).

Definition findPreferences (userId : string) : M World (option UserPreferences.t) :=
  fun w =>
    (inr (List.find (fun d => String.eqb (UserPreferences.userId d) userId)
                    (preferences w)), w).

Definition runtime : Runtime World :=
  {| newDate := read_clock; uuidv4 := draw_uuid |}.

Definition notificationCollection : NotificationCollection World :=
  {| notifications_insertOne := insertOne;
     notifications_findOne := findOne;
     notifications_setRead := setRead |}.

Definition preferencesCollection : UserPreferencesCollection World :=
  {| preferences_findOne := findPreferences |}.

(** A host whose local time is UTC. *)
Definition utcHost : JS.Host := {| JS.LocalTZA := fun _ _ => 0%Z |}.

(** The MongoDB repositories over the in-memory collections, and the use
    cases wired to them. *)
Definition notificationRepository : INotificationRepository World :=
  @MongoNotificationRepository.repository World runtime notificationCollection.

Definition preferencesRepository : IUserPreferencesRepository World :=
  @MongoUserPreferencesRepository.repository World preferencesCollection.

Definition sendBulk (dto : DTO.BulkNotificationDTO)
  : M World SendBulkNotifications.Result :=
  @SendBulkNotifications.execute World runtime utcHost
     notificationRepository preferencesRepository dto.

Definition sendBatched (fuel : nat) (dto : DTO.BulkNotificationDTO)
    (batchSize : option Z) (w : World) :=
  @SendBulkNotifications.executeBatched World runtime utcHost
     notificationRepository preferencesRepository fuel dto batchSize w.

Definition create (dto : DTO.CreateNotificationDTO)
  : M World DTO.NotificationResponseDTO :=
  @CreateNotification.execute World runtime utcHost
     notificationRepository preferencesRepository dto.

Definition markRead (notificationId userId : string) : M World unit :=
  @MarkAsRead.execute World runtime notificationRepository notificationId userId.

End Sim.

(** ** Reference readings used to state the properties *)

Module Reference.
Import UserPreferences.

(** The time format the preferences schema accepts:
    [/^([01]\d|2[0-3]):([0-5]\d)$/]. *)
Definition isHHmm (s : string) : bool :=
  match s with
  | String a (String b (String c (String d (String e EmptyString)))) =>
      match JS.digit a, JS.digit b, JS.digit d, JS.digit e with
      | Some h1, Some h2, Some m1, Some m2 =>
          Ascii.eqb c ":"
          && ((h1 <=? 1)%Z || ((h1 =? 2)%Z && (h2 <=? 3)%Z))
          && (m1 <=? 5)%Z
      | _, _, _, _ => false
      end
  | _ => false
  end.

Definition digitValue (c : ascii) : Z :=
  match JS.digit c with Some d => d | None => 0%Z end.

(** The minute of the day an [HH:mm] text denotes. *)
Definition clockMinutes (s : string) : Z :=
  match s with
  | String a (String b (String _ (String d (String e EmptyString)))) =>
      ((10 * digitValue a + digitValue b) * 60
       + (10 * digitValue d + digitValue e))%Z
  | _ => 0
  end.

(** Membership of a minute of the day in the half-open window
    [[start, end)], wrapping midnight when [start >= end]. *)
Definition inWindow (start stop current : Z) : bool :=
  if (start <? stop)%Z then (start <=? current)%Z && (current <? stop)%Z
  else (start <=? current)%Z || (current <? stop)%Z.

(** The minute of the day the host's clock shows, which is what
    [now.getHours() * 60 + now.getMinutes()] computes. *)
Definition hostMinutes {host : JS.Host} (now : JS.Date) : Z :=
  (JS.getHours now * 60 + JS.getMinutes now)%Z.

(** Offsets from UTC, in minutes, of some zones of the tz database that
    keep one offset all year. *)
Definition zoneOffsetMinutes (tz : string) : Z :=
  if String.eqb tz "Asia/Tokyo" then 540
  else if String.eqb tz "America/Mexico_City" then -360
  else if String.eqb tz "America/Bogota" then -300
  else 0.

(** The minute of the day in a named zone. *)
Definition zoneMinutes (tz : string) (now : JS.Date) : Z :=
  ((now / JS.msPerMinute + zoneOffsetMinutes tz) mod 1440)%Z.

(** Quiet hours with the time of day taken in the recipient's configured
    time zone. *)
Definition quietInRecipientZone (q : QuietHours) (now : JS.Date) : bool :=
  enabled q &&
  inWindow (clockMinutes (startTime q)) (clockMinutes (endTime q))
           (zoneMinutes (timezone q) now).

(** A notification is dropped by the filter, on the reading "expiry at or
    before the evaluation instant". *)
Definition expiredAtOrBefore (now : JS.Date) (n : Notification.t) : bool :=
  match Notification.expiresAt n with
  | Some e => (e <=? now)%Z
  | None => false
  end.

(** ... and on the reading "expiry strictly before the evaluation
    instant". *)
Definition expiredBefore (now : JS.Date) (n : Notification.t) : bool :=
  match Notification.expiresAt n with
  | Some e => (e <? now)%Z
  | None => false
  end.

(** [n] consecutive provider failures recorded on a subscription. *)
Fixpoint failures {W : Type} {R : Runtime W} (errors : list string)
    (s : PushSubscription.t) : M W PushSubscription.t :=
  match errors with
  | [] => ret s
  | e :: rest => s <- PushSubscription.recordFailure e s ;; failures rest s
  end.

Section Bulk.
Import DTO SendBulkNotifications.
Context {W : Type} {R : Runtime W} {host : JS.Host}
        {NR : INotificationRepository W} {PR : IUserPreferencesRepository W}.

(** The recipient an entry of either result list is about. *)
Definition recipientOf (o : Failed + NotificationResponseDTO) : string :=
  match o with inl f => userId f | inr r => r_userId r end.

Definition successes (outs : list (Failed + NotificationResponseDTO))
  : list NotificationResponseDTO :=
  omap (fun o => match o with inr r => Some r | inl _ => None end) outs.

Definition failures_of (outs : list (Failed + NotificationResponseDTO))
  : list Failed :=
  omap (fun o => match o with inl f => Some f | inr _ => None end) outs.

(** The recipient ids that occur in the two lists of a result. *)
Definition recipients (r : Result) : list string :=
  map r_userId (successful r) ++ map userId (failed r).

(** Two bulk deliveries one after the other, their lists concatenated. *)
Definition andThen (first second : M W Result) : M W Result :=
  r1 <- first ;;
  r2 <- second ;;
  ret {| successful := successful r1 ++ successful r2;
         failed := failed r1 ++ failed r2 |}.

(** The expiry and the creation instant of a notification whose expiry is
    settled in the world [w2]: the caller's expiry when given, otherwise
    [setDate(getDate() + 30)] on the reading [new Date()] that
    [calculateExpiryDate] takes in [w2]; [createdAt] is the reading taken
    next, by the constructor. *)
Definition builtAt (given : option JS.Date) (w2 : W)
    (r : NotificationResponseDTO) : Prop :=
  r_expiresAt r =
    Some (match given with
          | Some d => d
          | None => JS.setDatePlus (fst (newDate w2)) 30
          end) /\
  r_createdAt r =
    fst (newDate (match given with
                  | Some _ => w2
                  | None => snd (newDate w2)
                  end)).

(** ... for a creation for the recipient [u] that starts in the world [w]:
    the preferences of [u] are looked up in [w], the id is drawn in the
    world the lookup leaves, and the expiry is settled in the world that
    leaves. *)
Definition createdFrom (given : option JS.Date) (u : string) (w : W)
    (r : NotificationResponseDTO) : Prop :=
  exists prefs w1,
    findByUserId u w = (inr prefs, w1) /\
    builtAt given (snd (uuidv4 w1)) r.

(** The entries the loop pushes, one per recipient and in the order of the
    recipients, with the world threaded through the iterations. *)
Fixpoint outcomes (dto : BulkNotificationDTO) (ids : list string) (w : W)
  : list (Failed + NotificationResponseDTO) * W :=
  match ids with
  | [] => ([], w)
  | u :: rest =>
      match iteration dto u w with
      | (inr o, w1) => let (os, w2) := outcomes dto rest w1 in (o :: os, w2)
      | (inl _, w1) => ([], w1)
      end
  end.

End Bulk.

(** The connections registered and not since removed, each with the
    recipient it was registered for, after a sequence of presence events. *)
Fixpoint live (events : list WebSocketManager.Event)
    (acc : list (string * string)) : list (string * string) :=
  match events with
  | [] => acc
  | WebSocketManager.Connect socketId userId _ :: rest =>
      live rest ((socketId, userId) :: acc)
  | WebSocketManager.Disconnect socketId :: rest =>
      live rest (List.filter (fun p => negb (String.eqb (fst p) socketId)) acc)
  end.

Definition hasLiveConnection (userId : string)
    (events : list WebSocketManager.Event) : bool :=
  existsb (fun p => String.eqb (snd p) userId) (live events []).

Section Presence.
Import WebSocketManager.

(** The sockets the manager holds for a user; none when the user has no entry. *)
Definition socketsOf (userId : string) (m : t) : gset string :=
  default ∅ (userConnections m !! userId).

(** An event issued in a state in which the socket is not registered for
    another user, and for a user id that is not blank. *)
Definition admissible (e : Event) (m : t) : Prop :=
  match e with
  | Connect c u _ => u <> "" /\ forall u', socketUsers m !! c = Some u' -> u' = u
  | Disconnect _ => True
  end.

Fixpoint wellFormed (events : list Event) (m : t) : Prop :=
  match events with
  | [] => True
  | e :: rest => admissible e m /\ wellFormed rest (step m e)
  end.

(** The three maps agree with each other and with the connections still
    registered. *)
Record consistent (m : t) (acc : list (string * string)) : Prop := {
  sockets_users : forall u c, c ∈ socketsOf u m <-> socketUsers m !! c = Some u;
  users_named : forall c u, socketUsers m !! c = Some u -> u <> "";
  entries_inhabited : forall u ss, userConnections m !! u = Some ss -> ss <> ∅;
  metadata_owned : forall u, is_Some (userMetadata m !! u) -> is_Some (userConnections m !! u);
  acc_users : forall c u, In (c, u) acc <-> socketUsers m !! c = Some u
}.

End Presence.

(** A set of worlds in which the clock shows [now] and keeps showing it:
    the evaluation instant of a synchronous call. *)
Definition ClockShows {W : Type} {R : Runtime W} (now : JS.Date) (I : W -> Prop)
  : Prop :=
  forall w, I w -> fst (newDate w) = now /\ I (snd (newDate w)).

(** The per-type / per-channel enablement flag of a preferences record. *)
Definition enablementFlag (p : UserPreferences.t)
    (ty : Notification.NotificationType)
    (channel : Notification.NotificationChannel) : bool :=
  let typePrefs := index (preferences p) ty in
  match channel with
  | Notification.IN_APP => inApp typePrefs
  | Notification.PUSH => push typePrefs
  | Notification.WEBSOCKET => websocket typePrefs
  | Notification.ALL => inApp typePrefs || push typePrefs || websocket typePrefs
  end.

End Reference.

(** ** Sample data for the worked examples *)

Module Examples.
Import UserPreferences.

(** Preferences with every channel enabled and the given quiet hours. *)
Definition preferencesWith (userId : string) (q : QuietHours)
  : UserPreferences.t :=
  UserPreferences.mk "p-1" userId getDefaultPreferences q "es" true true
                     0%Z 0%Z.

(** Quiet hours from 22:00 to 08:00. *)
Definition nightly (tz : string) : QuietHours :=
  {| enabled := true; startTime := "22:00"; endTime := "08:00";
     timezone := tz |}.

(** A world whose clock stands at the given time of 1970-01-01 (UTC). *)
Definition at_ (hours minutes : Z) : Sim.World :=
  Sim.mk (hours * JS.msPerHour + minutes * JS.msPerMinute) 0 [] [] [].

Definition outage : Notification.t :=
  Notification.mk "n-1" "u1" Notification.INFO "Outage" "Service is down"
    [Notification.IN_APP] Notification.URGENT None None None None None
    false None 0%Z None None None.

(** A notification whose expiry instant is the given one. *)
Definition expiringAt (id : string) (expiry : option JS.Date) : Notification.t :=
  Notification.mk id "u1" Notification.INFO "Reminder" "Stand-up at ten"
    [Notification.IN_APP] Notification.NORMAL None None expiry None None
    false None 0%Z None None None.

(** A healthy web subscription with the given failure counter. *)
Definition webSubscription (count : Z) : PushSubscription.t :=
  PushSubscription.mk "s-1" "u1" PushSubscription.WEB
    "https://push.example/abc"
    (Some {| PushSubscription.p256dh := "key"; PushSubscription.auth := "secret" |})
    None None true 0%Z 0%Z count None None.

(** Preferences of a recipient who switched every channel off for INFO. *)
Definition infoOff (userId : string) : UserPreferences.t :=
  let off := {| inApp := false; push := false; websocket := false |} in
  let on := {| inApp := true; push := true; websocket := true |} in
  UserPreferences.mk "p-2" userId
    {| ofINFO := off; ofSUCCESS := on; ofWARNING := on; ofERROR := on;
       ofSYSTEM := on |}
    getDefaultQuietHours "es" true true 0%Z 0%Z.

(** A bulk request without explicit channels, priority or expiry. *)
Definition announcement (ids : list string) : DTO.BulkNotificationDTO :=
  {| DTO.userIds := ids; DTO.type := Notification.INFO;
     DTO.title := "Maintenance"; DTO.message := "Tonight at 22:00";
     DTO.channels := None; DTO.priority := None; DTO.metadata := None;
     DTO.actions := None; DTO.expiresAt := None; DTO.imageUrl := None;
     DTO.iconUrl := None |}.

(** The same request for one recipient. *)
Definition memo (userId : string) : DTO.CreateNotificationDTO :=
  {| DTO.c_userId := userId; DTO.c_type := Notification.INFO;
     DTO.c_title := "Maintenance"; DTO.c_message := "Tonight at 22:00";
     DTO.c_channels := None; DTO.c_priority := None; DTO.c_metadata := None;
     DTO.c_actions := None; DTO.c_expiresAt := None; DTO.c_imageUrl := None;
     DTO.c_iconUrl := None |}.

(** Recipient A has default preferences, B has no record, C has switched
    INFO off; the clock starts at 1000 ms and advances 1 ms per reading. *)
Definition office : Sim.World :=
  Sim.mk 1000 1 ["id-1"; "id-2"; "id-3"; "id-4"]
    [preferencesWith "A" getDefaultQuietHours; infoOff "C"] [].

(** What the socket handler passes as metadata of a connection. *)
Definition browser : option JS.Value :=
  Some (JS.Object [("userAgent", JS.Str "Mozilla/5.0"); ("ip", JS.Str "10.0.0.7")]).

(** A stored notification of user u1, read at 500 ms or unread. *)
Definition stored (readAt : option JS.Date) : Notification.t :=
  Notification.mk "n-1" "u1" Notification.INFO "Reminder" "Stand-up at ten"
    [Notification.IN_APP] Notification.NORMAL None None None None None
    (bool_decide (is_Some readAt)) readAt 0%Z None None None.

Definition inbox (readAt : option JS.Date) : Sim.World :=
  Sim.mk 1000 1 [] [] [stored readAt].

(** A world whose clock stands still at [now]. *)
Definition frozen (now : JS.Date) : Sim.World := Sim.mk now 0 [] [] [].

End Examples.


(* ===================================================================== *)
(** * Part I, continued. Further components of the sources *)
(* ===================================================================== *)

From Stdlib Require Import Sorting.Sorted.
From stdpp Require Import pretty.

(** ** Notification entity: delivery markers and routing predicates *)

Module NotificationOps.
Import Notification.

Definition channel_eqb (a b : NotificationChannel) : bool :=
  match a, b with
  | IN_APP, IN_APP | PUSH, PUSH | WEBSOCKET, WEBSOCKET | ALL, ALL => true
  | _, _ => false
  end.

(** [this.channels.includes(c)] *)
Definition includes (cs : list NotificationChannel) (c : NotificationChannel)
  : bool :=
  existsb (channel_eqb c) cs.

Definition shouldSendPush (n : Notification.t) : bool :=
  includes (channels n) PUSH || includes (channels n) ALL.

Definition shouldSendWebSocket (n : Notification.t) : bool :=
  includes (channels n) WEBSOCKET || includes (channels n) IN_APP
  || includes (channels n) ALL.

Definition shouldStoreInDatabase (n : Notification.t) : bool :=
  includes (channels n) IN_APP || includes (channels n) ALL.

(** The fields written by [markAsDelivered] and [markAsFailed]. *)
Definition setDelivery (n : t) (delivered failedAt' : option JS.Date)
    (error : option string) : t :=
  mk (id n) (userId n) (type n) (title n) (message n) (channels n)
     (priority n) (metadata n) (actions n) (expiresAt n) (imageUrl n)
     (iconUrl n) (isRead n) (readAt n) (createdAt n) delivered failedAt'
     error.

Section Methods.
Context {W : Type} {R : Runtime W}.

Definition markAsDelivered (n : t) : M W t :=
  now <- lift newDate ;;
  ret (setDelivery n (Some now) (failedAt n) (errorMessage n)).

Definition markAsFailed (error : string) (n : t) : M W t :=
  now <- lift newDate ;;
  ret (setDelivery n (deliveredAt n) (Some now) (Some error)).

End Methods.
End NotificationOps.

(** ** NotificationDomainService: ordering, grouping and summaries *)

Module DomainServiceOps.
Import Notification.

(** The comparator handed to [sort]: negative when [a] goes first. *)
Definition compare (a b : Notification.t) : Z :=
  let weightDiff :=
    (NotificationDomainService.getPriorityWeight (priority b)
     - NotificationDomainService.getPriorityWeight (priority a))%Z in
  if negb (weightDiff =? 0)%Z then weightDiff
  else
    (* If same priority, sort by creation date (newest first) *)
    (createdAt b - createdAt a)%Z.

(** [Array.prototype.sort] is stable, and with a comparator that orders
    consistently the sorted array does not depend on the algorithm the
    engine uses; it is computed here by stable insertion. *)
Fixpoint insert (x : Notification.t) (sorted : list Notification.t)
  : list Notification.t :=
  match sorted with
  | [] => [x]
  | y :: rest =>
      if (compare x y <=? 0)%Z then x :: y :: rest else y :: insert x rest
  end.

Fixpoint sortByPriority (notifications : list Notification.t)
  : list Notification.t :=
  match notifications with
  | [] => []
  | x :: rest => insert x (sortByPriority rest)
  end.

(** [grouped.get(userId) || []], [push], [grouped.set(userId, ...)] on a
    [Map]: an existing key keeps its position, a new key goes last. *)
Fixpoint append (userId : string) (n : Notification.t)
    (grouped : list (string * list Notification.t))
  : list (string * list Notification.t) :=
  match grouped with
  | [] => [(userId, [n])]
  | (key, userNotifications) :: rest =>
      if String.eqb key userId then (key, userNotifications ++ [n]) :: rest
      else (key, userNotifications) :: append userId n rest
  end.

(** The [Map] is held as the list of its entries in iteration order. *)
Definition groupByUser (notifications : list Notification.t)
  : list (string * list Notification.t) :=
  fold_left (fun grouped n => append (userId n) n grouped) notifications [].

(** [grouped.get(userId)] *)
Definition get (userId : string) (grouped : list (string * list Notification.t))
  : option (list Notification.t) :=
  snd <$> List.find (fun entry => String.eqb (fst entry) userId) grouped.

Definition type_eqb (a b : NotificationType) : bool :=
  match a, b with
  | INFO, INFO | SUCCESS, SUCCESS | WARNING, WARNING | ERROR, ERROR
  | SYSTEM, SYSTEM => true
  | _, _ => false
  end.

(** The value of an enum member, and [type.toLowerCase()] of it. *)
Definition typeName (ty : NotificationType) : string :=
  match ty with
  | INFO => "INFO" | SUCCESS => "SUCCESS" | WARNING => "WARNING"
  | ERROR => "ERROR" | SYSTEM => "SYSTEM"
  end.

Definition toLowerCase (ty : NotificationType) : string :=
  match ty with
  | INFO => "info" | SUCCESS => "success" | WARNING => "warning"
  | ERROR => "error" | SYSTEM => "system"
  end.

(** [acc[notif.type] = (acc[notif.type] || 0) + 1] on the accumulator
    object, held as its entries in key order (the order of insertion). *)
Fixpoint increment (ty : NotificationType) (acc : list (NotificationType * Z))
  : list (NotificationType * Z) :=
  match acc with
  | [] => [(ty, 1%Z)]
  | (key, count) :: rest =>
      if type_eqb key ty then (key, (count + 1)%Z) :: rest
      else (key, count) :: increment ty rest
  end.

Definition typeCount (notifications : list Notification.t)
  : list (NotificationType * Z) :=
  fold_left (fun acc notif => increment (type notif) acc) notifications [].

(** [parts.join(', ')] *)
Fixpoint join (parts : list string) : string :=
  match parts with
  | [] => ""
  | [p] => p
  | p :: rest => String.append p (String.append ", " (join rest))
  end.

Definition createBatchSummary (notifications : list Notification.t) : string :=
  let parts :=
    map (fun entry => String.append (pretty (snd entry))
                        (String.append " " (toLowerCase (fst entry))))
        (typeCount notifications) in
  String.append "You have "
    (String.append (pretty (length notifications))
       (String.append " new notifications: " (join parts))).

End DomainServiceOps.

(** ** Notions used to state the further properties *)

Module Notions.
Import Notification.

(** A text with nothing but white space in it (the empty text included). *)
Fixpoint isBlank (s : string) : bool :=
  match s with
  | EmptyString => true
  | String c s' => JS.isWhiteSpace c && isBlank s'
  end.

(** The notifications [validateNotification] lets through when the clock
    shows [now]. *)
Definition acceptableAt (now : JS.Date) (n : Notification.t) : bool :=
  negb (isBlank (userId n))
  && negb (isBlank (title n))
  && negb (isBlank (message n))
  && (String.length (title n) <=? 100)%nat
  && (String.length (message n) <=? 500)%nat
  && negb (length (channels n) =? 0)%nat
  && match expiresAt n with Some e => (now <? e)%Z | None => true end
  && match actions n with Some acts => (length acts <=? 3)%nat | None => true end.

(** [a] is delivered no later than [b] by [sortByPriority]: higher weight
    first, and among equal weights the newer one first. *)
Definition before (a b : Notification.t) : Prop :=
  (NotificationDomainService.getPriorityWeight (priority b)
   < NotificationDomainService.getPriorityWeight (priority a))%Z
  \/ (NotificationDomainService.getPriorityWeight (priority a)
      = NotificationDomainService.getPriorityWeight (priority b)
      /\ (createdAt b <= createdAt a)%Z).

(** Same priority and same creation instant: the sort cannot tell them
    apart. *)
Definition tied (k : NotificationPriority * JS.Date) (n : Notification.t)
  : bool :=
  (NotificationDomainService.getPriorityWeight (priority n)
   =? NotificationDomainService.getPriorityWeight (fst k))%Z
  && (createdAt n =? snd k)%Z.

End Notions.

Module Resolution.
Import Notification.

(** The channels the creation paths settle on: the caller's, when given;
    otherwise the channels the stored preferences enable for the type,
    when there is a record and it enables any; otherwise [[ALL]]. *)
Definition resolved (explicit : option (list NotificationChannel))
    (preferences : option UserPreferences.t) (ty : NotificationType)
  : list NotificationChannel :=
  match explicit with
  | Some cs => cs
  | None =>
      match preferences with
      | Some p =>
          match UserPreferences.getEnabledChannels p ty with
          | [] => [ALL]
          | cs => cs
          end
      | None => [ALL]
      end
  end.

End Resolution.

(** ** More sample data *)

Module Samples.

(** A single request with the given title and explicit channels. *)
Definition note (userId title : string)
    (channels : option (list Notification.NotificationChannel))
  : DTO.CreateNotificationDTO :=
  {| DTO.c_userId := userId; DTO.c_type := Notification.INFO;
     DTO.c_title := title; DTO.c_message := "Tonight at 22:00";
     DTO.c_channels := channels; DTO.c_priority := None;
     DTO.c_metadata := None; DTO.c_actions := None; DTO.c_expiresAt := None;
     DTO.c_imageUrl := None; DTO.c_iconUrl := None |}.

(** The use case wired to both MongoDB repositories over the in-memory
    collections is [Sim.create]. *)

(** A notification of the given priority created at the given instant. *)
Definition item (id : string) (priority : Notification.NotificationPriority)
    (createdAt : JS.Date) : Notification.t :=
  Notification.mk id "u1" Notification.INFO "Reminder" "Stand-up at ten"
    [Notification.IN_APP] priority None None None None None
    false None createdAt None None None.

(** A notification of the given user and type. *)
Definition letter (id userId : string) (ty : Notification.NotificationType)
  : Notification.t :=
  Notification.mk id userId ty "Reminder" "Stand-up at ten"
    [Notification.IN_APP] Notification.NORMAL None None None None None
    false None 0%Z None None None.

End Samples.

Module Counting.
Import Notification.

(** The notifications of a user, in their order. *)
Definition ofUser (userId : string) (ns : list Notification.t)
  : list Notification.t :=
  List.filter (fun n => String.eqb (Notification.userId n) userId) ns.

(** How many notifications have a type. *)
Definition ofType (ty : NotificationType) (ns : list Notification.t) : Z :=
  Z.of_nat (length (List.filter (fun n => DomainServiceOps.type_eqb (type n) ty) ns)).

(** [acc[ty]] *)
Definition count (ty : NotificationType) (acc : list (NotificationType * Z))
  : option Z :=
  snd <$> List.find (fun entry => DomainServiceOps.type_eqb (fst entry) ty) acc.

Definition total (acc : list (NotificationType * Z)) : Z :=
  fold_right Z.add 0%Z (map snd acc).

(** What the [Map] of [groupByUser] holds after the notifications [seen]. *)
Definition grouping (seen : list Notification.t)
    (g : list (string * list Notification.t)) : Prop :=
  (forall u, DomainServiceOps.get u g =
             match ofUser u seen with [] => None | ns => Some ns end)
  /\ List.NoDup (map fst g)
  /\ Permutation (concat (map snd g)) seen.

(** What the accumulator of [createBatchSummary] holds after the
    notifications [seen]. *)
Definition counting (seen : list Notification.t)
    (acc : list (NotificationType * Z)) : Prop :=
  (forall ty, count ty acc =
              if (ofType ty seen =? 0)%Z then None else Some (ofType ty seen))
  /\ total acc = Z.of_nat (length seen).

End Counting.

(** ** PushSubscription entity: construction, age and identifier *)

Module PushSubscriptionOps.
Import PushSubscription.

Section Methods.
Context {W : Type} {R : Runtime W} {host : JS.Host}.

(** [new PushSubscription(...)] with seven arguments, as [subscribe] calls
    it: the remaining parameters take their defaults, evaluated in order
    ([isActive = true], [createdAt = new Date()], [lastUsedAt = new Date()],
    [failureCount = 0]). *)
Definition new (id userId : string) (deviceType : DeviceType)
    (endpoint : string) (keys : option Keys) (fcmToken : option string)
    (deviceInfo : option DeviceInfo) : M W t :=
  createdAt <- lift newDate ;;
  lastUsedAt <- lift newDate ;;
  ret (mk id userId deviceType endpoint keys fcmToken deviceInfo true
          createdAt lastUsedAt 0 None None).

Definition isExpired (s : t) : M W bool :=
  (* Consider inactive if not used in 90 days *)
  ninetyDaysAgo <- lift newDate ;;
  let ninetyDaysAgo := JS.setDatePlus ninetyDaysAgo (-90) in
  ret (lastUsedAt s <? ninetyDaysAgo)%Z.

End Methods.

(** [this.fcmToken!] is read only where [isFCM] has found a token. *)
Definition getIdentifier (s : t) : string :=
  if isWebPush s then endpoint s
  else if isFCM s then
    match fcmToken s with Some tok => tok | None => EmptyString end
  else id s.

End PushSubscriptionOps.

(** ** The subscription repository beyond the delivery worker's needs *)

Module SubscriptionRepository.

(** The operations of [ISubsriptionRepository] the subscription use case
    calls besides [update] and [findActiveByUserId]. *)
Class Rest (W : Type) := {
  save : PushSubscription.t -> M W PushSubscription.t;
  findById : string -> M W (option PushSubscription.t);
  findByEndpoint : string -> M W (option PushSubscription.t);
  findByFCMToken : string -> M W (option PushSubscription.t);
  deleteById : string -> M W unit
}.

(** The filter documents handed to [findOne]. *)
Inductive Filter :=
| ById (id : string)            (* { _id: id } *)
| ByEndpoint (endpoint : string) (* { endpoint } *)
| ByFCMToken (token : string).   (* { fcmToken: token } *)

Class Collection (W : Type) := {
  (** [collection.insertOne(doc)] *)
  insertOne : PushSubscription.t -> M W unit;
  (** [collection.findOne(filter)] *)
  findOne : Filter -> M W (option PushSubscription.t);
  (** [collection.find({ userId, isActive: true }).toArray()] *)
  findActive : string -> M W (list PushSubscription.t);
  (** [collection.replaceOne({ _id: id }, doc)] *)
  replaceOne : string -> PushSubscription.t -> M W unit;
  (** [collection.deleteOne({ _id: id })] *)
  deleteOne : string -> M W unit
}.

End SubscriptionRepository.

Module MongoPushSubscriptionRepository.
Import SubscriptionRepository.

Section Repo.
Context {W : Type} {SC : Collection W}.

Definition save (subscription : PushSubscription.t) : M W PushSubscription.t :=
  tryCatch
    (insertOne subscription ;;;
     ret subscription)
    (fun _ => throw (Thrown.Error "Failed to save push subscription")).

Definition findById (id : string) : M W (option PushSubscription.t) :=
  tryCatch
    (doc <- findOne (ById id) ;;
     ret doc)
    (fun _ => throw (Thrown.Error "Failed to find push subscription")).

Definition findActiveByUserId (userId : string)
  : M W (list PushSubscription.t) :=
  tryCatch
    (docs <- findActive userId ;;
     ret docs)
    (fun _ => throw (Thrown.Error "Failed to find active push subscriptions")).

Definition findByEndpoint (endpoint : string) : M W (option PushSubscription.t) :=
  tryCatch
    (doc <- findOne (ByEndpoint endpoint) ;;
     ret doc)
    (fun _ =>
       throw (Thrown.Error "Failed to find push subscription by endpoint")).

Definition findByFCMToken (token : string) : M W (option PushSubscription.t) :=
  tryCatch
    (doc <- findOne (ByFCMToken token) ;;
     ret doc)
    (fun _ =>
       throw (Thrown.Error "Failed to find push subscription by FCM token")).

Definition update (subscription : PushSubscription.t) : M W PushSubscription.t :=
  tryCatch
    (replaceOne (PushSubscription.id subscription) subscription ;;;
     ret subscription)
    (fun _ => throw (Thrown.Error "Failed to update push subscription")).

Definition deleteById (id : string) : M W unit :=
  tryCatch
    (deleteOne id)
    (fun _ => throw (Thrown.Error "Failed to delete push subscription")).

Definition repository : ISubsriptionRepository W :=
  Build_ISubsriptionRepository W findActiveByUserId update.

Definition rest : Rest W :=
  Build_Rest W save findById findByEndpoint findByFCMToken deleteById.
End Repo.
End MongoPushSubscriptionRepository.

(** ** Use case: ManageSubscription (application/usecases) *)

Module ManageSubscription.
Import PushSubscription.

(** [SubscriptionDTO]; its [deviceType] is one of the three members of
    [DeviceType], so the guard on the device type never fires. *)
Record SubscriptionDTO := {
  s_userId : string;
  s_deviceType : DeviceType;
  s_endpoint : option string;
  s_keys : option Keys;
  s_fcmToken : option string;
  s_deviceInfo : option DeviceInfo
}.

(** [deviceType === 'WEB'] *)
Definition isWEB (d : DeviceType) : bool :=
  match d with WEB => true | _ => false end.

(** Truthiness of an optional string; a given string is then read with
    [JS.orString]. *)
Definition given (s : option string) : bool :=
  match s with Some s => JS.truthyString s | None => false end.

Section UseCase.
Context {W : Type} {R : Runtime W} {host : JS.Host}
        {SR : ISubsriptionRepository W} {SS : SubscriptionRepository.Rest W}.

Definition validateSubscription (subscription : PushSubscription.t) : M W unit :=
  (match deviceType subscription with
   | WEB =>
       if negb (JS.truthyString (endpoint subscription)) then
         throw (Thrown.AppError "Endpoint is required for Web Push" 400)
       else
         match keys subscription with
         | Some k =>
             if negb (JS.truthyString (p256dh k))
                || negb (JS.truthyString (auth k)) then
               throw (Thrown.AppError "VAPID keys are required for Web Push" 400)
             else ret tt
         | None =>
             throw (Thrown.AppError "VAPID keys are required for Web Push" 400)
         end
   | _ => ret tt
   end) ;;;
  match deviceType subscription with
  | ANDROID | IOS =>
      if negb (given (fcmToken subscription)) then
        throw (Thrown.AppError "FCM token is required for mobile devices" 400)
      else ret tt
  | WEB => ret tt
  end.

Definition subscribe (dto : SubscriptionDTO) : M W PushSubscription.t :=
  tryCatch
    ((* Check if subscription already exists *)
     existing <-
       (if isWEB (s_deviceType dto) && given (s_endpoint dto) then
          SubscriptionRepository.findByEndpoint (JS.orString (s_endpoint dto) "")
        else if given (s_fcmToken dto) then
          SubscriptionRepository.findByFCMToken (JS.orString (s_fcmToken dto) "")
        else ret None) ;;
     match existing with
     | Some existing =>
         (* Update existing subscription *)
         let existing := activate existing in
         existing <- updateLastUsed existing ;;
         update existing
     | None =>
         (* Create new subscription *)
         id <- lift uuidv4 ;;
         subscription <-
           PushSubscriptionOps.new id (s_userId dto) (s_deviceType dto)
             (JS.orString (s_endpoint dto) "") (s_keys dto) (s_fcmToken dto)
             (s_deviceInfo dto) ;;
         (* Validate subscription data *)
         validateSubscription subscription ;;;
         SubscriptionRepository.save subscription
     end)
    (fun error =>
       throw (Thrown.AppError
                (JS.orString (Thrown.message error)
                             "Failed to create subscription")
                (JS.orNumber (Thrown.statusCode error) 500))).

Definition unsubscribe (subscriptionId userId : string) : M W unit :=
  tryCatch
    (subscription <- SubscriptionRepository.findById subscriptionId ;;
     match subscription with
     | None => throw (Thrown.AppError "Subscription not found" 404)
     | Some subscription =>
         if negb (String.eqb (PushSubscription.userId subscription) userId) then
           throw (Thrown.AppError
                    "Unauthorized to delete this subscription" 403)
         else
           SubscriptionRepository.deleteById subscriptionId
     end)
    (fun error =>
       throw (Thrown.AppError
                (JS.orString (Thrown.message error) "Failed to unsubscribe")
                (JS.orNumber (Thrown.statusCode error) 500))).

Definition getSubscriptions (userId : string) : M W (list PushSubscription.t) :=
  tryCatch
    (findActiveByUserId userId)
    (fun error =>
       throw (Thrown.AppError
                (JS.orString (Thrown.message error) "Failed to get subscriptions")
                (JS.orNumber (Thrown.statusCode error) 500))).

End UseCase.
End ManageSubscription.

(** ** Notions and an in-memory store for the subscription use case *)

Module SubscriptionNotions.
Import PushSubscription ManageSubscription.

(** The requests [validateSubscription] lets through: a web request names
    its endpoint and both keys, a mobile request its token. *)
Definition wellShaped (dto : SubscriptionDTO) : bool :=
  match s_deviceType dto with
  | WEB =>
      given (s_endpoint dto)
      && match s_keys dto with
         | Some k => JS.truthyString (p256dh k) && JS.truthyString (auth k)
         | None => false
         end
  | ANDROID | IOS => given (s_fcmToken dto)
  end.

(** The address a request is delivered to. *)
Definition address (dto : SubscriptionDTO) : string :=
  if isWEB (s_deviceType dto) then JS.orString (s_endpoint dto) ""
  else JS.orString (s_fcmToken dto) "".

(** What the lookup of [subscribe] asks the collection, if anything. *)
Definition lookupFilter (dto : SubscriptionDTO)
  : option SubscriptionRepository.Filter :=
  if isWEB (s_deviceType dto) && given (s_endpoint dto) then
    Some (SubscriptionRepository.ByEndpoint (JS.orString (s_endpoint dto) ""))
  else if given (s_fcmToken dto) then
    Some (SubscriptionRepository.ByFCMToken (JS.orString (s_fcmToken dto) ""))
  else None.

(** An existing subscription as [subscribe] hands it back: active again,
    its failures forgotten, used at [now]. *)
Definition revived (existing : PushSubscription.t) (now : JS.Date)
  : PushSubscription.t :=
  assign existing true now 0 (lastFailureAt existing) None.

End SubscriptionNotions.

Module SubscriptionSim.
Import SubscriptionRepository.

Record World := mk {
  clock : Z;
  tick : Z;
  uuids : list string;
  subscriptions : list PushSubscription.t
}.

Definition read_clock (w : World) : JS.Date * World :=
  (clock w, mk (clock w + tick w)%Z (tick w) (uuids w) (subscriptions w)).

Definition draw_uuid (w : World) : string * World :=
  match uuids w with
  | [] => ("", w)
  | u :: rest => (u, mk (clock w) (tick w) rest (subscriptions w))
  end.

Definition matches (f : Filter) (d : PushSubscription.t) : bool :=
  match f with
  | ById id => String.eqb (PushSubscription.id d) id
  | ByEndpoint endpoint => String.eqb (PushSubscription.endpoint d) endpoint
  | ByFCMToken token =>
      match PushSubscription.fcmToken d with
      | Some tok => String.eqb tok token
      | None => false
      end
  end.

Definition sim_insertOne (doc : PushSubscription.t) : M World unit :=
  fun w =>
    if existsb (matches (ById (PushSubscription.id doc))) (subscriptions w)
    then (inl (Thrown.Error "E11000 duplicate key error collection"), w)
    else (inr tt, mk (clock w) (tick w) (uuids w) (subscriptions w ++ [doc])).

Definition sim_findOne (f : Filter) : M World (option PushSubscription.t) :=
  fun w => (inr (List.find (matches f) (subscriptions w)), w).

Definition sim_findActive (userId : string) : M World (list PushSubscription.t) :=
  fun w =>
    (inr (List.filter
            (fun d => String.eqb (PushSubscription.userId d) userId
                      && PushSubscription.isActive d)
            (subscriptions w)), w).

Definition sim_replaceOne (id : string) (doc : PushSubscription.t) : M World unit :=
  fun w =>
    (inr tt,
     mk (clock w) (tick w) (uuids w)
        (map (fun d => if matches (ById id) d then doc else d) (subscriptions w))).

Definition sim_deleteOne (id : string) : M World unit :=
  fun w =>
    (inr tt,
     mk (clock w) (tick w) (uuids w)
        (List.filter (fun d => negb (matches (ById id) d)) (subscriptions w))).

Definition runtime : Runtime World :=
  {| newDate := read_clock; uuidv4 := draw_uuid |}.

Definition collection : Collection World :=
  {| insertOne := sim_insertOne; findOne := sim_findOne;
     findActive := sim_findActive; replaceOne := sim_replaceOne;
     deleteOne := sim_deleteOne |}.

Definition subscribe (dto : ManageSubscription.SubscriptionDTO)
  : M World PushSubscription.t :=
  @ManageSubscription.subscribe World runtime
     (@MongoPushSubscriptionRepository.repository World collection)
     (@MongoPushSubscriptionRepository.rest World collection) dto.

Definition unsubscribe (subscriptionId userId : string) : M World unit :=
  @ManageSubscription.unsubscribe World
     (@MongoPushSubscriptionRepository.rest World collection)
     subscriptionId userId.

(** A browser registering for user [u1], and the phone of that user. *)
Definition browser : ManageSubscription.SubscriptionDTO :=
  {| ManageSubscription.s_userId := "u1";
     ManageSubscription.s_deviceType := PushSubscription.WEB;
     ManageSubscription.s_endpoint := Some "https://push.example/abc";
     ManageSubscription.s_keys :=
       Some {| PushSubscription.p256dh := "BPk"; PushSubscription.auth := "k9" |};
     ManageSubscription.s_fcmToken := None;
     ManageSubscription.s_deviceInfo := None |}.

Definition phone : ManageSubscription.SubscriptionDTO :=
  {| ManageSubscription.s_userId := "u1";
     ManageSubscription.s_deviceType := PushSubscription.ANDROID;
     ManageSubscription.s_endpoint := None;
     ManageSubscription.s_keys := None;
     ManageSubscription.s_fcmToken := Some "tok-1";
     ManageSubscription.s_deviceInfo := None |}.


(** An empty store at instant 1000. *)
Definition fresh : World := mk 1000%Z 1%Z ["s-1"; "s-2"] [].

(** The phone of [u1], stored and failing. *)
Definition stored : PushSubscription.t :=
  PushSubscription.mk "s-0" "u1" PushSubscription.ANDROID "" None
    (Some "tok-1") None false 10%Z 20%Z 3%Z (Some 30%Z) (Some "timeout").

Definition used : World := mk 1000%Z 1%Z ["s-1"; "s-2"] [stored].

End SubscriptionSim.

(** ** Use case: MarkAsRead, several notifications at once *)

Module MarkAsReadMany.

Section UseCase.
Context {W : Type} {R : Runtime W} {NR : INotificationRepository W}.

(** [for (const id of notificationIds) { await this.execute(id, userId); }] *)
Fixpoint forEach (notificationIds : list string) (userId : string) : M W unit :=
  match notificationIds with
  | [] => ret tt
  | id :: rest => MarkAsRead.execute id userId ;;; forEach rest userId
  end.

Definition executeMany (notificationIds : list string) (userId : string)
  : M W unit :=
  tryCatch
    (forEach notificationIds userId)
    (fun error =>
       throw (Thrown.AppError
                (JS.orString (Thrown.message error)
                             "Failed to mark notifications as read")
                (JS.orNumber (Thrown.statusCode error) 500))).

End UseCase.
End MarkAsReadMany.

(** ** WebSocketManager: the queries *)

Module WebSocketQueries.
Import WebSocketManager.

(** [Array.from(sockets)], held as the set of its members: the order of
    the array (the order of registration) is not represented. *)
Definition getUserSockets (userId : string) (m : t) : gset string :=
  match userConnections m !! userId with
  | Some sockets => sockets
  | None => ∅
  end.

Definition getUserBySocket (socketId : string) (m : t) : option string :=
  socketUsers m !! socketId.

(** [Array.from(this.userConnections.keys())], as the set of its members. *)
Definition getOnlineUsers (m : t) : gset string := dom (userConnections m).

Definition getOnlineUsersCount (m : t) : nat := size (userConnections m).

Definition getTotalConnections (m : t) : nat := size (socketUsers m).

Definition clear (m : t) : t := mk ∅ ∅ ∅.

End WebSocketQueries.

(** ** Request schemas (shared/validators/schemas) *)

Module Schemas.
Import PushSubscription ManageSubscription.

(** The refinement of [subscriptionSchema]: the predicate handed to
    [refine], on the parsed request. *)
Definition subscriptionRefinement (data : SubscriptionDTO) : bool :=
  if isWEB (s_deviceType data) then
    given (s_endpoint data)
    && match s_keys data with Some _ => true | None => false end
  else
    given (s_fcmToken data).

End Schemas.

(** ** Use case: QueryNotifications (application/usecases) *)

Module QueryNotifications.
Import Notification.

(** [NotificationFilters] as the use case fills it in (no [userId]). *)
Record NotificationFilters := {
  f_type : option NotificationType;
  f_isRead : option bool;
  f_fromDate : option JS.Date;
  f_toDate : option JS.Date;
  f_priority : option NotificationPriority
}.

(** The queries of [INotificationRepository]. *)
Class Queries (W : Type) := {
  findByUserId : string -> NotificationFilters -> Z -> Z -> M W (list Notification.t);
  countUnread : string -> M W Z;
  findUnreadByUserId : string -> Z -> M W (list Notification.t)
}.

Record QueryNotificationsDTO := {
  q_userId : string;
  q_type : option NotificationType;
  q_isRead : option bool;
  q_fromDate : option JS.Date;
  q_toDate : option JS.Date;
  q_priority : option NotificationPriority;
  q_limit : option Z;
  q_skip : option Z
}.

Record Page := {
  notifications : list DTO.NotificationResponseDTO;
  total : Z;
  unreadCount : Z
}.

Section UseCase.
Context {W : Type} {R : Runtime W} {NQ : Queries W}.

Definition execute (dto : QueryNotificationsDTO) : M W Page :=
  tryCatch
    (let limit := JS.orNumber (q_limit dto) 20 in
     let skip := JS.orNumber (q_skip dto) 0 in
     let filters :=
       {| f_type := q_type dto; f_isRead := q_isRead dto;
          f_fromDate := q_fromDate dto; f_toDate := q_toDate dto;
          f_priority := q_priority dto |} in
     notifications <- findByUserId (q_userId dto) filters limit skip ;;
     unreadCount <- countUnread (q_userId dto) ;;
     (* Filter out expired notifications *)
     validNotifications <- NotificationDomainService.filterExpired notifications ;;
     ret {| notifications := map DTO.toResponseDTO validNotifications;
            total := Z.of_nat (length validNotifications);
            unreadCount := unreadCount |})
    (fun error =>
       throw (Thrown.AppError
                (JS.orString (Thrown.message error) "Failed to query notifications")
                (JS.orNumber (Thrown.statusCode error) 500))).

Definition getUnread (userId : string) (limit : option Z)
  : M W (list DTO.NotificationResponseDTO) :=
  tryCatch
    (notifications <- findUnreadByUserId userId (JS.orNumber limit 20) ;;
     validNotifications <- NotificationDomainService.filterExpired notifications ;;
     let sorted := DomainServiceOps.sortByPriority validNotifications in
     ret (map DTO.toResponseDTO sorted))
    (fun error =>
       throw (Thrown.AppError
                (JS.orString (Thrown.message error)
                             "Failed to get unread notifications")
                (JS.orNumber (Thrown.statusCode error) 500))).

Definition getUnreadCount (userId : string) : M W Z :=
  tryCatch
    (countUnread userId)
    (fun error =>
       throw (Thrown.AppError
                (JS.orString (Thrown.message error) "Failed to get unread count")
                (JS.orNumber (Thrown.statusCode error) 500))).

End UseCase.
End QueryNotifications.

(** The queries over the in-memory collection of [Sim]: the matching
    documents in stored order, cut to the page asked for. *)
Module QuerySim.
Import Notification QueryNotifications.

Definition priority_eqb (a b : NotificationPriority) : bool :=
  (NotificationDomainService.getPriorityWeight a
   =? NotificationDomainService.getPriorityWeight b)%Z.

Definition satisfies (userId : string) (filters : NotificationFilters)
    (d : Notification.t) : bool :=
  String.eqb (Notification.userId d) userId
  && match f_type filters with
     | Some ty => DomainServiceOps.type_eqb (type d) ty
     | None => true
     end
  && match f_isRead filters with
     | Some r => Bool.eqb (isRead d) r
     | None => true
     end
  && match f_priority filters with
     | Some p => priority_eqb (priority d) p
     | None => true
     end
  && match f_fromDate filters with
     | Some from => (from <=? createdAt d)%Z
     | None => true
     end
  && match f_toDate filters with
     | Some to => (createdAt d <=? to)%Z
     | None => true
     end.

Definition unread (userId : string) (d : Notification.t) : bool :=
  String.eqb (Notification.userId d) userId && negb (isRead d).

Definition sim_findByUserId (userId : string) (filters : NotificationFilters)
    (limit skip : Z) : M Sim.World (list Notification.t) :=
  fun w =>
    (inr (take (Z.to_nat limit)
            (drop (Z.to_nat skip)
               (List.filter (satisfies userId filters) (Sim.notifications w)))),
     w).

Definition sim_countUnread (userId : string) : M Sim.World Z :=
  fun w =>
    (inr (Z.of_nat (length (List.filter (unread userId) (Sim.notifications w)))),
     w).

Definition sim_findUnreadByUserId (userId : string) (limit : Z)
  : M Sim.World (list Notification.t) :=
  fun w =>
    (inr (take (Z.to_nat limit)
            (List.filter (unread userId) (Sim.notifications w))), w).

Definition queries : Queries Sim.World :=
  {| findByUserId := sim_findByUserId; countUnread := sim_countUnread;
     findUnreadByUserId := sim_findUnreadByUserId |}.

(** Three unread notifications of [u1]: a normal one, an urgent one that
    expired at instant 500, and a high one; the clock stands at 1000. *)
Definition pending : Sim.World :=
  Sim.mk 1000%Z 0%Z [] []
    [Samples.item "n-1" NORMAL 10%Z;
     Notification.mk "n-2" "u1" INFO "Reminder" "Stand-up at ten" [IN_APP]
       URGENT None None (Some 500%Z) None None false None 20%Z None None None;
     Samples.item "n-3" HIGH 30%Z].

End QuerySim.

(** ** Notions for the delivery worker *)

Module QueueNotions.
Import PushSubscription.

(** [s'] is a later state of the subscription object [s]: the [readonly]
    fields are those of [s], and it is active only if [s] was. *)
Definition laterStateOf (s s' : PushSubscription.t) : Prop :=
  id s' = id s /\ userId s' = userId s /\ deviceType s' = deviceType s /\
  endpoint s' = endpoint s /\ keys s' = keys s /\ fcmToken s' = fcmToken s /\
  deviceInfo s' = deviceInfo s /\ createdAt s' = createdAt s /\
  (isActive s' = true -> isActive s = true).

(** The subscription ids a batch result names. *)
Definition mentioned (result : PushNotificationQueue.BatchResult) : list string :=
  PushNotificationQueue.successful result
  ++ map PushNotificationQueue.failed_id (PushNotificationQueue.failed result).

(** [s'] is [s] after the reconciliation of results that name the ids
    [ids]: a later state, and [s] itself unless its id is among them. *)
Definition settledFor (ids : list string) (s s' : PushSubscription.t) : Prop :=
  laterStateOf s s' /\ (~ In (id s) ids -> s' = s).

End QueueNotions.

(** Providers for the in-memory store: the web push service accepts every
    send, the FCM service times out on every token. *)
Module ProviderSim.
Import PushNotificationQueue.

Definition web_sendBatch (subscriptions : list PushSubscription.t)
    (payload : Payload) : M SubscriptionSim.World BatchResult :=
  ret {| successful := map PushSubscription.id subscriptions; failed := [] |}.

Definition fcm_sendBatch (subscriptions : list PushSubscription.t)
    (payload : Payload) : M SubscriptionSim.World BatchResult :=
  ret {| successful := [];
         failed := map (fun s => {| failed_id := PushSubscription.id s;
                                    error := "timeout" |}) subscriptions |}.

Definition providers : PushProviders SubscriptionSim.World :=
  {| webPushProvider_sendBatch := web_sendBatch;
     fcmProvider_sendBatch := fcm_sendBatch |}.

Definition processJob (job : Job.t)
  : M SubscriptionSim.World (list PushSubscription.t) :=
  @PushNotificationQueue.processJob SubscriptionSim.World SubscriptionSim.runtime
     (@MongoPushSubscriptionRepository.repository SubscriptionSim.World
        SubscriptionSim.collection)
     providers job.

(** The browser and the phone of [u1], both in service, and a job for
    that user. *)
Definition phoneInService : PushSubscription.t :=
  PushSubscription.mk "s-0" "u1" PushSubscription.ANDROID "" None
    (Some "tok-1") None true 10%Z 20%Z 0%Z None None.

Definition devices : SubscriptionSim.World :=
  SubscriptionSim.mk 1000%Z 1%Z []
    [Examples.webSubscription 0%Z; phoneInService].

Definition job : Job.t :=
  {| Job.notificationId := "n-1"; Job.userId := "u1";
     Job.title := "Maintenance"; Job.message := "Tonight at 22:00";
     Job.data := None; Job.icon := None; Job.image := None;
     Job.badge := None; Job.actions := None |}.

End ProviderSim.

(** ** FCMProvider.sendBatch (infrastructure/push) *)

Module FCMProvider.
Import PushSubscription PushNotificationQueue.

(** One entry of [response.responses]: [success], and [error?.message]. *)
Record SendResponse := {
  success : bool;
  errorMessage : option string
}.

(** [this.messaging.sendEachForMulticast(message)]: the multicast message
    is built from the tokens and the payload; of the answer only
    [responses] is used. *)
Class Messaging (W : Type) := {
  sendEachForMulticast : list string -> Payload -> M W (list SendResponse)
}.

(** The message of the [TypeError] raised by [subscription.id] on an
    [undefined] subscription (as V8 words it). *)
Definition undefinedId : string :=
  "Cannot read properties of undefined (reading 'id')".

(** [response.responses.forEach((res, index) => ...)] on the two arrays
    [successful] and [failed]; the arrays keep what was pushed when the
    callback throws. *)
Fixpoint attribute (subscriptions : list PushSubscription.t)
    (responses : list SendResponse) (index : nat)
    (successful : list string) (failed : list FailedSend)
  : list string * list FailedSend * option Thrown.t :=
  match responses with
  | [] => (successful, failed, None)
  | res :: rest =>
      match subscriptions !! index with
      | Some subscription =>
          if success res then
            attribute subscriptions rest (S index)
              (successful ++ [id subscription]) failed
          else
            attribute subscriptions rest (S index) successful
              (failed ++ [{| failed_id := id subscription;
                             error := JS.orString (errorMessage res)
                                                  "Unknown error" |}])
      | None => (successful, failed, Some (Thrown.Error undefinedId))
      end
  end.

(** The [catch] of the batch: mark all as failed. *)
Definition markAll (subscriptions : list PushSubscription.t)
    (e : Thrown.t) (failed : list FailedSend) : list FailedSend :=
  failed ++ map (fun sub => {| failed_id := id sub;
                               error := JS.orString (Thrown.message e)
                                                    "Batch send failed" |})
                subscriptions.

Section Provider.
Context {W : Type} {FM : Messaging W}.

Definition sendBatch (subscriptions : list PushSubscription.t)
    (payload : Payload) : M W BatchResult :=
  let successful : list string := [] in
  let failed : list FailedSend := [] in
  (* FCM supports batch sending (up to 500 tokens) *)
  let tokens :=
    map (fun s => match fcmToken s with Some tok => tok | None => EmptyString end)
        (List.filter (fun s => isFCM s && isActive s) subscriptions) in
  if (length tokens =? 0)%nat then
    ret {| successful := successful; failed := failed |}
  else
    fun w =>
      match sendEachForMulticast tokens payload w with
      | (inr responses, w') =>
          match attribute subscriptions responses 0 successful failed with
          | (successful, failed, None) =>
              (inr {| successful := successful; failed := failed |}, w')
          | (successful, failed, Some e) =>
              (inr {| successful := successful;
                      failed := markAll subscriptions e failed |}, w')
          end
      | (inl e, w') =>
          (inr {| successful := successful;
                  failed := markAll subscriptions e failed |}, w')
      end.

End Provider.
End FCMProvider.

Module FCMNotions.
Import PushSubscription PushNotificationQueue FCMProvider.

(** The token a subscription is addressed by. *)
Definition token (s : PushSubscription.t) : string :=
  match fcmToken s with Some tok => tok | None => EmptyString end.

(** The ids of the subscriptions whose response reports success, and the
    failures of the others, each subscription paired with the response at
    its position. *)
Definition delivered (pairs : list (PushSubscription.t * SendResponse))
  : list string :=
  map (fun p => id (fst p)) (List.filter (fun p => success (snd p)) pairs).

Definition undelivered (pairs : list (PushSubscription.t * SendResponse))
  : list FailedSend :=
  map (fun p => {| failed_id := id (fst p);
                   error := JS.orString (errorMessage (snd p)) "Unknown error" |})
      (List.filter (fun p => negb (success (snd p))) pairs).

End FCMNotions.

(** An FCM service for the in-memory store that accepts the first token
    and rejects the others as unregistered. *)
Module FCMSim.
Import PushNotificationQueue FCMProvider.

Definition answer (index : nat) (token : string) : SendResponse :=
  match index with
  | O => {| success := true; errorMessage := None |}
  | S _ => {| success := false;
              errorMessage := Some "Requested entity was not found." |}
  end.

Definition sim_sendEachForMulticast (tokens : list string) (payload : Payload)
  : M SubscriptionSim.World (list SendResponse) :=
  ret (imap answer tokens).

Definition messaging : Messaging SubscriptionSim.World :=
  {| sendEachForMulticast := sim_sendEachForMulticast |}.

Definition tablet : PushSubscription.t :=
  PushSubscription.mk "s-9" "u1" PushSubscription.IOS "" None
    (Some "tok-9") None true 10%Z 20%Z 0%Z None None.

Definition payload : Payload :=
  {| title := "Maintenance"; message := "Tonight at 22:00"; data := None;
     icon := None; image := None; badge := None; actions := None |}.

End FCMSim.

(** ** UserPreferences entity: updates *)

Module UserPreferencesOps.
Import Notification UserPreferences.

(** [keyof ChannelPreferences] *)
Inductive ChannelKey := inAppKey | pushKey | websocketKey.

(** [typePrefs[channel]] and [typePrefs[channel] = enabled] *)
Definition getChannel (c : ChannelPreferences) (k : ChannelKey) : bool :=
  match k with
  | inAppKey => inApp c
  | pushKey => push c
  | websocketKey => websocket c
  end.

Definition setChannel (c : ChannelPreferences) (k : ChannelKey) (enabled : bool)
  : ChannelPreferences :=
  match k with
  | inAppKey => {| inApp := enabled; push := push c; websocket := websocket c |}
  | pushKey => {| inApp := inApp c; push := enabled; websocket := websocket c |}
  | websocketKey => {| inApp := inApp c; push := push c; websocket := enabled |}
  end.

(** [preferences[type] = c] *)
Definition setIndex (p : NotificationTypePreferences) (ty : NotificationType)
    (c : ChannelPreferences) : NotificationTypePreferences :=
  match ty with
  | INFO => {| ofINFO := c; ofSUCCESS := ofSUCCESS p; ofWARNING := ofWARNING p;
               ofERROR := ofERROR p; ofSYSTEM := ofSYSTEM p |}
  | SUCCESS => {| ofINFO := ofINFO p; ofSUCCESS := c; ofWARNING := ofWARNING p;
                  ofERROR := ofERROR p; ofSYSTEM := ofSYSTEM p |}
  | WARNING => {| ofINFO := ofINFO p; ofSUCCESS := ofSUCCESS p; ofWARNING := c;
                  ofERROR := ofERROR p; ofSYSTEM := ofSYSTEM p |}
  | ERROR => {| ofINFO := ofINFO p; ofSUCCESS := ofSUCCESS p;
                ofWARNING := ofWARNING p; ofERROR := c; ofSYSTEM := ofSYSTEM p |}
  | SYSTEM => {| ofINFO := ofINFO p; ofSUCCESS := ofSUCCESS p;
                 ofWARNING := ofWARNING p; ofERROR := ofERROR p; ofSYSTEM := c |}
  end.

(** [Partial<QuietHours>]: an absent key is [None]. *)
Record QuietHoursPatch := {
  patch_enabled : option bool;
  patch_startTime : option string;
  patch_endTime : option string;
  patch_timezone : option string
}.

(** [{ ...this.quietHours, ...quietHours }] *)
Definition spread (q : QuietHours) (patch : QuietHoursPatch) : QuietHours :=
  {| enabled := match patch_enabled patch with Some b => b | None => enabled q end;
     startTime :=
       match patch_startTime patch with Some s => s | None => startTime q end;
     endTime :=
       match patch_endTime patch with Some s => s | None => endTime q end;
     timezone :=
       match patch_timezone patch with Some s => s | None => timezone q end |}.

(** Assignment to the mutable fields; the [readonly] ones are kept. *)
Definition assign (p : t) (preferences' : NotificationTypePreferences)
    (quietHours' : QuietHours) (language' : string)
    (soundEnabled' vibrationEnabled' : bool) (updatedAt' : JS.Date) : t :=
  mk (id p) (userId p) preferences' quietHours' language' soundEnabled'
     vibrationEnabled' (createdAt p) updatedAt'.

Section Methods.
Context {W : Type} {R : Runtime W}.

(** [new UserPreferences(id, userId)]: the remaining parameters take their
    defaults, evaluated in order. *)
Definition new (id userId : string) : M W t :=
  createdAt <- lift newDate ;;
  updatedAt <- lift newDate ;;
  ret (mk id userId getDefaultPreferences getDefaultQuietHours "es" true true
          createdAt updatedAt).

Definition updatePreference (ty : NotificationType) (channel : ChannelKey)
    (enabled : bool) (p : t) : M W t :=
  let preferences' :=
    setIndex (preferences p) ty
             (setChannel (index (preferences p) ty) channel enabled) in
  now <- lift newDate ;;
  ret (assign p preferences' (quietHours p) (language p) (soundEnabled p)
              (vibrationEnabled p) now).

Definition updateQuietHours (patch : QuietHoursPatch) (p : t) : M W t :=
  let quietHours' := spread (quietHours p) patch in
  now <- lift newDate ;;
  ret (assign p (preferences p) quietHours' (language p) (soundEnabled p)
              (vibrationEnabled p) now).

End Methods.
End UserPreferencesOps.

(** ** The preferences repository beyond the lookup *)

Module PreferencesRepository.

(** The operations of [IUserPreferencesRepository] the update use case
    calls besides [findByUserId]. *)
Class Rest (W : Type) := {
  save : UserPreferences.t -> M W UserPreferences.t;
  update : UserPreferences.t -> M W UserPreferences.t;
  exists_ : string -> M W bool
}.

Class Collection (W : Type) := {
  (** [collection.insertOne(doc)] *)
  insertOne : UserPreferences.t -> M W unit;
  (** [collection.replaceOne({ userId }, doc, { upsert: true })] *)
  replaceOne : string -> UserPreferences.t -> M W unit;
  (** [collection.countDocuments({ userId })] *)
  countDocuments : string -> M W Z
}.

End PreferencesRepository.

Module MongoUserPreferencesStore.
Import PreferencesRepository.

Section Repo.
Context {W : Type} {R : Runtime W} {PS : Collection W}.

Definition save (preferences : UserPreferences.t) : M W UserPreferences.t :=
  tryCatch
    (insertOne preferences ;;;
     ret preferences)
    (fun _ => throw (Thrown.Error "Failed to save user preferences")).

Definition update (preferences : UserPreferences.t) : M W UserPreferences.t :=
  tryCatch
    (now <- lift newDate ;;
     let preferences :=
       UserPreferencesOps.assign preferences
         (UserPreferences.preferences preferences)
         (UserPreferences.quietHours preferences)
         (UserPreferences.language preferences)
         (UserPreferences.soundEnabled preferences)
         (UserPreferences.vibrationEnabled preferences) now in
     replaceOne (UserPreferences.userId preferences) preferences ;;;
     ret preferences)
    (fun _ => throw (Thrown.Error "Failed to update user preferences")).

Definition exists_ (userId : string) : M W bool :=
  tryCatch
    (count <- countDocuments userId ;;
     ret (0 <? count)%Z)
    (fun _ =>
       throw (Thrown.Error "Failed to check user preferences existence")).

Definition rest : Rest W := Build_Rest W save update exists_.
End Repo.
End MongoUserPreferencesStore.

(** ** Use case: UpdatePreferences (application/usecases) *)

Module UpdatePreferences.
Import Notification UserPreferences UserPreferencesOps.

(** One entry of [dto.preferences]: [{ inApp?, push?, websocket? }]. *)
Record ChannelPatch := {
  p_inApp : option bool;
  p_push : option bool;
  p_websocket : option bool
}.

(** [PreferencesDTO]; [preferences] is held as its entries in key order. *)
Record PreferencesDTO := {
  d_userId : string;
  d_preferences : option (list (string * ChannelPatch));
  d_quietHours : option QuietHoursPatch;
  d_language : option string;
  d_soundEnabled : option bool;
  d_vibrationEnabled : option bool
}.

(** The member of [NotificationType] with the given value, if any:
    [Object.values(NotificationType).includes(type)]. *)
Definition typeOfName (name : string) : option NotificationType :=
  if String.eqb name "INFO" then Some INFO
  else if String.eqb name "SUCCESS" then Some SUCCESS
  else if String.eqb name "WARNING" then Some WARNING
  else if String.eqb name "ERROR" then Some ERROR
  else if String.eqb name "SYSTEM" then Some SYSTEM
  else None.

Section UseCase.
Context {W : Type} {R : Runtime W}
        {PR : IUserPreferencesRepository W} {PS : PreferencesRepository.Rest W}.

(** [if (channels.k !== undefined) preferences.updatePreference(type, k, ...)] *)
Definition patchChannel (ty : NotificationType) (k : ChannelKey)
    (value : option bool) (preferences : UserPreferences.t)
  : M W UserPreferences.t :=
  match value with
  | Some enabled => updatePreference ty k enabled preferences
  | None => ret preferences
  end.

(** Body of [for (const [type, channels] of Object.entries(dto.preferences))]. *)
Definition patchType (entry : string * ChannelPatch)
    (preferences : UserPreferences.t) : M W UserPreferences.t :=
  match typeOfName (fst entry) with
  | Some ty =>
      preferences <- patchChannel ty inAppKey (p_inApp (snd entry)) preferences ;;
      preferences <- patchChannel ty pushKey (p_push (snd entry)) preferences ;;
      patchChannel ty websocketKey (p_websocket (snd entry)) preferences
  | None => ret preferences
  end.

Fixpoint patchTypes (entries : list (string * ChannelPatch))
    (preferences : UserPreferences.t) : M W UserPreferences.t :=
  match entries with
  | [] => ret preferences
  | entry :: rest =>
      preferences <- patchType entry preferences ;;
      patchTypes rest preferences
  end.

(** The plain assignments of [language], [soundEnabled] and
    [vibrationEnabled]. *)
Definition assignSettings (dto : PreferencesDTO) (p : UserPreferences.t)
  : UserPreferences.t :=
  assign p (preferences p) (quietHours p)
    (match d_language dto with Some l => l | None => language p end)
    (match d_soundEnabled dto with Some b => b | None => soundEnabled p end)
    (match d_vibrationEnabled dto with
     | Some b => b
     | None => vibrationEnabled p
     end)
    (updatedAt p).

Definition execute (dto : PreferencesDTO) : M W UserPreferences.t :=
  tryCatch
    (found <- findByUserId (d_userId dto) ;;
     preferences <-
       match found with
       | Some preferences => ret preferences
       | None =>
           (* Create default preferences *)
           id <- lift uuidv4 ;;
           UserPreferencesOps.new id (d_userId dto)
       end ;;
     (* Update notification type preferences *)
     preferences <-
       match d_preferences dto with
       | Some entries => patchTypes entries preferences
       | None => ret preferences
       end ;;
     (* Update quiet hours *)
     preferences <-
       match d_quietHours dto with
       | Some patch => updateQuietHours patch preferences
       | None => ret preferences
       end ;;
     (* Update other settings *)
     let preferences := assignSettings dto preferences in
     (* Save or update *)
     exists_ <- PreferencesRepository.exists_ (d_userId dto) ;;
     if exists_ : bool then PreferencesRepository.update preferences
     else PreferencesRepository.save preferences)
    (fun error =>
       throw (Thrown.AppError
                (JS.orString (Thrown.message error) "Failed to update preferences")
                (JS.orNumber (Thrown.statusCode error) 500))).

Definition get (userId : string) : M W UserPreferences.t :=
  tryCatch
    (found <- findByUserId userId ;;
     match found with
     | Some preferences => ret preferences
     | None =>
         (* Return default preferences *)
         id <- lift uuidv4 ;;
         UserPreferencesOps.new id userId
     end)
    (fun error =>
       throw (Thrown.AppError
                (JS.orString (Thrown.message error) "Failed to get preferences")
                (JS.orNumber (Thrown.statusCode error) 500))).

End UseCase.
End UpdatePreferences.

Module PreferenceNotions.
Import Notification UserPreferences UserPreferencesOps UpdatePreferences.

Definition key_eqb (a b : ChannelKey) : bool :=
  match a, b with
  | inAppKey, inAppKey | pushKey, pushKey | websocketKey, websocketKey => true
  | _, _ => false
  end.

(** The value of a flag in a preferences record. *)
Definition flag (p : UserPreferences.t) (ty : NotificationType) (k : ChannelKey)
  : bool :=
  getChannel (index (preferences p) ty) k.

(** What one entry of a request asks for a flag, if anything. *)
Definition requestedBy (entry : string * ChannelPatch) (ty : NotificationType)
    (k : ChannelKey) : option bool :=
  match typeOfName (fst entry) with
  | Some ty' =>
      if DomainServiceOps.type_eqb ty' ty then
        match k with
        | inAppKey => p_inApp (snd entry)
        | pushKey => p_push (snd entry)
        | websocketKey => p_websocket (snd entry)
        end
      else None
  | None => None
  end.

(** What the entries of a request ask for a flag: the last entry that
    names it. *)
Fixpoint requested (entries : list (string * ChannelPatch))
    (ty : NotificationType) (k : ChannelKey) : option bool :=
  match entries with
  | [] => None
  | entry :: rest =>
      match requested rest ty k with
      | Some b => Some b
      | None => requestedBy entry ty k
      end
  end.

(** The record a request is applied to when none is stored. *)
Definition defaults (id userId : string) (createdAt updatedAt : JS.Date)
  : UserPreferences.t :=
  UserPreferences.mk id userId getDefaultPreferences getDefaultQuietHours
    "es" true true createdAt updatedAt.

(** [q] is [p] with other flags and another [updatedAt]. *)
Definition reflagged (p q : UserPreferences.t) : Prop :=
  id q = id p /\ userId q = userId p /\ createdAt q = createdAt p /\
  quietHours q = quietHours p /\ language q = language p /\
  soundEnabled q = soundEnabled p /\ vibrationEnabled q = vibrationEnabled p.

(** [p'] is [base] after the request [dto]. *)
Definition applied (dto : PreferencesDTO) (base p' : UserPreferences.t) : Prop :=
  id p' = id base /\ userId p' = userId base /\ createdAt p' = createdAt base /\
  (forall ty k,
     flag p' ty k =
       match requested (match d_preferences dto with Some es => es | None => [] end)
                       ty k with
       | Some b => b
       | None => flag base ty k
       end) /\
  quietHours p' =
    match d_quietHours dto with
    | Some patch => spread (quietHours base) patch
    | None => quietHours base
    end /\
  language p' = match d_language dto with Some l => l | None => language base end /\
  soundEnabled p' =
    match d_soundEnabled dto with Some b => b | None => soundEnabled base end /\
  vibrationEnabled p' =
    match d_vibrationEnabled dto with
    | Some b => b
    | None => vibrationEnabled base
    end.

End PreferenceNotions.

(** The preferences collection of [Sim], with its writes. *)
Module PreferencesSim.

Definition owned (userId : string) (d : UserPreferences.t) : bool :=
  String.eqb (UserPreferences.userId d) userId.

Definition sim_insertOne (doc : UserPreferences.t) : M Sim.World unit :=
  fun w =>
    (inr tt,
     Sim.mk (Sim.clock w) (Sim.tick w) (Sim.uuids w)
            (Sim.preferences w ++ [doc]) (Sim.notifications w)).

Definition sim_replaceOne (userId : string) (doc : UserPreferences.t)
  : M Sim.World unit :=
  fun w =>
    (inr tt,
     Sim.mk (Sim.clock w) (Sim.tick w) (Sim.uuids w)
            (if existsb (owned userId) (Sim.preferences w)
             then map (fun d => if owned userId d then doc else d)
                      (Sim.preferences w)
             else Sim.preferences w ++ [doc])
            (Sim.notifications w)).

Definition sim_countDocuments (userId : string) : M Sim.World Z :=
  fun w =>
    (inr (Z.of_nat (length (List.filter (owned userId) (Sim.preferences w)))), w).

Definition collection : PreferencesRepository.Collection Sim.World :=
  {| PreferencesRepository.insertOne := sim_insertOne;
     PreferencesRepository.replaceOne := sim_replaceOne;
     PreferencesRepository.countDocuments := sim_countDocuments |}.

Definition updatePreferences (dto : UpdatePreferences.PreferencesDTO)
  : M Sim.World UserPreferences.t :=
  @UpdatePreferences.execute Sim.World Sim.runtime Sim.preferencesRepository
     (@MongoUserPreferencesStore.rest Sim.World Sim.runtime collection) dto.

(** Recipient A switches push off for INFO and turns quiet hours on; B,
    who has no record, does the same. *)
Definition quieter (userId : string) : UpdatePreferences.PreferencesDTO :=
  {| UpdatePreferences.d_userId := userId;
     UpdatePreferences.d_preferences :=
       Some [("INFO", {| UpdatePreferences.p_inApp := None;
                          UpdatePreferences.p_push := Some false;
                          UpdatePreferences.p_websocket := None |})];
     UpdatePreferences.d_quietHours :=
       Some {| UserPreferencesOps.patch_enabled := Some true;
               UserPreferencesOps.patch_startTime := None;
               UserPreferencesOps.patch_endTime := None;
               UserPreferencesOps.patch_timezone := None |};
     UpdatePreferences.d_language := None;
     UpdatePreferences.d_soundEnabled := None;
     UpdatePreferences.d_vibrationEnabled := None |}.

End PreferencesSim.

(** ** The single request a bulk request makes for one recipient *)

Module BulkNotions.

Definition single (dto : DTO.BulkNotificationDTO) (userId : string)
  : DTO.CreateNotificationDTO :=
  {| DTO.c_userId := userId; DTO.c_type := DTO.type dto;
     DTO.c_title := DTO.title dto; DTO.c_message := DTO.message dto;
     DTO.c_channels := DTO.channels dto; DTO.c_priority := DTO.priority dto;
     DTO.c_metadata := DTO.metadata dto; DTO.c_actions := DTO.actions dto;
     DTO.c_expiresAt := DTO.expiresAt dto; DTO.c_imageUrl := DTO.imageUrl dto;
     DTO.c_iconUrl := DTO.iconUrl dto |}.

Section Shared.
Context {W : Type} {R : Runtime W} {host : JS.Host}
        {NR : INotificationRepository W}.

(** The steps both creation paths take once the channels are settled:
    build the entity, validate it, save it, answer with its DTO. *)
Definition build (dto : DTO.BulkNotificationDTO) (userId : string)
    (channels : list Notification.NotificationChannel)
  : M W DTO.NotificationResponseDTO :=
  id <- lift uuidv4 ;;
  expiresAt <- match DTO.expiresAt dto with
               | Some d => ret d
               | None => NotificationDomainService.calculateExpiryDate 30
               end ;;
  notification <-
    Notification.new id userId (DTO.type dto) (DTO.title dto)
      (DTO.message dto) channels
      (JS.orObject (DTO.priority dto) Notification.NORMAL)
      (DTO.metadata dto) (DTO.actions dto) (Some expiresAt)
      (DTO.imageUrl dto) (DTO.iconUrl dto) ;;
  NotificationDomainService.validateNotification notification ;;;
  saved <- save notification ;;
  ret (DTO.toResponseDTO saved).

End Shared.

(** The entry the bulk path records for a recipient whose resolved
    channel list is empty. *)
Definition disabledEntry (userId : string) : SendBulkNotifications.Failed :=
  {| SendBulkNotifications.userId := userId;
     SendBulkNotifications.error :=
       "User has disabled all channels for this type" |}.

End BulkNotions.

(** ** SocketIOHandler: the data handlers (infrastructure/websocket) *)

Module SocketIOHandler.

(** What a handler emits on its socket: the event and its payload. *)
Inductive Emit :=
| error (message : string)
| notifications (result : QueryNotifications.Page)
| unread_notifications (notifications : list DTO.NotificationResponseDTO)
| unread_count (count : Z)
| marked_as_read (notificationId : string)
| all_marked_as_read.

(** The payload of [get_notifications]: [{ limit?, skip? }]. *)
Record PageRequest := { limit : option Z; skip : option Z }.

Section Handlers.
Context {W : Type} {R : Runtime W}
        {NR : INotificationRepository W} {NQ : QueryNotifications.Queries W}.

(** [const userId = this.webSocketManager.getUserBySocket(socket.id)]
    followed by [if (!userId) { emit error; return }]: the handler's work
    runs for a user id that is there and not empty. *)
Definition whenAuthenticated (manager : WebSocketManager.t) (socketId : string)
    (work : string -> M W (list Emit)) : M W (list Emit) :=
  match WebSocketQueries.getUserBySocket socketId manager with
  | Some userId =>
      if JS.truthyString userId then work userId
      else ret [error "Not authenticated"]
  | None => ret [error "Not authenticated"]
  end.

Definition on_get_notifications (manager : WebSocketManager.t)
    (socketId : string) (data : PageRequest) : M W (list Emit) :=
  tryCatch
    (whenAuthenticated manager socketId (fun userId =>
       result <- QueryNotifications.execute
                   {| QueryNotifications.q_userId := userId;
                      QueryNotifications.q_type := None;
                      QueryNotifications.q_isRead := None;
                      QueryNotifications.q_fromDate := None;
                      QueryNotifications.q_toDate := None;
                      QueryNotifications.q_priority := None;
                      QueryNotifications.q_limit :=
                        Some (JS.orNumber (limit data) 20);
                      QueryNotifications.q_skip :=
                        Some (JS.orNumber (skip data) 0) |} ;;
       ret [notifications result]))
    (fun e =>
       ret [error (JS.orString (Thrown.message e) "Failed to get notifications")]).

Definition on_get_unread (manager : WebSocketManager.t) (socketId : string)
  : M W (list Emit) :=
  tryCatch
    (whenAuthenticated manager socketId (fun userId =>
       notifications <- QueryNotifications.getUnread userId None ;;
       ret [unread_notifications notifications]))
    (fun e =>
       ret [error (JS.orString (Thrown.message e)
                               "Failed to get unread notifications")]).

Definition on_mark_as_read (manager : WebSocketManager.t) (socketId : string)
    (notificationId : string) : M W (list Emit) :=
  tryCatch
    (whenAuthenticated manager socketId (fun userId =>
       MarkAsRead.execute notificationId userId ;;;
       (* Send updated unread count *)
       unreadCount <- QueryNotifications.getUnreadCount userId ;;
       ret [unread_count unreadCount; marked_as_read notificationId]))
    (fun e =>
       ret [error (JS.orString (Thrown.message e) "Failed to mark as read")]).

Definition on_mark_all_as_read (manager : WebSocketManager.t)
    (socketId : string) : M W (list Emit) :=
  tryCatch
    (whenAuthenticated manager socketId (fun userId =>
       unread <- QueryNotifications.getUnread userId None ;;
       let ids := map DTO.r_id unread in
       MarkAsReadMany.executeMany ids userId ;;;
       ret [all_marked_as_read; unread_count 0]))
    (fun e =>
       ret [error (JS.orString (Thrown.message e) "Failed to mark all as read")]).

End Handlers.
End SocketIOHandler.

Module HandlerNotions.
Import SocketIOHandler.

(** An answer to the client: at least one event, and an error only alone
    and with a message. *)
Definition answer (emits : list Emit) : Prop :=
  emits <> [] /\
  forall msg, In (error msg) emits -> emits = [error msg] /\ msg <> "".

(** A socket the manager holds no user for. *)
Definition anonymous (socketId : string) (manager : WebSocketManager.t) : Prop :=
  WebSocketQueries.getUserBySocket socketId manager = None
  \/ WebSocketQueries.getUserBySocket socketId manager = Some EmptyString.

End HandlerNotions.

(** The socket handlers over the in-memory collections. *)
Module HandlerSim.

Definition on_mark_as_read (manager : WebSocketManager.t)
    (socketId notificationId : string)
  : M Sim.World (list SocketIOHandler.Emit) :=
  @SocketIOHandler.on_mark_as_read Sim.World Sim.runtime
     Sim.notificationRepository QuerySim.queries manager socketId notificationId.

(** The manager after [u2] has authenticated on socket [c2]. *)
Definition session : WebSocketManager.t :=
  WebSocketManager.addConnection "c2" "u2" None WebSocketManager.empty.

End HandlerSim.

(** ** FCMProvider.send: the translation of a service error (infrastructure/push) *)

Module FCMSend.

(** The error the messaging service rejects a message with: its [code]
    and its [message]. *)
Record ServiceError := { code : string; message : string }.

(** The [catch] of [send]: the error thrown for a service error. *)
Definition onError (error : ServiceError) : Thrown.t :=
  if String.eqb (code error) "messaging/registration-token-not-registered"
     || String.eqb (code error) "messaging/invalid-registration-token"
  then Thrown.Error "SUBSCRIPTION_EXPIRED"
  else if String.eqb (code error) "messaging/authentication-error"
  then Thrown.Error "INVALID_FCM_CREDENTIALS"
  else Thrown.Error (JS.orString (Some (message error))
                                 "Failed to send FCM notification").

(** The entry of [response.responses] for a token the service rejects with
    that error: [success] is false and [error] is the error, of which
    [sendBatch] reads [message] only. *)
Definition rejectedWith (error : ServiceError) : FCMProvider.SendResponse :=
  {| FCMProvider.success := false;
     FCMProvider.errorMessage := Some (message error) |}.

(** The service's report of a registration token that is no longer
    registered. *)
Definition notRegistered : ServiceError :=
  {| code := "messaging/registration-token-not-registered";
     message := "Requested entity was not found." |}.

End FCMSend.

(** The queue worker over the in-memory subscription collection, the FCM
    provider of the source and a messaging service that reports every
    token as no longer registered. *)
Module GoneSim.
Import PushNotificationQueue.

Definition sim_sendEachForMulticast (tokens : list string) (payload : Payload)
  : M SubscriptionSim.World (list FCMProvider.SendResponse) :=
  ret (map (fun _ => FCMSend.rejectedWith FCMSend.notRegistered) tokens).

Definition messaging : FCMProvider.Messaging SubscriptionSim.World :=
  {| FCMProvider.sendEachForMulticast := sim_sendEachForMulticast |}.

Definition fcm_sendBatch (subscriptions : list PushSubscription.t)
    (payload : Payload) : M SubscriptionSim.World BatchResult :=
  @FCMProvider.sendBatch SubscriptionSim.World messaging subscriptions payload.

Definition providers : PushProviders SubscriptionSim.World :=
  {| webPushProvider_sendBatch := ProviderSim.web_sendBatch;
     fcmProvider_sendBatch := fcm_sendBatch |}.

Definition processJob (job : Job.t)
  : M SubscriptionSim.World (list PushSubscription.t) :=
  @PushNotificationQueue.processJob SubscriptionSim.World SubscriptionSim.runtime
     (@MongoPushSubscriptionRepository.repository SubscriptionSim.World
        SubscriptionSim.collection)
     providers job.

(** The store holds the phone of [u1], in service and never failed. *)
Definition phoneOnly : SubscriptionSim.World :=
  SubscriptionSim.mk 1000%Z 1%Z [] [ProviderSim.phoneInService].

(** What is observed of a subscription: its id, whether it is active, its
    failure counter and the last error recorded. *)
Definition health (s : PushSubscription.t)
  : string * bool * Z * option string :=
  (PushSubscription.id s, PushSubscription.isActive s,
   PushSubscription.failureCount s, PushSubscription.errorMessage s).

End GoneSim.

(** ** Quiet-hours times written without a colon *)

Module QuietHoursNotions.

(** The text holds no [":"], so [split(':')] leaves it in one piece. *)
Fixpoint colonFree (s : string) : bool :=
  match s with
  | EmptyString => true
  | String c s' => negb (Ascii.eqb c ":") && colonFree s'
  end.

End QuietHoursNotions.
(* ===================================================================== *)
(** * Part II. Properties *)
(* ===================================================================== *)

(** ** Quiet hours *)

Section QuietHoursFacts.
Import UserPreferences Reference.

Lemma digit_not_special c d :
  JS.digit c = Some d ->
  JS.isWhiteSpace c = false /\ Ascii.eqb c ":" = false /\ (0 <= d <= 9)%Z.
Proof.
  destruct c as [[] [] [] [] [] [] [] []]; vm_compute; intros E;
    try discriminate; injection E as <-; repeat split; discriminate.
Qed.

(** On a text of the accepted format the parse of the source
    ([split(':').map(Number)]) yields the minute of the day. *)
Lemma minutesOf_HHmm s :
  isHHmm s = true ->
  minutesOf s = Some (clockMinutes s) /\ (0 <= clockMinutes s < 1440)%Z.
Proof.
  unfold isHHmm, clockMinutes.
  destruct s as [|a [|b [|c [|d [|e [|]]]]]]; try discriminate.
  destruct (JS.digit a) as [h1|] eqn:Ea; try discriminate.
  destruct (JS.digit b) as [h2|] eqn:Eb; try discriminate.
  destruct (JS.digit d) as [m1|] eqn:Ed; try discriminate.
  destruct (JS.digit e) as [m2|] eqn:Ee; try discriminate.
  intros Hv. apply andb_prop in Hv as [Hv Hm]. apply andb_prop in Hv as [Hc Hh].
  apply Ascii.eqb_eq in Hc. subst c.
  destruct (digit_not_special _ _ Ea) as (Wa & Ca & Ra).
  destruct (digit_not_special _ _ Eb) as (Wb & Cb & Rb).
  destruct (digit_not_special _ _ Ed) as (Wd & Cd & Rd).
  destruct (digit_not_special _ _ Ee) as (We & Ce & Re).
  unfold digitValue. rewrite Ea, Eb, Ed, Ee. split.
  - unfold minutesOf. cbn [JS.split]. rewrite Ca, Cb, Cd, Ce.
    rewrite Ascii.eqb_refl. cbn [map component lookup list_lookup].
    unfold JS.toNumber, JS.trim. cbn [JS.trimStart JS.trimEnd].
    rewrite Wa, Wd. cbn [JS.trimEnd]. rewrite ?Wa, ?Wb, ?Wd, ?We.
    cbn [JS.digits]. rewrite Ea, Eb, Ed, Ee. cbn [JS.mul JS.add].
    f_equal; lia.
  - apply Z.leb_le in Hm. apply orb_prop in Hh as [Hh|Hh].
    + apply Z.leb_le in Hh. lia.
    + apply andb_prop in Hh as [Hh1 Hh2]. apply Z.eqb_eq in Hh1.
      apply Z.leb_le in Hh2. lia.
Qed.

Context {W : Type} {R : Runtime W} {host : JS.Host}.

Lemma isQuietHours_disabled (p : UserPreferences.t) (w : W) :
  enabled (quietHours p) = false -> isQuietHours p w = (inr false, w).
Proof. intros E. unfold isQuietHours. rewrite E. reflexivity. Qed.

Lemma isQuietHours_enabled (p : UserPreferences.t) (w : W) s e :
  enabled (quietHours p) = true ->
  minutesOf (startTime (quietHours p)) = Some s ->
  minutesOf (endTime (quietHours p)) = Some e ->
  isQuietHours p w =
    (inr (inWindow s e (hostMinutes (fst (newDate w)))), snd (newDate w)).
Proof.
  intros E Hs He. unfold isQuietHours. rewrite E, Hs, He. cbn [negb].
  unfold bind, lift. destruct (newDate w) as [now w']. cbn [fst snd].
  unfold inWindow, hostMinutes, JS.lt, JS.ge.
  destruct (s <? e)%Z; reflexivity.
Qed.

End QuietHoursFacts.

(** ** C6: the quiet-hours window *)

(** The window as [isQuietHours] evaluates it.  For every preferences
    record whose quiet-hours times have the accepted [HH:mm] format,
    [isQuietHours] on an enabled configuration reads the clock once and
    answers membership of the current minute of the day in the half-open
    window [[start, end)]: when [start < end], [start <= now < end];
    otherwise the window wraps midnight and the answer is [now >= start] or
    [now < end].  The minute of the day is the one of the host's local
    clock.  A disabled configuration never suppresses. *)
Theorem quiet_hours_on_host_clock
    {W : Type} (R : Runtime W) (host : JS.Host) (p : UserPreferences.t) (w : W) :
  Reference.isHHmm (UserPreferences.startTime (UserPreferences.quietHours p)) = true ->
  Reference.isHHmm (UserPreferences.endTime (UserPreferences.quietHours p)) = true ->
  UserPreferences.isQuietHours p w =
    if UserPreferences.enabled (UserPreferences.quietHours p) then
      (inr (Reference.inWindow
              (Reference.clockMinutes
                 (UserPreferences.startTime (UserPreferences.quietHours p)))
              (Reference.clockMinutes
                 (UserPreferences.endTime (UserPreferences.quietHours p)))
              (Reference.hostMinutes (fst (newDate w)))),
       snd (newDate w))
    else (inr false, w).
Proof.
  intros Hs He.
  destruct (UserPreferences.enabled (UserPreferences.quietHours p)) eqn:E.
  - apply isQuietHours_enabled; [assumption | |].
    + apply (minutesOf_HHmm _ Hs).
    + apply (minutesOf_HHmm _ He).
  - apply isQuietHours_disabled. assumption.
Qed.

(** The window 22:00-08:00 suppresses at 23:00 and not at 09:00 of the
    host's clock. *)
Lemma quiet_hours_on_host_clock_example :
  let p := Examples.preferencesWith "u1" (Examples.nightly "America/Mexico_City") in
  Reference.isHHmm (UserPreferences.startTime (UserPreferences.quietHours p)) = true /\
  Reference.isHHmm (UserPreferences.endTime (UserPreferences.quietHours p)) = true /\
  @UserPreferences.isQuietHours _ Sim.runtime Sim.utcHost p (Examples.at_ 23 0)
    = (inr true, Examples.at_ 23 0) /\
  @UserPreferences.isQuietHours _ Sim.runtime Sim.utcHost p (Examples.at_ 9 0)
    = (inr false, Examples.at_ 9 0).
Proof.
  intros p. split; [reflexivity|]. split; [reflexivity|]. split.
  - rewrite (quiet_hours_on_host_clock Sim.runtime Sim.utcHost p
               (Examples.at_ 23 0)); reflexivity.
  - rewrite (quiet_hours_on_host_clock Sim.runtime Sim.utcHost p
               (Examples.at_ 9 0)); reflexivity.
Defined.

(** C6 (the code at the failing input).  A recipient whose quiet hours are
    22:00-08:00 and whose configured zone is Asia/Tokyo, nine hours ahead
    of the host, whose clock is on UTC.  At 14:00 on the host it is 23:00
    for the recipient, inside the window, and [isQuietHours] answers
    [false]; at 23:00 on the host it is 08:00 for the recipient, outside
    the window, and [isQuietHours] answers [true].  The configured zone is
    stored with the window and never read: whatever zone is configured,
    the answer in every world is the same. *)
Theorem C6_configured_timezone_ignored :
  let p := Examples.preferencesWith "u1" (Examples.nightly "Asia/Tokyo") in
  let quiet := @UserPreferences.isQuietHours _ Sim.runtime Sim.utcHost in
  (Reference.quietInRecipientZone (UserPreferences.quietHours p)
     (fst (Sim.read_clock (Examples.at_ 14 0))) = true /\
   fst (quiet p (Examples.at_ 14 0)) = inr false) /\
  (Reference.quietInRecipientZone (UserPreferences.quietHours p)
     (fst (Sim.read_clock (Examples.at_ 23 0))) = false /\
   fst (quiet p (Examples.at_ 23 0)) = inr true) /\
  (forall (tz : string) (w : Sim.World),
     quiet (Examples.preferencesWith "u1" (Examples.nightly tz)) w = quiet p w).
Proof.
  intros p quiet. split; [|split].
  - split; vm_compute; reflexivity.
  - split; vm_compute; reflexivity.
  - intros tz w. reflexivity.
Qed.

(** ** C1: urgent notifications and quiet hours *)

(** C1 (the code at the failing input).  An URGENT notification for a
    recipient whose in-app flag is enabled and whose quiet hours are
    22:00-08:00: at 23:00 [shouldSendToUser] answers [false], at 09:00 it
    answers [true].  The urgent branch calls [shouldReceiveNotification],
    which checks quiet hours itself, so quiet hours are not bypassed. *)
Theorem C1_urgent_suppressed_in_quiet_hours :
  let p := Examples.preferencesWith "u1" (Examples.nightly "America/Mexico_City") in
  let n := Examples.outage in
  Notification.priority n = Notification.URGENT /\
  Reference.enablementFlag p (Notification.type n) Notification.IN_APP = true /\
  fst (@NotificationDomainService.shouldSendToUser _ Sim.runtime Sim.utcHost
         n p Notification.IN_APP (Examples.at_ 23 0)) = inr false /\
  fst (@NotificationDomainService.shouldSendToUser _ Sim.runtime Sim.utcHost
         n p Notification.IN_APP (Examples.at_ 9 0)) = inr true.
Proof. vm_compute. repeat split. Qed.

Lemma urgent_follows_quiet_hours {W : Type} {R : Runtime W} {host : JS.Host}
    (n : Notification.t) (p : UserPreferences.t)
    (channel : Notification.NotificationChannel) (w w' : W) :
  Notification.priority n = Notification.URGENT ->
  UserPreferences.isQuietHours p w = (inr true, w') ->
  NotificationDomainService.shouldSendToUser n p channel w = (inr false, w').
Proof.
  intros Hu Hq. unfold NotificationDomainService.shouldSendToUser.
  rewrite Hu. unfold UserPreferences.shouldReceiveNotification, bind.
  rewrite Hq. reflexivity.
Qed.

(** What the urgent branch computes in general: the enablement flag, but
    only outside quiet hours. *)
Lemma urgent_outside_quiet_hours_only {W : Type} {R : Runtime W} {host : JS.Host}
    (n : Notification.t) (p : UserPreferences.t)
    (channel : Notification.NotificationChannel) (w : W) :
  Notification.priority n = Notification.URGENT ->
  Reference.isHHmm (UserPreferences.startTime (UserPreferences.quietHours p)) = true ->
  Reference.isHHmm (UserPreferences.endTime (UserPreferences.quietHours p)) = true ->
  fst (NotificationDomainService.shouldSendToUser n p channel w) =
    inr (negb (UserPreferences.enabled (UserPreferences.quietHours p)
               && Reference.inWindow
                    (Reference.clockMinutes
                       (UserPreferences.startTime (UserPreferences.quietHours p)))
                    (Reference.clockMinutes
                       (UserPreferences.endTime (UserPreferences.quietHours p)))
                    (Reference.hostMinutes (fst (newDate w))))
         && Reference.enablementFlag p (Notification.type n) channel).
Proof.
  intros Hu Hs He. unfold NotificationDomainService.shouldSendToUser.
  rewrite Hu. unfold UserPreferences.shouldReceiveNotification, bind.
  destruct (UserPreferences.enabled (UserPreferences.quietHours p)) eqn:E.
  - rewrite (isQuietHours_enabled p w _ _ E (proj1 (minutesOf_HHmm _ Hs))
               (proj1 (minutesOf_HHmm _ He))).
    destruct (Reference.inWindow _ _ _); reflexivity.
  - rewrite (isQuietHours_disabled p w E). reflexivity.
Qed.

(** ** C5: filtering expired notifications *)

Section FilterExpired.
Context {W : Type} {R : Runtime W} {host : JS.Host}.

Lemma isExpired_at (now : JS.Date) (n : Notification.t) (w : W) :
  fst (newDate w) = now ->
  Notification.isExpired n w =
    (inr (Reference.expiredBefore now n),
     match Notification.expiresAt n with
     | Some _ => snd (newDate w)
     | None => w
     end).
Proof.
  intros <-. unfold Notification.isExpired, Reference.expiredBefore.
  destruct (Notification.expiresAt n) as [e|]; [|reflexivity].
  unfold bind, lift, ret. destruct (newDate w) as [t w']. reflexivity.
Qed.

Lemma filterExpired_frozen (now : JS.Date) (I : W -> Prop)
    (ns : list Notification.t) :
  Reference.ClockShows now I ->
  forall w, I w ->
  exists w',
    NotificationDomainService.filterExpired ns w =
      (inr (List.filter (fun n => negb (Reference.expiredBefore now n)) ns), w')
    /\ I w'.
Proof.
  intros Hclock. induction ns as [|n rest IH]; intros w Hw.
  - exists w. split; [reflexivity | assumption].
  - destruct (Hclock w Hw) as [Hnow Hnext].
    cbn [NotificationDomainService.filterExpired List.filter].
    unfold bind at 1. rewrite (isExpired_at now n w Hnow).
    assert (Hw1 : I (match Notification.expiresAt n with
                     | Some _ => snd (newDate w) | None => w end)).
    { destruct (Notification.expiresAt n); assumption. }
    destruct (IH _ Hw1) as (w' & Hrest & Hw').
    exists w'. unfold bind. rewrite Hrest. unfold ret. split; [|assumption].
    destruct (Reference.expiredBefore now n); reflexivity.
Qed.

End FilterExpired.

(** C5 (as the code has it).  For every list of notifications and
    evaluation instant [now] (the clock shows [now] throughout the call),
    [filterExpired] returns, in their order, exactly the notifications that
    are not expired, where a notification is expired when its expiry
    instant is strictly before [now]: one whose expiry is [now] itself or
    later is retained, and one with no expiry is always retained.  The
    result is a new list; the input is not changed. *)
Theorem C5_filterExpired_drops_strictly_past
    {W : Type} (R : Runtime W) (host : JS.Host)
    (now : JS.Date) (I : W -> Prop) (ns : list Notification.t) (w : W) :
  Reference.ClockShows now I ->
  I w ->
  fst (NotificationDomainService.filterExpired ns w) =
    inr (List.filter
           (fun n => match Notification.expiresAt n with
                     | Some e => (now <=? e)%Z
                     | None => true
                     end) ns).
Proof.
  intros Hclock Hw.
  destruct (filterExpired_frozen now I ns Hclock w Hw) as (w' & E & _).
  rewrite E. cbn [fst]. f_equal. apply List.filter_ext. intros n.
  unfold Reference.expiredBefore.
  destruct (Notification.expiresAt n) as [e|]; [|reflexivity].
  destruct (Z.ltb_spec e now), (Z.leb_spec now e); cbn; try reflexivity; lia.
Qed.

(** At [now] = 10000 ms: expiry one second earlier is dropped, expiry one
    hour later and absent expiry are retained. *)
Lemma C5_filterExpired_witness :
  let past := Examples.expiringAt "n-1" (Some 9000%Z) in
  let future := Examples.expiringAt "n-2" (Some 3610000%Z) in
  let never := Examples.expiringAt "n-3" None in
  Reference.ClockShows (R := Sim.runtime) 10000%Z
    (fun w => Sim.clock w = 10000%Z /\ Sim.tick w = 0%Z) /\
  fst (@NotificationDomainService.filterExpired _ Sim.runtime
         [past; future; never] (Examples.frozen 10000%Z))
  = inr [future; never].
Proof.
  intros past future never.
  assert (Hc : Reference.ClockShows (R := Sim.runtime) 10000%Z
                 (fun w => Sim.clock w = 10000%Z /\ Sim.tick w = 0%Z)).
  { intros w [Hc Ht]. cbn. rewrite Hc, Ht. repeat split. }
  split; [exact Hc|].
  rewrite (C5_filterExpired_drops_strictly_past Sim.runtime Sim.utcHost
             10000%Z _ [past; future; never] (Examples.frozen 10000%Z) Hc
             (conj eq_refl eq_refl)).
  reflexivity.
Defined.

(** C5 as stated fails at the boundary: a notification whose expiry instant
    is the evaluation instant itself is retained, although its expiry is
    "at or before" that instant. *)
Lemma C5_expiry_at_now_counterexample :
  let n := Examples.expiringAt "n-1" (Some 10000%Z) in
  let w := Examples.frozen 10000%Z in
  fst (@NotificationDomainService.filterExpired _ Sim.runtime [n] w)
  <> inr (List.filter
            (fun n => negb (Reference.expiredAtOrBefore (fst (Sim.read_clock w)) n))
            [n]).
Proof. vm_compute. discriminate. Qed.

(** ** C3: subscription health *)

Section SubscriptionHealth.
Import PushSubscription.
Context {W : Type} {R : Runtime W}.

Lemma recordFailure_spec (e : string) (s : PushSubscription.t) (w : W) :
  exists s',
    recordFailure e s w = (inr s', snd (newDate w)) /\
    failureCount s' = (failureCount s + 1)%Z /\
    errorMessage s' = Some e /\
    lastFailureAt s' = Some (fst (newDate w)) /\
    isActive s' = (if (3 <=? failureCount s + 1)%Z then false else isActive s).
Proof.
  unfold recordFailure, bind, lift, ret. destruct (newDate w) as [now w'].
  cbn [failureCount assign fst snd].
  destruct (3 <=? failureCount s + 1)%Z; eexists; repeat split.
Qed.

Lemma recordSuccess_spec (s : PushSubscription.t) (w : W) :
  exists s',
    recordSuccess s w = (inr s', snd (newDate w)) /\
    failureCount s' = 0%Z /\
    errorMessage s' = None /\
    lastUsedAt s' = fst (newDate w) /\
    isActive s' = isActive s.
Proof.
  unfold recordSuccess, updateLastUsed, bind, lift, ret.
  destruct (newDate w) as [now w']. eexists; repeat split.
Qed.

(** Fewer than three failures on top of a counter of zero leave the active
    flag alone; the counter tracks their number. *)
Lemma failures_below_three (errors : list string) :
  forall (s : PushSubscription.t) (w : W),
    (0 <= failureCount s)%Z ->
    (failureCount s + Z.of_nat (length errors) < 3)%Z ->
    exists s' w',
      Reference.failures errors s w = (inr s', w') /\
      failureCount s' = (failureCount s + Z.of_nat (length errors))%Z /\
      isActive s' = isActive s.
Proof.
  induction errors as [|e rest IH]; intros s w H0 Hlt.
  - exists s, w. cbn. repeat split. lia.
  - cbn [Reference.failures length] in *.
    destruct (recordFailure_spec e s w) as (s1 & E1 & C1 & _ & _ & A1).
    destruct (IH s1 (snd (newDate w))) as (s' & w' & E & C & A); [lia | lia |].
    exists s', w'. unfold bind. rewrite E1. split; [exact E|].
    split; [lia|]. rewrite A, A1.
    destruct (Z.leb_spec 3 (failureCount s + 1)); [lia | reflexivity].
Qed.

Lemma failures_three (e1 e2 e3 : string) (s : PushSubscription.t) (w : W) :
  failureCount s = 0%Z ->
  exists s' w',
    Reference.failures [e1; e2; e3] s w = (inr s', w') /\
    failureCount s' = 3%Z /\ isActive s' = false.
Proof.
  intros H0.
  destruct (failures_below_three [e1; e2] s w) as (s2 & w2 & E2 & C2 & _);
    [lia | cbn; lia |].
  destruct (recordFailure_spec e3 s2 w2) as (s3 & E3 & C3 & _ & _ & A3).
  exists s3, (snd (newDate w2)).
  cbn [Reference.failures] in *. unfold bind in *.
  destruct (recordFailure e1 s w) as [[?|s1] w1]; [discriminate|].
  destruct (recordFailure e2 s1 w1) as [[?|s2'] w2']; [discriminate|].
  unfold ret in E2. injection E2 as -> ->. rewrite E3. unfold ret.
  split; [reflexivity|]. cbn in C2. split; [lia|].
  rewrite A3. destruct (Z.leb_spec 3 (failureCount s2 + 1)); [reflexivity | lia].
Qed.

End SubscriptionHealth.

(** The health rules of the entity and of the worker's branch.  For every
    push subscription [s]:
    - if its failure counter is zero, fewer than three consecutive
      [recordFailure] calls leave the active flag as it was and three make
      the subscription inactive;
    - [recordSuccess], whatever the counter was, sets it to 0 and leaves the
      active flag alone, and from there again fewer than three consecutive
      failures leave the flag as it was and three deactivate;
    - the queue worker settles a failed send whose error text is
      [SUBSCRIPTION_EXPIRED] with [deactivate]: the subscription is inactive at once, whatever the
      counter was, and the counter is not touched; any other error goes to
      [recordFailure]. *)
Theorem subscription_health_rules
    {W : Type} (R : Runtime W) (s : PushSubscription.t) (w : W) :
  (PushSubscription.failureCount s = 0%Z ->
   (forall errors, (length errors < 3)%nat ->
      exists s' w',
        Reference.failures errors s w = (inr s', w') /\
        PushSubscription.isActive s' = PushSubscription.isActive s) /\
   (forall e1 e2 e3,
      exists s' w',
        Reference.failures [e1; e2; e3] s w = (inr s', w') /\
        PushSubscription.isActive s' = false)) /\
  (exists s1 w1,
     PushSubscription.recordSuccess s w = (inr s1, w1) /\
     PushSubscription.failureCount s1 = 0%Z /\
     PushSubscription.isActive s1 = PushSubscription.isActive s /\
     (forall errors, (length errors < 3)%nat ->
        exists s' w',
          Reference.failures errors s1 w1 = (inr s', w') /\
          PushSubscription.isActive s' = PushSubscription.isActive s) /\
     (forall e1 e2 e3,
        exists s' w',
          Reference.failures [e1; e2; e3] s1 w1 = (inr s', w') /\
          PushSubscription.isActive s' = false)) /\
  (forall failed,
     (PushNotificationQueue.error failed = "SUBSCRIPTION_EXPIRED" ->
      PushNotificationQueue.settle failed s w
        = (inr (PushSubscription.deactivate s), w) /\
      PushSubscription.isActive (PushSubscription.deactivate s) = false /\
      PushSubscription.failureCount (PushSubscription.deactivate s)
        = PushSubscription.failureCount s) /\
     (PushNotificationQueue.error failed <> "SUBSCRIPTION_EXPIRED" ->
      PushNotificationQueue.settle failed s w
        = PushSubscription.recordFailure (PushNotificationQueue.error failed) s w)).
Proof.
  assert (Hfresh : forall (s0 : PushSubscription.t) (w0 : W),
    PushSubscription.failureCount s0 = 0%Z ->
    (forall errors, (length errors < 3)%nat ->
       exists s' w',
         Reference.failures errors s0 w0 = (inr s', w') /\
         PushSubscription.isActive s' = PushSubscription.isActive s0) /\
    (forall e1 e2 e3,
       exists s' w',
         Reference.failures [e1; e2; e3] s0 w0 = (inr s', w') /\
         PushSubscription.isActive s' = false)).
  { intros s0 w0 H0. split.
    - intros errors Hlen.
      destruct (failures_below_three errors s0 w0) as (s' & w' & E & _ & A);
        [lia | lia |].
      exists s', w'. split; assumption.
    - intros e1 e2 e3.
      destruct (failures_three e1 e2 e3 s0 w0 H0) as (s' & w' & E & _ & A).
      exists s', w'. split; assumption. }
  split; [|split].
  - apply Hfresh.
  - destruct (recordSuccess_spec s w) as (s1 & E & C & _ & _ & A).
    exists s1, (snd (newDate w)).
    destruct (Hfresh s1 (snd (newDate w)) C) as [Hbelow Hthree].
    split; [exact E|]. split; [exact C|]. split; [exact A|]. split.
    + intros errors Hlen. destruct (Hbelow errors Hlen) as (s' & w' & E' & A').
      exists s', w'. split; [exact E' | congruence].
    + exact Hthree.
  - intros failed. split.
    + intros Herr. unfold PushNotificationQueue.settle. rewrite Herr.
      repeat split.
    + intros Herr. unfold PushNotificationQueue.settle.
      apply String.eqb_neq in Herr. rewrite Herr. reflexivity.
Qed.

(** A fresh subscription: two failures keep it active, the third
    deactivates it; the error text [SUBSCRIPTION_EXPIRED] deactivates a
    subscription with counter 1 at once. *)
Lemma subscription_health_rules_example :
  let s := Examples.webSubscription 0%Z in
  let w := Examples.frozen 5000%Z in
  PushSubscription.failureCount s = 0%Z /\
  (exists s' w',
     Reference.failures (R := Sim.runtime) ["timeout"; "timeout"] s w = (inr s', w') /\
     PushSubscription.isActive s' = true) /\
  (exists s' w',
     Reference.failures (R := Sim.runtime) ["timeout"; "timeout"; "timeout"] s w
       = (inr s', w') /\
     PushSubscription.isActive s' = false) /\
  PushNotificationQueue.settle (R := Sim.runtime)
    {| PushNotificationQueue.failed_id := "s-1";
       PushNotificationQueue.error := "SUBSCRIPTION_EXPIRED" |}
    (Examples.webSubscription 1%Z) w
  = (inr (PushSubscription.deactivate (Examples.webSubscription 1%Z)), w).
Proof.
  intros s w.
  pose proof (subscription_health_rules Sim.runtime s w) as (Hfresh & _ & _).
  pose proof (subscription_health_rules Sim.runtime (Examples.webSubscription 1%Z) w)
    as (_ & _ & Hgone).
  destruct (Hfresh eq_refl) as [Hbelow Hthree].
  split; [reflexivity|]. split; [|split].
  - apply (Hbelow ["timeout"; "timeout"]). cbn. lia.
  - apply Hthree.
  - apply (proj1 (Hgone {| PushNotificationQueue.failed_id := "s-1";
                           PushNotificationQueue.error := "SUBSCRIPTION_EXPIRED" |})
                 eq_refl).
Defined.

(** C3 (the code at the failing input).  The phone of [u1] is in service
    with a failure counter of 0, and the messaging service reports its
    registration token as no longer registered.  [FCMProvider.send]
    translates that report into the error [SUBSCRIPTION_EXPIRED], and a
    failed send with that text is settled by the worker with [deactivate]:
    the phone would be inactive at once.  The worker sends through
    [FCMProvider.sendBatch], though, which hands on the text of the
    service's message; the comparison with [SUBSCRIPTION_EXPIRED] fails and
    the report is counted as one failure by [recordFailure].  After the
    job the phone is still active, with a counter of 1, in the list the
    worker holds and in the store. *)
Theorem C3_gone_token_keeps_subscription_active :
  let phone := ProviderSim.phoneInService in
  GoneSim.health phone = ("s-0", true, 0%Z, None) /\
  FCMSend.onError FCMSend.notRegistered = Thrown.Error "SUBSCRIPTION_EXPIRED" /\
  (forall w : SubscriptionSim.World,
     PushNotificationQueue.settle (R := SubscriptionSim.runtime)
       {| PushNotificationQueue.failed_id := "s-0";
          PushNotificationQueue.error := "SUBSCRIPTION_EXPIRED" |} phone w
     = (inr (PushSubscription.deactivate phone), w)) /\
  PushSubscription.isActive (PushSubscription.deactivate phone) = false /\
  fst (GoneSim.fcm_sendBatch [phone] FCMSim.payload GoneSim.phoneOnly)
    = inr {| PushNotificationQueue.successful := [];
             PushNotificationQueue.failed :=
               [{| PushNotificationQueue.failed_id := "s-0";
                   PushNotificationQueue.error :=
                     "Requested entity was not found." |}] |} /\
  exists held w',
    GoneSim.processJob ProviderSim.job GoneSim.phoneOnly = (inr held, w') /\
    map GoneSim.health held
      = [("s-0", true, 1%Z, Some "Requested entity was not found.")] /\
    map GoneSim.health (SubscriptionSim.subscriptions w')
      = [("s-0", true, 1%Z, Some "Requested entity was not found.")].
Proof.
  intros phone. split; [reflexivity|]. split; [reflexivity|].
  split; [intros w; reflexivity|]. split; [reflexivity|].
  split; [vm_compute; reflexivity|].
  eexists _, _. split; [vm_compute; reflexivity|].
  split; vm_compute; reflexivity.
Qed.

(** In the worker's loop, the subscription a failed send names is replaced
    by its settled state, and that state is what goes to the repository. *)
Lemma onFailed_settles {W : Type} {R : Runtime W} {SR : ISubsriptionRepository W}
    (failed : PushNotificationQueue.FailedSend)
    (subscriptions : list PushSubscription.t) (i : nat)
    (sub : PushSubscription.t) (w : W) :
  PushNotificationQueue.find (PushNotificationQueue.failed_id failed) subscriptions
    = Some (i, sub) ->
  PushNotificationQueue.error failed = "SUBSCRIPTION_EXPIRED" ->
  PushNotificationQueue.onFailed failed subscriptions w =
    match update (PushSubscription.deactivate sub) w with
    | (inr _, w') => (inr (<[i := PushSubscription.deactivate sub]> subscriptions), w')
    | (inl e, w') => (inl e, w')
    end.
Proof.
  intros Hfind Herr. unfold PushNotificationQueue.onFailed. rewrite Hfind.
  unfold PushNotificationQueue.settle. rewrite Herr, String.eqb_refl.
  unfold bind, ret. destruct (update _ w) as [[e|r] w']; reflexivity.
Qed.

(** ** Bulk delivery: structure of the loop *)

Lemma slice_drop {A} (l : list A) (i b : Z) :
  (0 <= i <= Z.of_nat (length l))%Z -> (0 <= b)%Z ->
  drop (Z.to_nat i) l = JS.slice l i (i + b) ++ drop (Z.to_nat (i + b)) l.
Proof.
  intros Hi Hb. unfold JS.slice, JS.relIndex.
  destruct (Z.ltb_spec i 0); [lia|].
  destruct (Z.ltb_spec (i + b) 0); [lia|].
  rewrite (Z.min_l i) by lia.
  destruct (Z.le_gt_cases (i + b) (Z.of_nat (length l))) as [Hle|Hgt].
  - rewrite (Z.min_l (i + b)) by lia.
    replace (Z.to_nat (Z.max (i + b - i) 0)) with (Z.to_nat b) by lia.
    replace (Z.to_nat (i + b)) with (Z.to_nat i + Z.to_nat b)%nat by lia.
    rewrite <- drop_drop. symmetry. apply take_drop.
  - rewrite (Z.min_r (i + b)) by lia.
    rewrite (drop_ge l (Z.to_nat (i + b))) by lia.
    rewrite app_nil_r, take_ge; [reflexivity|].
    rewrite length_drop. lia.
Qed.

Section BulkFacts.
Import DTO SendBulkNotifications Reference.
Context {W : Type} {R : Runtime W} {host : JS.Host}
        {NR : INotificationRepository W} {PR : IUserPreferencesRepository W}.

Lemma iteration_total (dto : BulkNotificationDTO) (u : string) (w : W) :
  exists o w', iteration dto u w = (inr o, w').
Proof.
  unfold iteration, tryCatch, ret.
  destruct (tryBody dto u w) as [[e|o] w']; eauto.
Qed.

Lemma iteration_withUserIds (dto : BulkNotificationDTO) (batch : list string) (u : string) :
  iteration (withUserIds dto batch) u = iteration dto u.
Proof. reflexivity. Qed.

Lemma outcomes_withUserIds (dto : BulkNotificationDTO) (batch ids : list string) (w : W) :
  outcomes (withUserIds dto batch) ids w = outcomes dto ids w.
Proof.
  revert w. induction ids as [|u rest IH]; intros w; [reflexivity|].
  cbn [outcomes]. rewrite iteration_withUserIds.
  destruct (iteration dto u w) as [[e|o] w1]; [reflexivity|].
  rewrite IH. reflexivity.
Qed.

Lemma loop_outcomes (dto : BulkNotificationDTO) (ids : list string) :
  forall S F (w : W),
    loop dto ids S F w =
      (inr {| successful := S ++ successes (fst (outcomes dto ids w));
              failed := F ++ failures_of (fst (outcomes dto ids w)) |},
       snd (outcomes dto ids w)).
Proof.
  induction ids as [|u rest IH]; intros S F w.
  - cbn. rewrite !app_nil_r. reflexivity.
  - cbn [loop outcomes]. unfold bind at 1.
    destruct (iteration_total dto u w) as (o & w1 & E). rewrite E.
    destruct (outcomes dto rest w1) as [os w2] eqn:Eo.
    destruct o as [f|r]; rewrite IH, Eo; cbn [fst snd successes failures_of omap];
      rewrite <- ?app_assoc; reflexivity.
Qed.

Lemma execute_outcomes (dto : BulkNotificationDTO) (w : W) :
  execute dto w =
    (inr {| successful := successes (fst (outcomes dto (userIds dto) w));
            failed := failures_of (fst (outcomes dto (userIds dto) w)) |},
     snd (outcomes dto (userIds dto) w)).
Proof. unfold execute. rewrite loop_outcomes. reflexivity. Qed.

Lemma outcomes_app (dto : BulkNotificationDTO) (l1 l2 : list string) :
  forall w : W,
    outcomes dto (l1 ++ l2) w =
      (fst (outcomes dto l1 w) ++ fst (outcomes dto l2 (snd (outcomes dto l1 w))),
       snd (outcomes dto l2 (snd (outcomes dto l1 w)))).
Proof.
  induction l1 as [|u rest IH]; intros w.
  - cbn. destruct (outcomes dto l2 w); reflexivity.
  - cbn [app outcomes].
    destruct (iteration_total dto u w) as (o & w1 & E). rewrite E.
    rewrite IH. destruct (outcomes dto rest w1) as [os w2]. reflexivity.
Qed.

Lemma outcomes_length (dto : BulkNotificationDTO) (ids : list string) :
  forall w : W, length (fst (outcomes dto ids w)) = length ids.
Proof.
  induction ids as [|u rest IH]; intros w; [reflexivity|].
  cbn [outcomes]. destruct (iteration_total dto u w) as (o & w1 & E). rewrite E.
  specialize (IH w1). destruct (outcomes dto rest w1) as [os w2].
  cbn in *. lia.
Qed.

Lemma andThen_ext (first second second' : M W Result) (w : W) :
  (forall w1, second w1 = second' w1) ->
  andThen first second w = andThen first second' w.
Proof.
  intros Hext. unfold andThen, bind.
  destruct (first w) as [[e|r1] w1]; [reflexivity|]. rewrite Hext. reflexivity.
Qed.

Lemma successes_app (a b : list (Failed + NotificationResponseDTO)) :
  successes (a ++ b) = successes a ++ successes b.
Proof. unfold successes. apply omap_app. Qed.

Lemma failures_of_app (a b : list (Failed + NotificationResponseDTO)) :
  failures_of (a ++ b) = failures_of a ++ failures_of b.
Proof. unfold failures_of. apply omap_app. Qed.

(** Delivering to [l1 ++ l2] is delivering to [l1], then to [l2]. *)
Lemma execute_app (dto : BulkNotificationDTO) (l1 l2 : list string) (w : W) :
  execute (withUserIds dto (l1 ++ l2)) w =
    andThen (execute (withUserIds dto l1)) (execute (withUserIds dto l2)) w.
Proof.
  unfold andThen, bind, ret. rewrite !execute_outcomes. cbn [userIds withUserIds].
  rewrite !outcomes_withUserIds, outcomes_app. cbn [fst snd successful failed].
  rewrite successes_app, failures_of_app. reflexivity.
Qed.

Lemma recipients_permutation (outs : list (Failed + NotificationResponseDTO)) :
  Permutation
    (map r_userId (successes outs) ++ map userId (failures_of outs))
    (map recipientOf outs).
Proof.
  induction outs as [|[f|r] outs IH]; [reflexivity| |].
  - cbn. rewrite <- IH. symmetry. apply Permutation_middle.
  - cbn. rewrite <- IH. reflexivity.
Qed.

Lemma tryBody_suppressed (dto : BulkNotificationDTO) (u : string) (w w' : W)
    (f : Failed) :
  tryBody dto u w = (inr (inl f), w') ->
  f = {| userId := u; error := "User has disabled all channels for this type" |}.
Proof.
  unfold tryBody, bind at 1.
  destruct (findByUserId u w) as [[e|prefs] w1]; [discriminate|].
  match goal with
  | |- context [let '(c, d) := ?x in _] => destruct x as [chans disabled]
  end.
  destruct disabled; [unfold ret; intros E; injection E as <- _; reflexivity|].
  unfold bind at 1, lift at 1. destruct (uuidv4 w1) as [id w2].
  unfold bind at 1.
  match goal with |- context [?c w2] =>
    match c with match _ with Some _ => _ | None => _ end =>
      destruct (c w2) as [[e|exp] w3] end end; [discriminate|].
  unfold Notification.new, bind at 1, bind at 1, lift, ret.
  destruct (newDate w3) as [created w4].
  unfold bind at 1.
  destruct (NotificationDomainService.validateNotification _ w4) as [[e|[]] w5];
    [discriminate|].
  unfold bind.
  match goal with
  | |- context [save ?n w5] => destruct (save n w5) as [[e|saved] w6]
  end; discriminate.
Qed.

Lemma tryBody_disabled_only_explicit_empty (dto : BulkNotificationDTO)
    (u : string) (w w' : W) (f : Failed) :
  tryBody dto u w = (inr (inl f), w') -> DTO.channels dto = Some [].
Proof.
  unfold tryBody, bind at 1.
  destruct (findByUserId u w) as [[e|prefs] w1]; [discriminate|].
  match goal with
  | |- context [let '(c, d) := ?x in _] =>
      destruct x as [chans disabled] eqn:Edecide
  end.
  destruct disabled.
  - intros _. destruct prefs as [p|]; [|discriminate].
    injection Edecide as _ Hlen.
    destruct (DTO.channels dto) as [[|c cs]|]; [reflexivity| |].
    + rewrite andb_false_r in Hlen. discriminate.
    + rewrite andb_true_r in Hlen.
      destruct (UserPreferences.getEnabledChannels p (type dto)); discriminate.
  - unfold bind at 1, lift at 1. destruct (uuidv4 w1) as [id w2].
    unfold bind at 1.
    match goal with |- context [?c w2] =>
      match c with match _ with Some _ => _ | None => _ end =>
        destruct (c w2) as [[e|exp] w3] end end; [discriminate|].
    unfold Notification.new, bind at 1, bind at 1, lift, ret.
    destruct (newDate w3) as [created w4].
    unfold bind at 1.
    destruct (NotificationDomainService.validateNotification _ w4) as [[e|[]] w5];
      [discriminate|].
    unfold bind.
    match goal with
    | |- context [save ?n w5] => destruct (save n w5) as [[e|saved] w6]
    end; discriminate.
Qed.

Lemma execute_single (dto : BulkNotificationDTO) (u : string) (w : W) :
  execute (withUserIds dto [u]) w =
    match tryBody dto u w with
    | (inl e, w1) =>
        (inr {| successful := [];
                failed := [{| userId := u;
                              error := JS.orString (Thrown.message e)
                                         "Failed to create notification" |}] |}, w1)
    | (inr (inl f), w1) => (inr {| successful := []; failed := [f] |}, w1)
    | (inr (inr r), w1) => (inr {| successful := [r]; failed := [] |}, w1)
    end.
Proof.
  unfold execute. cbn [userIds withUserIds loop]. unfold bind.
  rewrite iteration_withUserIds. unfold iteration, tryCatch, ret.
  destruct (tryBody dto u w) as [[e|[f|r]] w1]; reflexivity.
Qed.

Lemma batches_outcomes (dto : BulkNotificationDTO) (b : Z) :
  (0 < b)%Z ->
  forall (fuel : nat) (i : Z) S F (w : W),
    (0 <= i)%Z ->
    (Z.max 0 (Z.of_nat (length (userIds dto)) - i) < Z.of_nat fuel)%Z ->
    batches fuel dto b i S F w =
      Some (inr {| successful :=
                     S ++ successes (fst (outcomes dto (drop (Z.to_nat i) (userIds dto)) w));
                   failed :=
                     F ++ failures_of (fst (outcomes dto (drop (Z.to_nat i) (userIds dto)) w)) |},
            snd (outcomes dto (drop (Z.to_nat i) (userIds dto)) w)).
Proof.
  intros Hb. induction fuel as [|fuel IH]; intros i S F w Hi Hfuel; [lia|].
  cbn [batches].
  destruct (Z.ltb_spec i (Z.of_nat (length (userIds dto)))) as [Hlt|Hge].
  - rewrite execute_outcomes. cbn [userIds withUserIds successful failed].
    rewrite outcomes_withUserIds.
    rewrite IH by lia.
    rewrite (slice_drop (userIds dto) i b) by lia.
    rewrite outcomes_app. cbn [fst snd].
    rewrite successes_app, failures_of_app, !app_assoc. reflexivity.
  - rewrite drop_ge by lia. cbn. rewrite !app_nil_r. reflexivity.
Qed.

End BulkFacts.

(** ** Bulk and single delivery over the MongoDB repository *)

Section MongoFacts.
Import DTO SendBulkNotifications Reference.
Context {W : Type} {R : Runtime W} {host : JS.Host}
        {NC : NotificationCollection W} {PR : IUserPreferencesRepository W}.
#[local] Existing Instance MongoNotificationRepository.repository.

Lemma save_returns_argument (n saved : Notification.t) (w w' : W) :
  save n w = (inr saved, w') -> saved = n.
Proof.
  cbn [save MongoNotificationRepository.repository].
  unfold MongoNotificationRepository.save, tryCatch, bind, ret, throw.
  destruct (notifications_insertOne n w) as [[e|[]] w1]; intros E;
    [discriminate | injection E as <- _; reflexivity].
Qed.

(** What a successful pass through the [try] body delivers. *)
Lemma tryBody_delivered (dto : BulkNotificationDTO) (u : string) (w w' : W)
    (r : NotificationResponseDTO) :
  tryBody dto u w = (inr (inr r), w') ->
  r_userId r = u /\ createdFrom (DTO.expiresAt dto) u w r.
Proof.
  unfold tryBody, bind at 1.
  destruct (findByUserId u w) as [[e|prefs] w1] eqn:Efind; [discriminate|].
  match goal with
  | |- context [let '(c, d) := ?x in _] => destruct x as [chans disabled]
  end.
  destruct disabled; [unfold ret; discriminate|].
  unfold bind at 1, lift at 1.
  destruct (uuidv4 w1) as [id w2] eqn:Eid.
  assert (Hexp :
    (match DTO.expiresAt dto with
     | Some d => ret d
     | None => NotificationDomainService.calculateExpiryDate 30
     end) w2 =
    (inr (match DTO.expiresAt dto with
          | Some d => d
          | None => JS.setDatePlus (fst (newDate w2)) 30
          end),
     match DTO.expiresAt dto with Some _ => w2 | None => snd (newDate w2) end)).
  { destruct (DTO.expiresAt dto); [reflexivity|].
    unfold NotificationDomainService.calculateExpiryDate, bind, lift, ret.
    destruct (newDate w2); reflexivity. }
  unfold bind at 1. rewrite Hexp. clear Hexp.
  set (exp := match DTO.expiresAt dto with Some d => d | None => _ end).
  set (w3 := match DTO.expiresAt dto with Some _ => w2 | None => _ end).
  unfold Notification.new, bind at 1, bind at 1, lift, ret.
  destruct (newDate w3) as [created w4] eqn:Ecreated.
  unfold bind at 1.
  destruct (NotificationDomainService.validateNotification _ w4) as [[e|[]] w5];
    [discriminate|].
  unfold bind.
  match goal with
  | |- context [save ?n w5] => destruct (save n w5) as [[e|saved] w6] eqn:Esave
  end; [discriminate|].
  apply save_returns_argument in Esave. subst saved.
  intros E. injection E as <- _. cbn. split; [reflexivity|].
  exists prefs, w1. split; [exact Efind|]. rewrite Eid. unfold builtAt.
  cbn [snd]. fold w3. rewrite Ecreated. split; reflexivity.
Qed.

Lemma iteration_recipient (dto : BulkNotificationDTO) (u : string) (w w' : W)
    (o : Failed + NotificationResponseDTO) :
  iteration dto u w = (inr o, w') -> recipientOf o = u.
Proof.
  unfold iteration, tryCatch.
  destruct (tryBody dto u w) as [[e|[f|r]] w1] eqn:E.
  - unfold ret. intros E'. injection E' as <- _. reflexivity.
  - intros E'. injection E' as <- _. apply tryBody_suppressed in E. subst f. reflexivity.
  - intros E'. injection E' as <- _. apply tryBody_delivered in E as [E _]. exact E.
Qed.

Lemma outcomes_recipients (dto : BulkNotificationDTO) (ids : list string) :
  forall w : W, map recipientOf (fst (outcomes dto ids w)) = ids.
Proof.
  induction ids as [|u rest IH]; intros w; [reflexivity|].
  cbn [outcomes]. destruct (iteration_total dto u w) as (o & w1 & E). rewrite E.
  specialize (IH w1). destruct (outcomes dto rest w1) as [os w2].
  cbn [fst map] in *. rewrite IH. f_equal. eapply iteration_recipient; eassumption.
Qed.

(** Every successful entry is built for one occurrence [u] of a recipient
    in the list, from the world the recipients before it leave. *)
Lemma outcomes_built (dto : BulkNotificationDTO) (ids : list string) :
  forall w : W,
    Forall (fun r =>
              exists pre u post,
                ids = pre ++ u :: post /\
                r_userId r = u /\
                createdFrom (DTO.expiresAt dto) u (snd (outcomes dto pre w)) r)
           (successes (fst (outcomes dto ids w))).
Proof.
  induction ids as [|u rest IH]; intros w; [constructor|].
  cbn [outcomes]. destruct (iteration dto u w) as [[e|o] w1] eqn:E; [constructor|].
  specialize (IH w1).
  assert (Hrest :
    Forall (fun r =>
              exists pre u' post,
                u :: rest = pre ++ u' :: post /\
                r_userId r = u' /\
                createdFrom (DTO.expiresAt dto) u' (snd (outcomes dto pre w)) r)
           (successes (fst (outcomes dto rest w1)))).
  { eapply Forall_impl; [exact IH|].
    intros r (pre & u' & post & -> & Hu & Hb).
    exists (u :: pre), u', post. split; [reflexivity|]. split; [exact Hu|].
    cbn [outcomes]. rewrite E.
    destruct (outcomes dto pre w1) as [os' w2']. exact Hb. }
  destruct (outcomes dto rest w1) as [os w2].
  cbn [fst] in *. destruct o as [f|r]; cbn; [exact Hrest|].
  constructor; [|exact Hrest].
  unfold iteration, tryCatch in E.
  destruct (tryBody dto u w) as [[e|[f|r']] w1'] eqn:Et.
  - unfold ret in E. discriminate.
  - discriminate.
  - injection E as -> _. apply tryBody_delivered in Et as [Hu Hb].
    exists [], u, rest. split; [reflexivity|]. split; [exact Hu|]. exact Hb.
Qed.

Lemma create_built (dto : CreateNotificationDTO) (w w' : W)
    (r : NotificationResponseDTO) :
  CreateNotification.execute dto w = (inr r, w') ->
  r_userId r = c_userId dto /\
  createdFrom (c_expiresAt dto) (c_userId dto) w r.
Proof.
  unfold CreateNotification.execute, tryCatch.
  match goal with |- context [?body w] =>
    match body with bind _ _ => destruct (body w) as [[e|r'] w1] eqn:E end end;
    [unfold throw; discriminate|].
  intros E'. injection E' as -> _. revert E.
  unfold bind at 1.
  destruct (findByUserId (c_userId dto) w) as [[e|prefs] w1'] eqn:Efind;
    [discriminate|].
  unfold bind at 1, lift at 1. destruct (uuidv4 w1') as [id w2] eqn:Eid.
  assert (Hexp :
    (match c_expiresAt dto with
     | Some d => ret d
     | None => NotificationDomainService.calculateExpiryDate 30
     end) w2 =
    (inr (match c_expiresAt dto with
          | Some d => d
          | None => JS.setDatePlus (fst (newDate w2)) 30
          end),
     match c_expiresAt dto with Some _ => w2 | None => snd (newDate w2) end)).
  { destruct (c_expiresAt dto); [reflexivity|].
    unfold NotificationDomainService.calculateExpiryDate, bind, lift, ret.
    destruct (newDate w2); reflexivity. }
  unfold bind at 1. rewrite Hexp. clear Hexp.
  set (w3 := match c_expiresAt dto with Some _ => w2 | None => _ end).
  unfold Notification.new, bind at 1, bind at 1, lift, ret.
  destruct (newDate w3) as [created w4] eqn:Ecreated.
  unfold bind at 1.
  destruct (NotificationDomainService.validateNotification _ w4) as [[e|[]] w5];
    [discriminate|].
  unfold bind.
  match goal with
  | |- context [save ?n w5] => destruct (save n w5) as [[e|saved] w6] eqn:Esave
  end; [discriminate|].
  apply save_returns_argument in Esave. subst saved.
  intros E. injection E as <- _. cbn. split; [reflexivity|].
  exists prefs, w1'. split; [exact Efind|]. rewrite Eid. unfold builtAt.
  cbn [snd]. fold w3. rewrite Ecreated. split; reflexivity.
Qed.

Lemma setDatePlus_fixed_offset (t n : Z) :
  (forall a b c d, JS.LocalTZA a b = JS.LocalTZA c d) ->
  JS.setDatePlus t n = (t + n * JS.msPerDay)%Z.
Proof.
  intros Hfix. unfold JS.setDatePlus, JS.UTC, JS.LocalTime.
  rewrite (Hfix (t + JS.LocalTZA t true + n * JS.msPerDay)%Z false t true). lia.
Qed.

End MongoFacts.

(** ** C7: chunked bulk delivery *)

(** C7.  For every bulk request, every positive batch size (the default of
    100 when none is given) and every world, [executeBatched] terminates -
    more iterations than there are recipients are never needed - and
    returns what [execute] returns on the full recipient list from the same
    world: the same successful entries, the same failed entries with the
    same reasons (even in the same order), leaving the same world. *)
Theorem C7_chunking_preserves_outcomes
    {W : Type} (R : Runtime W) (host : JS.Host)
    (NR : INotificationRepository W) (PR : IUserPreferencesRepository W)
    (dto : DTO.BulkNotificationDTO) (batchSize : option Z) (fuel : nat) (w : W) :
  (0 < default 100 batchSize)%Z ->
  (length (DTO.userIds dto) < fuel)%nat ->
  SendBulkNotifications.executeBatched fuel dto batchSize w
  = Some (SendBulkNotifications.execute dto w).
Proof.
  intros Hb Hfuel. unfold SendBulkNotifications.executeBatched.
  rewrite batches_outcomes by (try assumption; lia).
  rewrite execute_outcomes. reflexivity.
Qed.

(** Three recipients in batches of two. *)
Lemma C7_chunking_witness :
  let dto := Examples.announcement ["A"; "B"; "C"] in
  (0 < default 100 (Some 2))%Z /\
  (length (DTO.userIds dto) < 4)%nat /\
  Sim.sendBatched 4 dto (Some 2%Z) Examples.office
  = Some (Sim.sendBulk dto Examples.office).
Proof.
  intros dto. split; [reflexivity|]. split; [cbn; lia|].
  apply (C7_chunking_preserves_outcomes Sim.runtime Sim.utcHost
           Sim.notificationRepository Sim.preferencesRepository
           dto (Some 2%Z) 4 Examples.office); [reflexivity | cbn; lia].
Defined.

(** With a batch size of zero the loop of [executeBatched] makes no
    progress: it is still running after any number of iterations. *)
Lemma batches_zero_diverges {W : Type} {R : Runtime W} {host : JS.Host}
    {NR : INotificationRepository W} {PR : IUserPreferencesRepository W}
    (dto : DTO.BulkNotificationDTO) (fuel : nat) (w : W) :
  DTO.userIds dto <> [] ->
  SendBulkNotifications.executeBatched fuel dto (Some 0%Z) w = None.
Proof.
  intros Hne. unfold SendBulkNotifications.executeBatched. cbn [default from_option id].
  generalize (@nil DTO.NotificationResponseDTO) (@nil SendBulkNotifications.Failed).
  induction fuel as [|fuel IH]; intros S F; [reflexivity|].
  cbn [SendBulkNotifications.batches].
  destruct (Z.ltb_spec 0 (Z.of_nat (length (DTO.userIds dto)))) as [_|Hlen].
  - replace (JS.slice (DTO.userIds dto) 0 (0 + 0)) with (@nil string).
    + cbn. apply IH.
    + change (0 + 0)%Z with 0%Z. unfold JS.slice. rewrite Z.sub_diag. reflexivity.
  - destruct (DTO.userIds dto); [congruence | cbn in Hlen; lia].
Qed.

(** ** C4: isolation of recipients in bulk delivery *)

Section BulkOverMongo.
Context {W : Type} {R : Runtime W} {host : JS.Host}
        {NC : NotificationCollection W} {PR : IUserPreferencesRepository W}.
#[local] Existing Instance MongoNotificationRepository.repository.

(** C4 (as the code has it).  For every bulk request and every world (over
    the MongoDB notification repository): [execute] never throws; the
    recipient ids found in the successful and failed lists together are the
    input ids, each as often as it occurs in the input - so one entry per
    occurrence of a recipient id, none omitted and, for an input without
    repetitions, none twice; and for
    every recipient [u] of the input, with the recipients [pre] before it
    and [post] after it, the delivery is the delivery to [pre], then to [u]
    alone, then to [post], where the delivery to [u] alone yields exactly
    one entry for [u]: a failure entry with the error's message when the
    body throws (lookup, validation or persistence), the entry the body
    pushes otherwise.  The recipients after [u] are processed whatever
    happened to [u]. *)
Theorem C4_bulk_isolation (dto : DTO.BulkNotificationDTO) (w : W) :
  exists result w',
    SendBulkNotifications.execute dto w = (inr result, w') /\
    Permutation (Reference.recipients result) (DTO.userIds dto) /\
    (NoDup (DTO.userIds dto) -> NoDup (Reference.recipients result)) /\
    (forall pre u post,
       DTO.userIds dto = pre ++ u :: post ->
       SendBulkNotifications.execute dto w =
         Reference.andThen
           (SendBulkNotifications.execute (DTO.withUserIds dto pre))
           (Reference.andThen
              (SendBulkNotifications.execute (DTO.withUserIds dto [u]))
              (SendBulkNotifications.execute (DTO.withUserIds dto post))) w /\
       forall wu,
       exists single w1,
         SendBulkNotifications.execute (DTO.withUserIds dto [u]) wu
           = (inr single, w1) /\
         Reference.recipients single = [u] /\
         (forall e w2,
            SendBulkNotifications.tryBody dto u wu = (inl e, w2) ->
            w1 = w2 /\
            single =
              {| SendBulkNotifications.successful := [];
                 SendBulkNotifications.failed :=
                   [{| SendBulkNotifications.userId := u;
                       SendBulkNotifications.error :=
                         JS.orString (Thrown.message e)
                           "Failed to create notification" |}] |})).
Proof.
  exists {| SendBulkNotifications.successful :=
              Reference.successes (fst (Reference.outcomes dto (DTO.userIds dto) w));
            SendBulkNotifications.failed :=
              Reference.failures_of (fst (Reference.outcomes dto (DTO.userIds dto) w)) |},
         (snd (Reference.outcomes dto (DTO.userIds dto) w)).
  assert (Hperm : Permutation
            (Reference.recipients
               {| SendBulkNotifications.successful :=
                    Reference.successes (fst (Reference.outcomes dto (DTO.userIds dto) w));
                  SendBulkNotifications.failed :=
                    Reference.failures_of (fst (Reference.outcomes dto (DTO.userIds dto) w)) |})
            (DTO.userIds dto)).
  { unfold Reference.recipients. cbn [SendBulkNotifications.successful SendBulkNotifications.failed].
    rewrite recipients_permutation, outcomes_recipients. reflexivity. }
  split; [apply execute_outcomes|]. split; [exact Hperm|]. split.
  - intros Hnd. rewrite Hperm. exact Hnd.
  - intros pre u post Hsplit. split.
    + assert (Hdto : dto = DTO.withUserIds dto (pre ++ [u] ++ post)).
      { destruct dto. cbn in *. subst. reflexivity. }
      rewrite Hdto at 1. rewrite execute_app.
      apply andThen_ext. intros w1. apply (execute_app dto [u] post).
    + intros wu.
      pose proof (execute_outcomes (DTO.withUserIds dto [u]) wu) as Eo.
      cbn [DTO.userIds DTO.withUserIds] in Eo. rewrite outcomes_withUserIds in Eo.
      eexists _, _. split; [exact Eo|]. split.
      * unfold Reference.recipients.
        cbn [SendBulkNotifications.successful SendBulkNotifications.failed].
        pose proof (recipients_permutation (fst (Reference.outcomes dto [u] wu))) as Hp.
        rewrite outcomes_recipients in Hp.
        apply Permutation_length_1_inv. symmetry. exact Hp.
      * intros e w2 Hthrow. cbn [Reference.outcomes].
        unfold SendBulkNotifications.iteration, tryCatch. rewrite Hthrow.
        split; reflexivity.
Qed.

(** ** C10: the default expiry *)

(** C10 (as the code has it).  Every notification created through the
    single or the bulk path has an expiry instant, so no response of these
    operations lacks one.  It is the instant the caller gave; when the DTO
    omits [expiresAt] it is the instant [calculateExpiryDate(30)] computes
    from the clock reading it takes itself, after the preferences of the
    recipient were looked up and the id was drawn: the same local time of
    day 30 calendar days after that reading, which on a host whose zone
    keeps one offset is the reading plus 30 * 24 hours.  The creation
    instant [createdAt] is the reading of the clock taken next, by the
    constructor, so the expiry is 30 days after the reading just before
    the creation instant.  In the bulk path this holds of every successful
    entry, for one occurrence [u] of its recipient in the input, from the
    world the deliveries to the recipients before [u] leave. *)
Theorem C10_created_notifications_expire
    (single : DTO.CreateNotificationDTO) (bulk : DTO.BulkNotificationDTO)
    (w : W) :
  (forall r w',
     CreateNotification.execute single w = (inr r, w') ->
     DTO.r_expiresAt r <> None /\
     Reference.createdFrom (DTO.c_expiresAt single) (DTO.c_userId single) w r) /\
  (forall result w',
     SendBulkNotifications.execute bulk w = (inr result, w') ->
     Forall (fun r =>
               DTO.r_expiresAt r <> None /\
               exists pre u post,
                 DTO.userIds bulk = pre ++ u :: post /\
                 DTO.r_userId r = u /\
                 Reference.createdFrom (DTO.expiresAt bulk) u
                   (snd (SendBulkNotifications.execute
                           (DTO.withUserIds bulk pre) w)) r)
            (SendBulkNotifications.successful result)) /\
  ((forall a b c d, JS.LocalTZA a b = JS.LocalTZA c d) ->
   forall t, JS.setDatePlus t 30 = (t + 30 * JS.msPerDay)%Z).
Proof.
  split; [|split].
  - intros r w' E. apply create_built in E as [_ Hb]. split; [|exact Hb].
    destruct Hb as (prefs & w1 & _ & -> & _). discriminate.
  - intros result w' E. rewrite execute_outcomes in E. injection E as <- _.
    cbn [SendBulkNotifications.successful].
    eapply Forall_impl; [apply outcomes_built|].
    intros r (pre & u & post & Hsplit & Hu & Hb). split.
    + destruct Hb as (prefs & w1 & _ & -> & _). discriminate.
    + exists pre, u, post. split; [exact Hsplit|]. split; [exact Hu|].
      rewrite execute_outcomes. cbn [snd DTO.userIds DTO.withUserIds].
      rewrite outcomes_withUserIds. exact Hb.
  - intros Hfix t. apply setDatePlus_fixed_offset. exact Hfix.
Qed.

End BulkOverMongo.

(** One blank recipient id among three: it fails validation, the other two
    are delivered. *)
Lemma C4_bulk_isolation_witness :
  let dto := Examples.announcement ["A"; " "; "C"] in
  NoDup (DTO.userIds dto) /\
  DTO.userIds dto = ["A"] ++ " " :: ["C"] /\
  exists result w',
    Sim.sendBulk dto Examples.office = (inr result, w') /\
    NoDup (Reference.recipients result) /\
    Sim.sendBulk dto Examples.office =
      Reference.andThen (Sim.sendBulk (DTO.withUserIds dto ["A"]))
        (Reference.andThen (Sim.sendBulk (DTO.withUserIds dto [" "]))
                           (Sim.sendBulk (DTO.withUserIds dto ["C"])))
        Examples.office.
Proof.
  intros dto.
  assert (Hnd : NoDup (DTO.userIds dto)).
  { apply (bool_decide_unpack _). vm_compute. reflexivity. }
  split; [exact Hnd|]. split; [reflexivity|].
  destruct (@C4_bulk_isolation Sim.World Sim.runtime Sim.utcHost
              Sim.notificationCollection Sim.preferencesRepository
              dto Examples.office)
    as (result & w' & E & _ & Hnodup & Hiso).
  exists result, w'. split; [exact E|]. split; [exact (Hnodup Hnd)|].
  exact (proj1 (Hiso ["A"] " " ["C"] eq_refl)).
Defined.

(** C4 as stated fails: a recipient id given twice is
    processed twice: the two lists together hold two entries for it. *)
Lemma C4_repeated_recipient_counterexample :
  exists result w',
    Sim.sendBulk (Examples.announcement ["A"; "A"]) Examples.office
      = (inr result, w') /\
    Reference.recipients result = ["A"; "A"] /\
    ~ NoDup (Reference.recipients result).
Proof.
  eexists _, _. split; [vm_compute; reflexivity|].
  split; [vm_compute; reflexivity|].
  intros Hnd. inversion Hnd as [|x l Hin _]; subst. apply Hin. left.
Qed.

(** A single and a bulk creation without [expiresAt], on a host in UTC
    whose clock reads 1000 ms and moves on by a millisecond per reading. *)
Lemma C10_created_notifications_witness :
  exists r w' result w'',
    Sim.create (Examples.memo "A") Examples.office = (inr r, w') /\
    Sim.sendBulk (Examples.announcement ["A"; "B"]) Examples.office
      = (inr result, w'') /\
    DTO.r_expiresAt r <> None /\
    Reference.createdFrom (R := Sim.runtime) (host := Sim.utcHost)
      (PR := Sim.preferencesRepository) None "A" Examples.office r /\
    Forall (fun r => DTO.r_expiresAt r <> None)
           (SendBulkNotifications.successful result).
Proof.
  eexists _, _, _, _.
  split; [vm_compute; reflexivity|]. split; [vm_compute; reflexivity|].
  destruct (@C10_created_notifications_expire Sim.World Sim.runtime
              Sim.utcHost Sim.notificationCollection Sim.preferencesRepository
              (Examples.memo "A") (Examples.announcement ["A"; "B"])
              Examples.office) as (Hsingle & Hbulk & _).
  split; [|split].
  - eapply Hsingle. vm_compute. reflexivity.
  - eapply (Hsingle _ _). vm_compute. reflexivity.
  - eapply Forall_impl; [eapply Hbulk; vm_compute; reflexivity|].
    intros r' [Hr' _]. exact Hr'.
Defined.

(** C10 as stated fails.  A single creation without
    [expiresAt] on that host: the expiry is 30 days after the reading of
    1000 ms that [calculateExpiryDate] takes, and the creation instant is
    the next reading, 1001 ms - so the expiry is not 30 days after the
    creation instant, on either reading of "30 days". *)
Lemma C10_expiry_from_earlier_reading_counterexample :
  exists r w',
    DTO.c_expiresAt (Examples.memo "A") = None /\
    Sim.create (Examples.memo "A") Examples.office = (inr r, w') /\
    DTO.r_createdAt r = 1001%Z /\
    DTO.r_expiresAt r = Some (1000 + 30 * JS.msPerDay)%Z /\
    DTO.r_expiresAt r <> Some (DTO.r_createdAt r + 30 * JS.msPerDay)%Z /\
    DTO.r_expiresAt r
      <> Some (JS.setDatePlus (host := Sim.utcHost) (DTO.r_createdAt r) 30).
Proof.
  eexists _, _. split; [reflexivity|]. split; [vm_compute; reflexivity|].
  split; [vm_compute; reflexivity|]. split; [vm_compute; reflexivity|].
  split; vm_compute; discriminate.
Qed.

(** ** C2: a recipient who disabled every channel *)

(** C2 (the code at the failing input).  Bulk delivery to A (default
    preferences), B (no preferences record) and C, whose stored preferences
    disable every channel for the notification's type, with no explicit
    channels in the request: the failure list is empty and C is delivered
    on the channel [ALL].  The derived set being empty, [channels] keeps
    its default [[ALL]] and the test [channels.length === 0] never fires. *)
Theorem C2_all_channels_disabled_still_delivered :
  let dto := Examples.announcement ["A"; "B"; "C"] in
  UserPreferences.getEnabledChannels (Examples.infoOff "C") (DTO.type dto) = [] /\
  DTO.channels dto = None /\
  exists result w',
    Sim.sendBulk dto Examples.office = (inr result, w') /\
    SendBulkNotifications.failed result = [] /\
    map (fun r => (DTO.r_userId r, DTO.r_channels r))
        (SendBulkNotifications.successful result)
    = [("A", [Notification.IN_APP; Notification.PUSH; Notification.WEBSOCKET]);
       ("B", [Notification.ALL]);
       ("C", [Notification.ALL])].
Proof.
  intros dto. split; [reflexivity|]. split; [reflexivity|].
  eexists _, _. split; [vm_compute; reflexivity|]. split; reflexivity.
Qed.

(** ** C9: marking as read twice *)

(** C9.  For every notification the repository returns as already read, a
    mark-as-read call by its owner returns normally and leaves the world
    exactly as the lookup left it - the repository's [markAsRead] is not
    called, the clock is not read - and the entity's own [markAsRead] on
    such a notification returns it unchanged, read flag and [readAt]
    included. *)
Theorem C9_mark_as_read_idempotent
    {W : Type} (R : Runtime W) (NR : INotificationRepository W)
    (notificationId userId : string) (n : Notification.t) (w w1 : W) :
  findById notificationId w = (inr (Some n), w1) ->
  Notification.userId n = userId ->
  Notification.isRead n = true ->
  MarkAsRead.execute notificationId userId w = (inr tt, w1) /\
  (forall w2 : W, Notification.markAsRead n w2 = (inr n, w2)).
Proof.
  intros Hfind Howner Hread. split.
  - unfold MarkAsRead.execute, tryCatch, bind. rewrite Hfind, Howner.
    rewrite String.eqb_refl, Hread. reflexivity.
  - intros w2. unfold Notification.markAsRead. rewrite Hread. reflexivity.
Qed.

Lemma C9_mark_as_read_witness :
  let n := Examples.stored (Some 500%Z) in
  let w := Examples.inbox (Some 500%Z) in
  findById (INotificationRepository := Sim.notificationRepository) "n-1" w
    = (inr (Some n), w) /\
  Notification.userId n = "u1" /\
  Notification.isRead n = true /\
  Sim.markRead "n-1" "u1" w = (inr tt, w).
Proof.
  intros n w. split; [reflexivity|]. split; [reflexivity|]. split; [reflexivity|].
  exact (proj1 (C9_mark_as_read_idempotent Sim.runtime Sim.notificationRepository
                  "n-1" "u1" n w w eq_refl eq_refl eq_refl)).
Defined.

(** Marking an unread notification twice: the first call stores the read
    flag with the instant of the call, the second changes nothing. *)
Example mark_twice :
  let w0 := Examples.inbox None in
  let w1 := snd (Sim.markRead "n-1" "u1" w0) in
  let w2 := snd (Sim.markRead "n-1" "u1" w1) in
  Sim.notifications w1 = [Notification.setRead (Examples.stored None) true (Some 1001%Z)] /\
  w2 = w1.
Proof. vm_compute. split; reflexivity. Qed.

(** ** C8: presence *)

Section PresenceFacts.
Import WebSocketManager Reference.

Lemma truthyString_nonempty (s : string) : s <> "" -> JS.truthyString s = true.
Proof. destruct s; [congruence | reflexivity]. Qed.

Lemma addConnection_userConnections (c u : string) md (m : t) :
  userConnections (addConnection c u md m)
  = <[u := socketsOf u m ∪ {[c]}]> (userConnections m).
Proof.
  unfold addConnection, socketsOf. cbn [userConnections].
  apply map_eq. intros k. destruct (decide (k = u)) as [->|Hne].
  - rewrite lookup_insert_eq, lookup_alter_eq.
    destruct (userConnections m !! u) as [ss|] eqn:E.
    + rewrite bool_decide_eq_true_2 by eauto. rewrite E. reflexivity.
    + rewrite bool_decide_eq_false_2 by (intros [? ?]; discriminate).
      rewrite lookup_insert_eq. reflexivity.
  - rewrite lookup_insert_ne, lookup_alter_ne by congruence.
    destruct (bool_decide _); [reflexivity|].
    rewrite lookup_insert_ne by congruence. reflexivity.
Qed.

Lemma addConnection_socketUsers (c u : string) md (m : t) :
  socketUsers (addConnection c u md m) = <[c := u]> (socketUsers m).
Proof. reflexivity. Qed.

Lemma removeConnection_known (c u : string) (m : t) :
  socketUsers m !! c = Some u -> u <> "" ->
  removeConnection c m =
    match userConnections m !! u with
    | Some sockets =>
        if decide (sockets ∖ {[c]} = ∅) then
          mk (delete u (userConnections m)) (delete c (socketUsers m))
             (delete u (userMetadata m))
        else
          mk (<[u := sockets ∖ {[c]}]> (userConnections m)) (delete c (socketUsers m))
             (userMetadata m)
    | None => mk (userConnections m) (delete c (socketUsers m)) (userMetadata m)
    end.
Proof.
  intros Hc Hu. unfold removeConnection. rewrite Hc.
  rewrite truthyString_nonempty by assumption.
  destruct (userConnections m !! u) as [ss|]; [|reflexivity].
  destruct (decide (ss ∖ {[c]} = ∅)) as [He|Hne].
  - rewrite He, size_empty. reflexivity.
  - destruct (size (ss ∖ {[c]})) eqn:Es; [|reflexivity].
    apply size_empty_inv in Es. apply leibniz_equiv in Es. contradiction.
Qed.

Lemma removeConnection_unknown (c : string) (m : t) :
  socketUsers m !! c = None -> removeConnection c m = m.
Proof. intros Hc. unfold removeConnection. rewrite Hc. reflexivity. Qed.

Lemma isUserOnline_nonempty (u : string) (m : t) :
  isUserOnline u m = true <-> socketsOf u m <> ∅.
Proof.
  unfold isUserOnline, socketsOf.
  destruct (userConnections m !! u) as [ss|].
  - change (default ∅ (Some ss)) with ss. rewrite Nat.ltb_lt. split.
    + intros Hs ->. rewrite size_empty in Hs. lia.
    + intros Hne. destruct (size ss) eqn:Es; [|lia].
      apply size_empty_inv in Es. apply leibniz_equiv in Es. contradiction.
  - change (default ∅ None) with (∅ : gset string).
    split; [discriminate | congruence].
Qed.

Lemma socketsOf_insert (u u' : string) (ss : gset string) (m : t) uc :
  userConnections m = <[u := ss]> uc ->
  socketsOf u' m = if decide (u' = u) then ss else default ∅ (uc !! u').
Proof.
  intros E. unfold socketsOf. rewrite E. destruct (decide (u' = u)) as [->|Hne].
  - rewrite lookup_insert_eq. reflexivity.
  - rewrite lookup_insert_ne by congruence. reflexivity.
Qed.

Lemma consistent_connect (c u : string) md (m : t) acc :
  consistent m acc -> admissible (Connect c u md) m ->
  consistent (addConnection c u md m) ((c, u) :: acc).
Proof.
  intros [I2 I3 I1 I4 I5] [Hu Hadm].
  pose proof (addConnection_userConnections c u md m) as Euc.
  split.
  - intros u' c'. rewrite (socketsOf_insert u u' _ _ _ Euc).
    rewrite addConnection_socketUsers.
    fold (socketsOf u' m).
    destruct (decide (u' = u)) as [->|Hne].
    + rewrite elem_of_union, elem_of_singleton, I2.
      destruct (decide (c' = c)) as [->|Hc].
      * rewrite lookup_insert_eq. naive_solver.
      * rewrite lookup_insert_ne by congruence. naive_solver.
    + rewrite I2. destruct (decide (c' = c)) as [->|Hc].
      * rewrite lookup_insert_eq. split; [intros E; apply Hadm in E; congruence | congruence].
      * rewrite lookup_insert_ne by congruence. reflexivity.
  - intros c' u'. rewrite addConnection_socketUsers.
    destruct (decide (c' = c)) as [->|Hc].
    + rewrite lookup_insert_eq. congruence.
    + rewrite lookup_insert_ne by congruence. apply I3.
  - intros u' ss. rewrite Euc. destruct (decide (u' = u)) as [->|Hne].
    + rewrite lookup_insert_eq. intros [= <-]. set_solver.
    + rewrite lookup_insert_ne by congruence. apply I1.
  - intros u' Hmeta. rewrite Euc. destruct (decide (u' = u)) as [->|Hne].
    + rewrite lookup_insert_eq. eauto.
    + rewrite lookup_insert_ne by congruence. apply I4.
      revert Hmeta. unfold addConnection. cbn [userMetadata].
      destruct md as [v|]; [|tauto]. destruct (JS.truthy v); [|tauto].
      rewrite lookup_insert_ne by congruence. tauto.
  - intros c' u'. rewrite addConnection_socketUsers. cbn [In]. rewrite I5.
    destruct (decide (c' = c)) as [->|Hc].
    + rewrite lookup_insert_eq. split.
      * intros [[= <-]|E]; [reflexivity | apply Hadm in E; congruence].
      * intros [= <-]. left. reflexivity.
    + rewrite lookup_insert_ne by congruence. split; [|tauto].
      intros [[= <- _]|E]; [congruence | exact E].
Qed.

Lemma in_filter_other (c : string) (acc : list (string * string)) c' u' :
  In (c', u') (List.filter (fun p => negb (String.eqb (fst p) c)) acc)
  <-> In (c', u') acc /\ c' <> c.
Proof.
  rewrite List.filter_In. cbn [fst]. rewrite negb_true_iff, String.eqb_neq. tauto.
Qed.

Lemma consistent_disconnect (c : string) (m : t) acc :
  consistent m acc ->
  consistent (removeConnection c m)
             (List.filter (fun p => negb (String.eqb (fst p) c)) acc).
Proof.
  intros [I2 I3 I1 I4 I5].
  destruct (socketUsers m !! c) as [u|] eqn:Ec.
  - pose proof (I3 _ _ Ec) as Hu.
    pose proof (proj2 (I2 u c) Ec) as Hin.
    rewrite (removeConnection_known c u m Ec Hu).
    unfold socketsOf in Hin.
    destruct (userConnections m !! u) as [ss|] eqn:Eu; [|set_solver].
    change (default ∅ (Some ss)) with ss in Hin.
    assert (Hother : forall u' c', u' <> u -> c' ∈ socketsOf u' m -> c' <> c).
    { intros u' c' Hne Hc' ->. apply I2 in Hc'. congruence. }
    destruct (decide (ss ∖ {[c]} = ∅)) as [He|Hne]; split;
      cbn [userConnections socketUsers userMetadata].
    + intros u' c'. unfold socketsOf. cbn [userConnections].
      destruct (decide (u' = u)) as [->|Hu'].
      * rewrite lookup_delete_eq. change (default ∅ None) with (∅ : gset string).
        destruct (decide (c' = c)) as [->|Hc].
        -- rewrite lookup_delete_eq. set_solver.
        -- rewrite lookup_delete_ne by congruence. rewrite <- I2.
           unfold socketsOf. rewrite Eu. change (default ∅ (Some ss)) with ss.
           set_solver.
      * rewrite lookup_delete_ne by congruence. fold (socketsOf u' m).
        destruct (decide (c' = c)) as [->|Hc].
        -- rewrite lookup_delete_eq. split; [|discriminate].
           intros Hc'. exfalso. exact (Hother u' c Hu' Hc' eq_refl).
        -- rewrite lookup_delete_ne by congruence. apply I2.
    + intros c' u'. destruct (decide (c' = c)) as [->|Hc].
      * rewrite lookup_delete_eq. discriminate.
      * rewrite lookup_delete_ne by congruence. apply I3.
    + intros u' ss'. destruct (decide (u' = u)) as [->|Hu'].
      * rewrite lookup_delete_eq. discriminate.
      * rewrite lookup_delete_ne by congruence. apply I1.
    + intros u'. destruct (decide (u' = u)) as [->|Hu'].
      * rewrite lookup_delete_eq. intros [? ?]. discriminate.
      * rewrite !lookup_delete_ne by congruence. apply I4.
    + intros c' u'. rewrite in_filter_other, I5.
      destruct (decide (c' = c)) as [->|Hc].
      * rewrite lookup_delete_eq. split; [tauto | discriminate].
      * rewrite lookup_delete_ne by congruence. tauto.
    + intros u' c'. unfold socketsOf. cbn [userConnections].
      destruct (decide (u' = u)) as [->|Hu'].
      * rewrite lookup_insert_eq. change (default ∅ (Some ?x)) with x.
        destruct (decide (c' = c)) as [->|Hc].
        -- rewrite lookup_delete_eq. set_solver.
        -- rewrite lookup_delete_ne by congruence. rewrite <- I2.
           unfold socketsOf. rewrite Eu. change (default ∅ (Some ss)) with ss.
           set_solver.
      * rewrite lookup_insert_ne by congruence. fold (socketsOf u' m).
        destruct (decide (c' = c)) as [->|Hc].
        -- rewrite lookup_delete_eq. split; [|discriminate].
           intros Hc'. exfalso. exact (Hother u' c Hu' Hc' eq_refl).
        -- rewrite lookup_delete_ne by congruence. apply I2.
    + intros c' u'. destruct (decide (c' = c)) as [->|Hc].
      * rewrite lookup_delete_eq. discriminate.
      * rewrite lookup_delete_ne by congruence. apply I3.
    + intros u' ss'. destruct (decide (u' = u)) as [->|Hu'].
      * rewrite lookup_insert_eq. intros [= <-]. exact Hne.
      * rewrite lookup_insert_ne by congruence. apply I1.
    + intros u' Hm. apply I4 in Hm. destruct (decide (u' = u)) as [->|Hu'].
      * rewrite lookup_insert_eq. eauto.
      * rewrite lookup_insert_ne by congruence. exact Hm.
    + intros c' u'. rewrite in_filter_other, I5.
      destruct (decide (c' = c)) as [->|Hc].
      * rewrite lookup_delete_eq. split; [tauto | discriminate].
      * rewrite lookup_delete_ne by congruence. tauto.
  - rewrite (removeConnection_unknown c m Ec). split; try assumption.
    intros c' u'. rewrite in_filter_other, I5. split; [tauto|].
    intros E. split; [exact E | congruence].
Qed.

Lemma consistent_empty : consistent empty [].
Proof.
  split; unfold socketsOf; cbn [empty userConnections socketUsers userMetadata In].
  - intros u c. rewrite !lookup_empty. set_solver.
  - intros c u. rewrite lookup_empty. discriminate.
  - intros u ss. rewrite lookup_empty. discriminate.
  - intros u. rewrite lookup_empty. intros [? ?]. discriminate.
  - intros c u. rewrite lookup_empty. split; [tauto | discriminate].
Qed.

Lemma consistent_run (events : list Event) :
  forall m acc,
    consistent m acc -> wellFormed events m ->
    consistent (run events m) (Reference.live events acc).
Proof.
  induction events as [|e rest IH]; intros m acc Hc Hwf; [exact Hc|].
  destruct Hwf as [Hadm Hrest]. cbn [run foldl Reference.live].
  destruct e as [c u md|c]; cbn [step] in *.
  - apply IH; [apply consistent_connect; assumption | exact Hrest].
  - apply IH; [apply consistent_disconnect; assumption | exact Hrest].
Qed.

Lemma consistent_online (m : t) acc (u : string) :
  consistent m acc ->
  isUserOnline u m = existsb (fun p => String.eqb (snd p) u) acc.
Proof.
  intros [I2 I3 I1 I4 I5]. apply eq_true_iff_eq.
  rewrite isUserOnline_nonempty, existsb_exists. split.
  - intros Hne. apply set_choose_L in Hne as [c Hc].
    exists (c, u). split; [apply I5, I2, Hc | apply String.eqb_refl].
  - intros [[c u'] [Hin Heq]]. cbn in Heq. apply String.eqb_eq in Heq. subst u'.
    apply I5, I2 in Hin. set_solver.
Qed.

(** Presence on well-formed event sequences. *)
Lemma presence_wellFormed (events : list Event) (u : string) :
  wellFormed events empty ->
  isUserOnline u (run events empty) = Reference.hasLiveConnection u events.
Proof.
  intros Hwf. apply consistent_online.
  apply consistent_run; [apply consistent_empty | exact Hwf].
Qed.

(** Once a user has no registered connection left, the user's entry and
    metadata are gone. *)
Lemma consistent_released (m : t) acc (u : string) :
  consistent m acc ->
  existsb (fun p => String.eqb (snd p) u) acc = false ->
  userConnections m !! u = None /\ userMetadata m !! u = None.
Proof.
  intros Hc Hoff. pose proof (consistent_online m acc u Hc) as Hon.
  rewrite Hoff in Hon. destruct Hc as [I2 I3 I1 I4 I5].
  assert (Hnone : userConnections m !! u = None).
  { destruct (userConnections m !! u) as [ss|] eqn:E; [|reflexivity].
    unfold isUserOnline in Hon. rewrite E in Hon.
    apply Nat.ltb_ge in Hon. pose proof (I1 _ _ E) as Hne.
    assert (size ss = 0%nat) as Hz by lia.
    apply size_empty_inv in Hz. apply leibniz_equiv in Hz. contradiction. }
  split; [exact Hnone|].
  destruct (userMetadata m !! u) as [v|] eqn:E; [|reflexivity].
  destruct (I4 u) as [ss Hss]; [eauto|]. congruence.
Qed.

(** The scenario of two devices: after [connect(c1,u)], [connect(c2,u)],
    [disconnect(c1)] the user is online; after [disconnect(c2)] the user is
    offline and the entry and the metadata are released. *)
Lemma presence_two_devices (c1 c2 u : string) (md1 md2 : option JS.Value) :
  c1 <> c2 -> u <> "" ->
  let m2 := run [Connect c1 u md1; Connect c2 u md2; Disconnect c1] empty in
  let m3 := removeConnection c2 m2 in
  isUserOnline u m2 = true /\
  isUserOnline u m3 = false /\
  userConnections m3 !! u = None /\
  userMetadata m3 !! u = None.
Proof.
  intros Hc Hu m2 m3.
  assert (Hwf : wellFormed [Connect c1 u md1; Connect c2 u md2; Disconnect c1;
                            Disconnect c2] empty).
  { cbn [wellFormed admissible step]. repeat split; try assumption.
    - cbn. intros u'. rewrite lookup_empty. discriminate.
    - intros u'. rewrite addConnection_socketUsers. cbn [socketUsers empty].
      rewrite lookup_insert_ne, lookup_empty by congruence. discriminate. }
  assert (Hwf2 : wellFormed [Connect c1 u md1; Connect c2 u md2; Disconnect c1] empty).
  { cbn [wellFormed] in *. tauto. }
  pose proof (consistent_run _ _ _ consistent_empty Hwf2) as C2.
  pose proof (consistent_run _ _ _ consistent_empty Hwf) as C3.
  assert (L2 : live [Connect c1 u md1; Connect c2 u md2; Disconnect c1] [] = [(c2, u)]).
  { cbn. rewrite String.eqb_refl. cbn.
    destruct (String.eqb_spec c2 c1); [congruence | reflexivity]. }
  assert (L3 : live [Connect c1 u md1; Connect c2 u md2; Disconnect c1; Disconnect c2] [] = []).
  { cbn. rewrite !String.eqb_refl. cbn.
    destruct (String.eqb_spec c2 c1); [congruence|]. cbn.
    rewrite String.eqb_refl. reflexivity. }
  rewrite L2 in C2. rewrite L3 in C3.
  change (run [Connect c1 u md1; Connect c2 u md2; Disconnect c1; Disconnect c2] empty)
    with m3 in C3. fold m2 in C2.
  split; [|split].
  - rewrite (consistent_online _ _ u C2). cbn. rewrite String.eqb_refl. reflexivity.
  - rewrite (consistent_online _ _ u C3). reflexivity.
  - apply (consistent_released _ _ u C3). reflexivity.
Qed.

End PresenceFacts.

(** C8 (the code at the failing input).  A socket that authenticates as u1
    and then again as u2, and disconnects: no connection of u1 is left,
    yet [isUserOnline] still reports u1 online (and keeps its entry and
    metadata).  [addConnection] does not take the socket out of the set of
    the user it was registered for, and [removeConnection] only cleans the
    set of the user last registered. *)
Theorem C8_stale_presence_after_reauthentication :
  let events := [WebSocketManager.Connect "c1" "u1" Examples.browser;
                 WebSocketManager.Connect "c1" "u2" Examples.browser;
                 WebSocketManager.Disconnect "c1"] in
  let m := WebSocketManager.run events WebSocketManager.empty in
  Reference.hasLiveConnection "u1" events = false /\
  WebSocketManager.isUserOnline "u1" m = true /\
  WebSocketManager.getUserMetadata "u1" m = Examples.browser.
Proof. vm_compute. repeat split. Qed.

(* ===================================================================== *)
(** * Part II, continued. Further properties *)
(* ===================================================================== *)

(** ** Validation *)

Section ValidationFacts.
Import Notification Notions.

Lemma trimEnd_blank (s : string) :
  String.eqb (JS.trimEnd s) "" = isBlank s.
Proof.
  induction s as [|c s IH]; [reflexivity|].
  cbn [JS.trimEnd isBlank]. destruct (JS.trimEnd s) as [|d t] eqn:E.
  - cbn in IH. rewrite <- IH. destruct (JS.isWhiteSpace c); reflexivity.
  - cbn in IH. rewrite <- IH, andb_false_r. reflexivity.
Qed.

Lemma trimStart_blank (s : string) : isBlank (JS.trimStart s) = isBlank s.
Proof.
  induction s as [|c s IH]; [reflexivity|].
  cbn [JS.trimStart isBlank]. destruct (JS.isWhiteSpace c) eqn:E;
    [exact IH | cbn [isBlank]; rewrite E; reflexivity].
Qed.

(** [!s || s.trim() === ''] *)
Lemma blank_test (s : string) :
  negb (JS.truthyString s) || String.eqb (JS.trim s) "" = isBlank s.
Proof.
  unfold JS.trim. rewrite trimEnd_blank, trimStart_blank.
  destruct s; reflexivity.
Qed.

End ValidationFacts.

Lemma validateNotification_outcome
    {W : Type} (R : Runtime W) (n : Notification.t) (w : W) :
  (fst (NotificationDomainService.validateNotification n w) = inr tt
   <-> Notions.acceptableAt (fst (newDate w)) n = true) /\
  (forall e,
     fst (NotificationDomainService.validateNotification n w) = inl e ->
     Thrown.statusCode e = None /\
     exists msg, Thrown.message e = Some msg /\ msg <> "").
Proof.
  unfold NotificationDomainService.validateNotification, Notions.acceptableAt.
  rewrite !blank_test.
  destruct (Notions.isBlank (Notification.userId n));
    [cbn; split; [split; discriminate | intros e [= <-]; split; [reflexivity | eexists; split; [reflexivity | discriminate]]]|].
  destruct (Notions.isBlank (Notification.title n));
    [cbn; split; [split; discriminate | intros e [= <-]; split; [reflexivity | eexists; split; [reflexivity | discriminate]]]|].
  destruct (Notions.isBlank (Notification.message n));
    [cbn; split; [split; discriminate | intros e [= <-]; split; [reflexivity | eexists; split; [reflexivity | discriminate]]]|].
  cbn [negb andb].
  destruct (Nat.ltb_spec 100 (String.length (Notification.title n))) as [Ht|Ht].
  { rewrite (proj2 (Nat.leb_gt _ _) Ht). cbn.
    split; [split; discriminate | intros e [= <-]; split; [reflexivity | eexists; split; [reflexivity | discriminate]]]. }
  rewrite (proj2 (Nat.leb_le _ _) Ht).
  destruct (Nat.ltb_spec 500 (String.length (Notification.message n))) as [Hm|Hm].
  { rewrite (proj2 (Nat.leb_gt _ _) Hm). cbn.
    split; [split; discriminate | intros e [= <-]; split; [reflexivity | eexists; split; [reflexivity | discriminate]]]. }
  rewrite (proj2 (Nat.leb_le _ _) Hm).
  destruct (length (Notification.channels n) =? 0)%nat.
  { cbn. split; [split; discriminate | intros e [= <-]; split; [reflexivity | eexists; split; [reflexivity | discriminate]]]. }
  cbn [negb andb]. unfold bind, lift, ret, throw.
  destruct (Notification.expiresAt n) as [expiry|].
  - destruct (newDate w) as [now w1]. cbn [fst].
    destruct (Z.leb_spec expiry now) as [He|He].
    + rewrite (proj2 (Z.ltb_ge _ _) He). cbn.
      split; [split; discriminate | intros e [= <-]; split; [reflexivity | eexists; split; [reflexivity | discriminate]]].
    + rewrite (proj2 (Z.ltb_lt _ _) He). cbn [andb].
      destruct (Notification.actions n) as [acts|]; [|cbn; split; [tauto | discriminate]].
      destruct (Nat.ltb_spec 3 (length acts)) as [Ha|Ha].
      * rewrite (proj2 (Nat.leb_gt _ _) Ha). cbn.
        split; [split; discriminate | intros e [= <-]; split; [reflexivity | eexists; split; [reflexivity | discriminate]]].
      * rewrite (proj2 (Nat.leb_le _ _) Ha). cbn. split; [tauto | discriminate].
  - cbn [andb].
    destruct (Notification.actions n) as [acts|]; [|cbn; split; [tauto | discriminate]].
    destruct (Nat.ltb_spec 3 (length acts)) as [Ha|Ha].
    + rewrite (proj2 (Nat.leb_gt _ _) Ha). cbn.
      split; [split; discriminate | intros e [= <-]; split; [reflexivity | eexists; split; [reflexivity | discriminate]]].
    + rewrite (proj2 (Nat.leb_le _ _) Ha). cbn. split; [tauto | discriminate].
Qed.

(** X1.  [validateNotification] accepts a notification exactly when, at the
    reading of the clock it takes, the user id, title and message are not
    blank, the title has at most 100 and the message at most 500
    characters, there is at least one channel, the expiry (if any) lies
    strictly after the clock reading and there are at most three actions.
    Whatever it throws is a plain error: it has a message and no status
    code. *)
Theorem validateNotification_accepts_iff
    {W : Type} (R : Runtime W) (n : Notification.t) (w : W) :
  (fst (NotificationDomainService.validateNotification n w) = inr tt
   <-> Notions.acceptableAt (fst (newDate w)) n = true) /\
  (forall e,
     fst (NotificationDomainService.validateNotification n w) = inl e ->
     Thrown.statusCode e = None /\
     exists msg, Thrown.message e = Some msg /\ msg <> "").
Proof. apply validateNotification_outcome. Qed.

(** ** Enabled channels *)

(** X2.  [getEnabledChannels] lists, without repetition and never [ALL],
    exactly the channels among in-app, push and real-time whose flag is on
    for the type; it is empty exactly when the flag the preferences give
    for [ALL] ("any channel") is off. *)
Theorem getEnabledChannels_flags
    (p : UserPreferences.t) (ty : Notification.NotificationType) :
  (forall c,
     In c (UserPreferences.getEnabledChannels p ty) <->
     c <> Notification.ALL /\ Reference.enablementFlag p ty c = true) /\
  List.NoDup (UserPreferences.getEnabledChannels p ty) /\
  (UserPreferences.getEnabledChannels p ty = [] <->
   Reference.enablementFlag p ty Notification.ALL = false).
Proof.
  unfold UserPreferences.getEnabledChannels, Reference.enablementFlag.
  destruct (UserPreferences.index (UserPreferences.preferences p) ty)
    as [[] [] []]; cbn.
  all: split; [|split].
  all: try (intros c; destruct c; cbn; intuition (try discriminate; try congruence)).
  all: try (repeat constructor; cbn; intuition discriminate).
  all: split; intros; try discriminate; reflexivity.
Qed.

(** ** Single creation over the MongoDB repository *)

Section CreateFacts.
Import DTO Notification.
Context {W : Type} {R : Runtime W} {host : JS.Host}
        {NC : NotificationCollection W} {PR : IUserPreferencesRepository W}.
#[local] Existing Instance MongoNotificationRepository.repository.

Lemma resolved_channels (explicit : option (list NotificationChannel))
    (prefs : option UserPreferences.t) (ty : NotificationType) :
  match prefs with
  | Some preferences =>
      if (0 <? length (UserPreferences.getEnabledChannels preferences ty))%nat
         && negb (bool_decide (is_Some explicit))
      then UserPreferences.getEnabledChannels preferences ty
      else JS.orObject explicit [ALL]
  | None => JS.orObject explicit [ALL]
  end = Resolution.resolved explicit prefs ty.
Proof.
  unfold Resolution.resolved. destruct explicit as [cs|], prefs as [p|]; cbn;
    try reflexivity.
  - rewrite andb_false_r. reflexivity.
  - destruct (UserPreferences.getEnabledChannels p ty); reflexivity.
Qed.

(** A successful [execute], step by step. *)
Lemma create_inversion (dto : CreateNotificationDTO) (w w' : W)
    (r : NotificationResponseDTO) :
  CreateNotification.execute dto w = (inr r, w') ->
  exists prefs w1 ident w2 expiry w3 created w4 w5,
    findByUserId (c_userId dto) w = (inr prefs, w1) /\
    uuidv4 w1 = (ident, w2) /\
    newDate w3 = (created, w4) /\
    let n := Notification.mk ident (c_userId dto) (c_type dto) (c_title dto)
               (c_message dto)
               (Resolution.resolved (c_channels dto) prefs (c_type dto))
               (JS.orObject (c_priority dto) NORMAL) (c_metadata dto)
               (c_actions dto) (Some expiry) (c_imageUrl dto) (c_iconUrl dto)
               false None created None None None in
    NotificationDomainService.validateNotification n w4 = (inr tt, w5) /\
    notifications_insertOne n w5 = (inr tt, w') /\
    r = toResponseDTO n.
Proof.
  unfold CreateNotification.execute, tryCatch.
  match goal with |- context [?body w] =>
    match body with bind _ _ => destruct (body w) as [[e|r'] w0] eqn:E end end;
    [unfold throw; discriminate|].
  intros E'. injection E' as -> ->. revert E.
  unfold bind at 1.
  destruct (findByUserId (c_userId dto) w) as [[e|prefs] w1]; [discriminate|].
  rewrite (resolved_channels (c_channels dto) prefs (c_type dto)).
  unfold bind at 1, lift at 1. destruct (uuidv4 w1) as [ident w2] eqn:Euuid.
  unfold bind at 1.
  match goal with |- context [?c w2] =>
    match c with match _ with Some _ => _ | None => _ end =>
      destruct (c w2) as [[e|expiry] w3] end end; [discriminate|].
  unfold Notification.new, bind at 1, bind at 1, lift, ret.
  destruct (newDate w3) as [created w4] eqn:Ecreated.
  unfold bind at 1.
  match goal with |- context [NotificationDomainService.validateNotification ?n w4] =>
    destruct (NotificationDomainService.validateNotification n w4)
      as [[e|[]] w5] eqn:Evalid end; [discriminate|].
  unfold bind. cbn [save MongoNotificationRepository.repository].
  unfold MongoNotificationRepository.save, tryCatch, bind, ret, throw.
  match goal with |- context [notifications_insertOne ?n w5] =>
    destruct (notifications_insertOne n w5) as [[e|[]] w6] eqn:Einsert end;
    [discriminate|].
  intros E. injection E as <- <-.
  exists prefs, w1, ident, w2, expiry, w3, created, w4, w5.
  repeat split; try assumption; reflexivity.
Qed.

(** The errors of the body of [execute] carry no status code when the
    preferences repository throws plain errors. *)
Lemma create_failure (dto : CreateNotificationDTO) (w w' : W) (e : Thrown.t) :
  (forall u w0 e0 w1, findByUserId u w0 = (inl e0, w1) -> Thrown.statusCode e0 = None) ->
  CreateNotification.execute dto w = (inl e, w') ->
  Thrown.statusCode e = Some 500%Z /\
  exists msg, Thrown.message e = Some msg /\ msg <> "".
Proof.
  intros Hplain.
  unfold CreateNotification.execute, tryCatch.
  match goal with |- context [?body w] =>
    match body with bind _ _ => destruct (body w) as [[e0|r'] w0] eqn:E end end;
    [|discriminate].
  unfold throw. intros E'. injection E' as <- _.
  assert (Hcode : Thrown.statusCode e0 = None).
  { revert E. unfold bind at 1.
    destruct (findByUserId (c_userId dto) w) as [[e1|prefs] w1] eqn:Ef.
    { intros [= <- _]. eapply Hplain. exact Ef. }
    unfold bind at 1, lift at 1. destruct (uuidv4 w1) as [ident w2].
    unfold bind at 1.
    assert (Hexp : forall w2, exists x w3,
      (match c_expiresAt dto with
       | Some d => ret d
       | None => NotificationDomainService.calculateExpiryDate 30
       end) w2 = (inr x, w3)).
    { intros w2'. destruct (c_expiresAt dto); [eexists _, _; reflexivity|].
      unfold NotificationDomainService.calculateExpiryDate, bind, lift, ret.
      destruct (newDate w2'). eexists _, _; reflexivity. }
    destruct (Hexp w2) as (expiry & w3 & ->).
    unfold Notification.new, bind at 1, bind at 1, lift, ret.
    destruct (newDate w3) as [created w4].
    unfold bind at 1.
    match goal with |- context [NotificationDomainService.validateNotification ?n w4] =>
      pose proof (proj2 (validateNotification_outcome R n w4)) as Hv;
      destruct (NotificationDomainService.validateNotification n w4)
        as [[e1|[]] w5] end.
    { intros [= <- _]. apply (Hv e1 eq_refl). }
    unfold bind. cbn [save MongoNotificationRepository.repository].
    unfold MongoNotificationRepository.save, tryCatch, bind, ret, throw.
    match goal with |- context [notifications_insertOne ?n w5] =>
      destruct (notifications_insertOne n w5) as [[e1|[]] w6] end.
    - intros [= <- _]. reflexivity.
    - discriminate. }
  cbn [Thrown.statusCode Thrown.message Thrown.AppError]. rewrite Hcode.
  split; [reflexivity|].
  eexists. split; [reflexivity|].
  unfold JS.orString. destruct (Thrown.message e0) as [m|]; [|discriminate].
  destruct m; cbn; discriminate.
Qed.

End CreateFacts.

Section CreateOverMongo.
Import DTO.
Context {W : Type} {R : Runtime W} {host : JS.Host}
        {NC : NotificationCollection W} {PR : IUserPreferencesRepository W}.
#[local] Existing Instance MongoNotificationRepository.repository.

(** X3.  What a successful single creation returns: the channels are the
    caller's when the DTO names any (the preferences are then not
    consulted), otherwise the channels the recipient's stored preferences
    enable for the type, and [[ALL]] when there is no record or the record
    enables none; the other fields echo the DTO, the priority is NORMAL when
    omitted, and the notification is unread, undelivered, and had passed
    validation at the clock reading that followed its creation. *)
Theorem create_response
    (dto : CreateNotificationDTO) (w w' : W) (r : NotificationResponseDTO) :
  CreateNotification.execute dto w = (inr r, w') ->
  exists prefs w1,
    findByUserId (c_userId dto) w = (inr prefs, w1) /\
    r_channels r = Resolution.resolved (c_channels dto) prefs (c_type dto) /\
    r_channels r <> [] /\
    r_userId r = c_userId dto /\ r_type r = c_type dto /\
    r_title r = c_title dto /\ r_message r = c_message dto /\
    r_metadata r = c_metadata dto /\ r_actions r = c_actions dto /\
    r_imageUrl r = c_imageUrl dto /\ r_iconUrl r = c_iconUrl dto /\
    r_priority r = default Notification.NORMAL (c_priority dto) /\
    r_isRead r = false /\ r_readAt r = None /\ r_deliveredAt r = None.
Proof.
  intros E. apply create_inversion in E
    as (prefs & w1 & ident & w2 & expiry & w3 & created & w4 & w5
        & Ef & _ & _ & Hv & _ & ->).
  exists prefs, w1. split; [exact Ef|]. split; [reflexivity|]. split.
  - cbn. intros Hnil.
    match type of Hv with
    | NotificationDomainService.validateNotification ?n _ = _ =>
        pose proof (proj1 (proj1 (validateNotification_outcome R n w4))) as Hacc
    end.
    rewrite Hv in Hacc. specialize (Hacc eq_refl).
    unfold Notions.acceptableAt in Hacc. cbn [Notification.channels] in Hacc.
    rewrite Hnil in Hacc.
    apply andb_prop in Hacc as [Hacc _]. apply andb_prop in Hacc as [Hacc _].
    apply andb_prop in Hacc as [_ Hacc]. discriminate.
  - cbn. destruct (c_priority dto); repeat split.
Qed.

End CreateOverMongo.

Lemma create_response_witness :
  exists r w',
    Sim.create (Examples.memo "A") Examples.office = (inr r, w') /\
    DTO.r_channels r
      = [Notification.IN_APP; Notification.PUSH; Notification.WEBSOCKET] /\
    DTO.r_priority r = Notification.NORMAL.
Proof.
  destruct (Sim.create (Examples.memo "A") Examples.office) as [[e|r] w'] eqn:E;
    [vm_compute in E; discriminate|].
  exists r, w'. split; [reflexivity|].
  destruct (@create_response Sim.World Sim.runtime Sim.utcHost
              Sim.notificationCollection Sim.preferencesRepository
              (Examples.memo "A") Examples.office w' r E)
    as (prefs & w1 & Ef & Hc & _ & _ & _ & _ & _ & _ & _ & _ & _ & Hp & _).
  vm_compute in Ef. injection Ef as <- _. rewrite Hc. split; [reflexivity | exact Hp].
Defined.

Section CreateFailures.
Import DTO.
Context {W : Type} {R : Runtime W} {host : JS.Host}
        {NC : NotificationCollection W} {PC : UserPreferencesCollection W}.
#[local] Existing Instance MongoNotificationRepository.repository.
#[local] Existing Instance MongoUserPreferencesRepository.repository.

(** X4.  Over the MongoDB repositories every failure of a single creation -
    a failed preference lookup, a rejected notification, a failed insert -
    reaches the caller as an [AppError] with status code 500 and a
    non-empty message; no failure of this use case carries another
    status. *)
Theorem create_failures_carry_500
    (dto : CreateNotificationDTO) (w w' : W) (e : Thrown.t) :
  CreateNotification.execute dto w = (inl e, w') ->
  Thrown.statusCode e = Some 500%Z /\
  exists msg, Thrown.message e = Some msg /\ msg <> "".
Proof.
  apply create_failure.
  intros u w0 e0 w1. cbn [findByUserId MongoUserPreferencesRepository.repository].
  unfold MongoUserPreferencesRepository.findByUserId, tryCatch, bind, ret, throw.
  destruct (preferences_findOne u w0) as [[e1|doc] w2]; [|discriminate].
  intros [= <- _]. reflexivity.
Qed.

End CreateFailures.

(** A blank title is rejected with status 500. *)
Lemma create_failures_witness :
  exists e w',
    Sim.create (Samples.note "A" "  " None) Examples.office = (inl e, w') /\
    Thrown.statusCode e = Some 500%Z.
Proof.
  destruct (Sim.create (Samples.note "A" "  " None) Examples.office)
    as [[e|r] w'] eqn:E; [|vm_compute in E; discriminate].
  exists e, w'. split; [reflexivity|].
  exact (proj1 (@create_failures_carry_500 Sim.World Sim.runtime Sim.utcHost
                  Sim.notificationCollection Sim.preferencesCollection
                  (Samples.note "A" "  " None) Examples.office w' e E)).
Defined.

(** ** Ordering by priority *)

Section SortFacts.
Import Notification DomainServiceOps Notions.

Lemma weight_range (p : NotificationPriority) :
  (1 <= NotificationDomainService.getPriorityWeight p <= 4)%Z.
Proof. destruct p; cbn; lia. Qed.

Lemma compare_before (a b : Notification.t) :
  (compare a b <= 0)%Z <-> before a b.
Proof.
  unfold compare, before.
  destruct (Z.eqb_spec
              (NotificationDomainService.getPriorityWeight (priority b)
               - NotificationDomainService.getPriorityWeight (priority a)) 0);
    cbn [negb]; lia.
Qed.

Lemma before_total (a b : Notification.t) : before a b \/ before b a.
Proof. unfold before. lia. Qed.

Lemma before_trans (a b c : Notification.t) :
  before a b -> before b c -> before a c.
Proof. unfold before. lia. Qed.

Lemma insert_permutation (x : Notification.t) (l : list Notification.t) :
  Permutation (insert x l) (x :: l).
Proof.
  induction l as [|y l IH]; [reflexivity|]. cbn [insert].
  destruct (compare x y <=? 0)%Z; [reflexivity|].
  rewrite IH. apply perm_swap.
Qed.

Lemma insert_sorted (x : Notification.t) (l : list Notification.t) :
  StronglySorted before l -> StronglySorted before (insert x l).
Proof.
  induction 1 as [|y l Hs IH Hall]; cbn [insert].
  - repeat constructor.
  - destruct (Z.leb_spec (compare x y) 0) as [Hle|Hgt].
    + apply compare_before in Hle. constructor; [constructor; assumption|].
      constructor; [exact Hle|].
      eapply Forall_impl; [exact Hall|]. intros z Hz.
      eapply before_trans; eassumption.
    + assert (Hyx : before y x).
      { destruct (before_total x y) as [Hxy|Hyx]; [|exact Hyx].
        apply compare_before in Hxy. lia. }
      constructor; [exact IH|].
      rewrite (insert_permutation x l). constructor; assumption.
Qed.

Lemma insert_stable (k : NotificationPriority * JS.Date) (x : Notification.t)
    (l : list Notification.t) :
  List.filter (tied k) (insert x l) = List.filter (tied k) (x :: l).
Proof.
  induction l as [|y l IH]; [reflexivity|]. cbn [insert].
  destruct (Z.leb_spec (compare x y) 0) as [Hle|Hgt]; [reflexivity|].
  cbn [List.filter] in *. rewrite IH.
  destruct (tied k x) eqn:Ex; [|reflexivity].
  destruct (tied k y) eqn:Ey; [|reflexivity].
  exfalso. unfold tied in Ex, Ey.
  apply andb_prop in Ex as [Ex1 Ex2]. apply andb_prop in Ey as [Ey1 Ey2].
  apply Z.eqb_eq in Ex1, Ex2, Ey1, Ey2.
  assert (before x y) as Hb by (unfold before; lia).
  apply compare_before in Hb. lia.
Qed.

End SortFacts.

(** X5.  [sortByPriority] rearranges the notifications - none lost, none
    added - so that every notification comes before all those of lower
    priority weight and, within one weight, before all those created
    earlier; notifications of the same weight and creation instant keep the
    order they had in the input. *)
Theorem sortByPriority_orders (ns : list Notification.t) :
  Permutation (DomainServiceOps.sortByPriority ns) ns /\
  StronglySorted Notions.before (DomainServiceOps.sortByPriority ns) /\
  (forall k,
     List.filter (Notions.tied k) (DomainServiceOps.sortByPriority ns)
     = List.filter (Notions.tied k) ns).
Proof.
  induction ns as [|x ns (IHp & IHs & IHt)].
  - repeat split; constructor.
  - cbn [DomainServiceOps.sortByPriority]. split; [|split].
    + rewrite insert_permutation, IHp. reflexivity.
    + apply insert_sorted. exact IHs.
    + intros k. rewrite insert_stable. cbn [List.filter]. rewrite IHt. reflexivity.
Qed.

(** ** Grouping and summaries *)

Section GroupFacts.
Import Notification DomainServiceOps Counting.

Lemma get_append (u k : string) (n : Notification.t)
    (g : list (string * list Notification.t)) :
  get u (append k n g) =
    if String.eqb k u then Some (default [] (get u g) ++ [n]) else get u g.
Proof.
  unfold get. induction g as [|[key ns] g IH]; cbn [append List.find fst].
  - destruct (String.eqb_spec k u); reflexivity.
  - destruct (String.eqb_spec key k) as [->|Hne]; cbn [List.find fst].
    + destruct (String.eqb_spec k u); reflexivity.
    + destruct (String.eqb_spec key u) as [->|Hu].
      * destruct (String.eqb_spec k u); [congruence | reflexivity].
      * exact IH.
Qed.

Lemma keys_append (k : string) (n : Notification.t)
    (g : list (string * list Notification.t)) :
  map fst (append k n g) =
    if existsb (String.eqb k) (map fst g) then map fst g else map fst g ++ [k].
Proof.
  induction g as [|[key ns] g IH]; [reflexivity|]. cbn [append map fst existsb].
  rewrite (String.eqb_sym k key).
  destruct (String.eqb_spec key k) as [->|Hne]; [reflexivity|].
  cbn [map fst orb]. rewrite IH.
  destruct (existsb (String.eqb k) (map fst g)); reflexivity.
Qed.

Lemma members_append (k : string) (n : Notification.t)
    (g : list (string * list Notification.t)) :
  Permutation (concat (map snd (append k n g))) (n :: concat (map snd g)).
Proof.
  induction g as [|[key ns] g IH]; [reflexivity|]. cbn [append].
  destruct (String.eqb key k); cbn [map snd concat].
  - rewrite <- app_assoc. cbn.
    rewrite <- Permutation_middle. reflexivity.
  - rewrite IH. rewrite <- Permutation_middle. reflexivity.
Qed.

Lemma grouping_append (seen : list Notification.t) (n : Notification.t)
    (g : list (string * list Notification.t)) :
  grouping seen g -> grouping (seen ++ [n]) (append (userId n) n g).
Proof.
  intros (Hget & Hnd & Hperm). split; [|split].
  - intros u. rewrite get_append, Hget. unfold ofUser.
    rewrite List.filter_app. cbn [List.filter].
    destruct (String.eqb_spec (userId n) u) as [Heq|Hne].
    + destruct (List.filter _ seen); reflexivity.
    + rewrite app_nil_r. reflexivity.
  - rewrite keys_append.
    destruct (existsb (String.eqb (userId n)) (map fst g)) eqn:Ex; [exact Hnd|].
    apply List.NoDup_app; [exact Hnd | repeat constructor; intros [] |].
    intros x Hx [<-|[]].
    assert (existsb (String.eqb (userId n)) (map fst g) = true); [|congruence].
    apply existsb_exists. exists (userId n). split; [exact Hx | apply String.eqb_refl].
  - rewrite members_append, Hperm. apply Permutation_cons_append.
Qed.

Lemma grouping_fold (ns seen : list Notification.t)
    (g : list (string * list Notification.t)) :
  grouping seen g ->
  grouping (seen ++ ns)
    (fold_left (fun grouped n => append (userId n) n grouped) ns g).
Proof.
  revert seen g. induction ns as [|n ns IH]; intros seen g Hg.
  - rewrite app_nil_r. exact Hg.
  - cbn [fold_left]. replace (seen ++ n :: ns) with ((seen ++ [n]) ++ ns)
      by (rewrite <- app_assoc; reflexivity).
    apply IH, grouping_append, Hg.
Qed.

End GroupFacts.

(** X6.  [groupByUser] puts under each user id exactly that user's
    notifications, in their input order; a user without notifications has
    no entry, no user has two entries, and all groups together hold the
    input, nothing more. *)
Theorem groupByUser_groups (ns : list Notification.t) :
  (forall u,
     DomainServiceOps.get u (DomainServiceOps.groupByUser ns) =
       match Counting.ofUser u ns with [] => None | g => Some g end) /\
  List.NoDup (map fst (DomainServiceOps.groupByUser ns)) /\
  Permutation (concat (map snd (DomainServiceOps.groupByUser ns))) ns.
Proof.
  apply (grouping_fold ns [] []). repeat split; [constructor | reflexivity].
Qed.

Section SummaryFacts.
Import Notification DomainServiceOps Counting.

Lemma type_eqb_spec (a b : NotificationType) : reflect (a = b) (type_eqb a b).
Proof. destruct a, b; constructor; congruence. Qed.

Lemma count_increment (ty k : NotificationType) (acc : list (NotificationType * Z)) :
  count ty (increment k acc) =
    if type_eqb k ty then Some (default 0%Z (count ty acc) + 1)%Z
    else count ty acc.
Proof.
  unfold count. induction acc as [|[key c] acc IH]; cbn [increment List.find fst].
  - destruct (type_eqb_spec k ty); reflexivity.
  - destruct (type_eqb_spec key k) as [->|Hne]; cbn [List.find fst].
    + destruct (type_eqb_spec k ty); reflexivity.
    + destruct (type_eqb_spec key ty) as [->|Hty].
      * destruct (type_eqb_spec k ty); [congruence | reflexivity].
      * exact IH.
Qed.

Lemma total_increment (k : NotificationType) (acc : list (NotificationType * Z)) :
  total (increment k acc) = (total acc + 1)%Z.
Proof.
  unfold total. induction acc as [|[key c] acc IH]; [reflexivity|].
  cbn [increment]. destruct (type_eqb key k); cbn [map snd fold_right] in *; lia.
Qed.

Lemma counting_increment (seen : list Notification.t) (n : Notification.t)
    (acc : list (NotificationType * Z)) :
  counting seen acc -> counting (seen ++ [n]) (increment (type n) acc).
Proof.
  intros [Hcount Htotal]. split.
  - intros ty. rewrite count_increment, Hcount. unfold ofType.
    rewrite List.filter_app, length_app. cbn [List.filter].
    set (c := length (List.filter (fun n0 => type_eqb (type n0) ty) seen)).
    destruct (type_eqb_spec (type n) ty) as [Heq|Hne]; cbn [length].
    + destruct (Z.eqb_spec (Z.of_nat c) 0), (Z.eqb_spec (Z.of_nat (c + 1)) 0);
        try lia; cbn; f_equal; lia.
    + rewrite Nat.add_0_r. reflexivity.
  - rewrite total_increment, Htotal, length_app. cbn. lia.
Qed.

Lemma counting_fold (ns seen : list Notification.t)
    (acc : list (NotificationType * Z)) :
  counting seen acc ->
  counting (seen ++ ns)
    (fold_left (fun acc notif => increment (type notif) acc) ns acc).
Proof.
  revert seen acc. induction ns as [|n ns IH]; intros seen acc Hc.
  - rewrite app_nil_r. exact Hc.
  - cbn [fold_left]. replace (seen ++ n :: ns) with ((seen ++ [n]) ++ ns)
      by (rewrite <- app_assoc; reflexivity).
    apply IH, counting_increment, Hc.
Qed.

End SummaryFacts.

(** X7.  The counts [createBatchSummary] gathers before printing them are
    exact: for every type the accumulator holds the number of notifications
    of that type (and no entry for a type that does not occur), and the
    counts add up to the number of notifications, which is the total the
    summary announces. *)
Theorem createBatchSummary_counts (ns : list Notification.t) :
  (forall ty,
     Counting.count ty (DomainServiceOps.typeCount ns) =
       if (Counting.ofType ty ns =? 0)%Z then None
       else Some (Counting.ofType ty ns)) /\
  Counting.total (DomainServiceOps.typeCount ns) = Z.of_nat (length ns).
Proof.
  destruct (counting_fold ns [] []) as [Hc Ht].
  { split; [intros ty; reflexivity | reflexivity]. }
  split; [exact Hc | exact Ht].
Qed.

(** Two informational and one warning notification. *)
Example summary_of_three :
  DomainServiceOps.createBatchSummary
    [Samples.letter "n-1" "u1" Notification.INFO;
     Samples.letter "n-2" "u1" Notification.WARNING;
     Samples.letter "n-3" "u1" Notification.INFO]
  = "You have 3 new notifications: 2 info, 1 warning".
Proof. vm_compute. reflexivity. Qed.
(* ===================================================================== *)
(** * Part II, continued. Routing, subscriptions and authorisation *)
(* ===================================================================== *)

(** ** Routing predicates of a notification *)

Section RoutingFacts.
Import Notification NotificationOps.

Lemma includes_In (cs : list NotificationChannel) (c : NotificationChannel) :
  includes cs c = true <-> In c cs.
Proof.
  unfold includes. rewrite existsb_exists. split.
  - intros [x [Hin Hx]]. destruct c, x; try discriminate; exact Hin.
  - intros Hin. exists c. split; [exact Hin | destruct c; reflexivity].
Qed.

End RoutingFacts.

(** X8.  Every notification with at least one channel is routed somewhere:
    it is pushed or emitted over the socket.  Whatever is stored for the
    in-app list is also emitted over the socket; [ALL] turns on the three
    routes; and a notification is pushed without being emitted exactly
    when [PUSH] is its only kind of channel. *)
Theorem routing_covers_channels (n : Notification.t) :
  (Notification.channels n <> [] ->
   NotificationOps.shouldSendPush n || NotificationOps.shouldSendWebSocket n
   = true) /\
  (NotificationOps.shouldStoreInDatabase n = true ->
   NotificationOps.shouldSendWebSocket n = true) /\
  (In Notification.ALL (Notification.channels n) ->
   NotificationOps.shouldSendPush n = true /\
   NotificationOps.shouldSendWebSocket n = true /\
   NotificationOps.shouldStoreInDatabase n = true) /\
  (NotificationOps.shouldSendPush n = true /\
   NotificationOps.shouldSendWebSocket n = false <->
   Notification.channels n <> [] /\
   forall c, In c (Notification.channels n) -> c = Notification.PUSH).
Proof.
  unfold NotificationOps.shouldSendPush, NotificationOps.shouldSendWebSocket,
    NotificationOps.shouldStoreInDatabase.
  pose proof (includes_In (Notification.channels n)) as Hin.
  split; [|split; [|split]].
  - intros Hne. destruct (Notification.channels n) as [|c cs] eqn:Ec;
      [congruence|].
    destruct c; cbn; rewrite ?orb_true_r; reflexivity.
  - intros Hs. apply orb_true_iff in Hs as [Hs|Hs]; rewrite Hs;
      rewrite ?orb_true_r; reflexivity.
  - intros Hall. apply Hin in Hall. rewrite Hall, !orb_true_r. auto.
  - split.
    + intros [Hp Hw]. apply orb_false_iff in Hw as [Hw Ha].
      apply orb_false_iff in Hw as [Hw Hi]. split.
      * intros Hnil. rewrite Hnil in Hp. cbn in Hp. discriminate.
      * intros c Hc. apply Hin in Hc. destruct c; congruence.
    + intros [Hne Hall].
      assert (Hno : forall c, c <> Notification.PUSH ->
                NotificationOps.includes (Notification.channels n) c = false).
      { intros c Hc. destruct (NotificationOps.includes _ c) eqn:E;
          [|reflexivity]. apply Hin, Hall in E. contradiction. }
      rewrite (Hno Notification.ALL), (Hno Notification.IN_APP),
        (Hno Notification.WEBSOCKET) by discriminate.
      split; [|reflexivity].
      rewrite orb_false_r. apply Hin.
      destruct (Notification.channels n) as [|c cs]; [congruence|].
      left. apply Hall. left. reflexivity.
Qed.
(** ** Subscriptions: registration and removal over the MongoDB repository *)

Section SubscriptionFacts.
Import PushSubscription ManageSubscription SubscriptionRepository SubscriptionNotions.
Context {W : Type} {R : Runtime W} {SC : Collection W}.
#[local] Existing Instance MongoPushSubscriptionRepository.repository.
#[local] Existing Instance MongoPushSubscriptionRepository.rest.

Lemma validateSubscription_outcome (s : PushSubscription.t) (w : W) :
  validateSubscription s w =
    if match deviceType s with
       | WEB =>
           JS.truthyString (endpoint s)
           && match keys s with
              | Some k => JS.truthyString (p256dh k) && JS.truthyString (auth k)
              | None => false
              end
       | ANDROID | IOS => given (fcmToken s)
       end
    then (inr tt, w)
    else (inl (Thrown.AppError
                 (match deviceType s with
                  | WEB => if JS.truthyString (endpoint s)
                           then "VAPID keys are required for Web Push"
                           else "Endpoint is required for Web Push"
                  | _ => "FCM token is required for mobile devices"
                  end) 400), w).
Proof.
  unfold validateSubscription, bind, throw, ret.
  destruct (deviceType s); cbn.
  - destruct (JS.truthyString (endpoint s)); cbn; [|reflexivity].
    destruct (keys s) as [k|]; cbn; [|reflexivity].
    destruct (JS.truthyString (p256dh k)), (JS.truthyString (auth k)); reflexivity.
  - destruct (given (fcmToken s)); reflexivity.
  - destruct (given (fcmToken s)); reflexivity.
Qed.

(** The repository's wrappers: a query answers what the collection answers,
    and fails with a plain [Error]. *)
Lemma guarded_query {A} (c : M W A) (msg : string) (w : W) :
  tryCatch (doc <- c ;; ret doc) (fun _ => throw (Thrown.Error msg)) w =
    match c w with
    | (inr a, w') => (inr a, w')
    | (inl _, w') => (inl (Thrown.Error msg), w')
    end.
Proof.
  unfold tryCatch, bind, ret, throw. destruct (c w) as [[e|a] w']; reflexivity.
Qed.

Lemma guarded_command {A B} (c : M W B) (a : A) (msg : string) (w : W) :
  tryCatch (c ;;; ret a) (fun _ => throw (Thrown.Error msg)) w =
    match c w with
    | (inr _, w') => (inr a, w')
    | (inl _, w') => (inl (Thrown.Error msg), w')
    end.
Proof.
  unfold tryCatch, bind, ret, throw. destruct (c w) as [[e|b] w']; reflexivity.
Qed.

Lemma lookup_outcome (dto : SubscriptionDTO) (w : W) :
  (if isWEB (s_deviceType dto) && given (s_endpoint dto) then
     findByEndpoint (JS.orString (s_endpoint dto) "")
   else if given (s_fcmToken dto) then
     findByFCMToken (JS.orString (s_fcmToken dto) "")
   else ret None) w =
    match lookupFilter dto with
    | Some f =>
        match findOne f w with
        | (inr a, w') => (inr a, w')
        | (inl _, w') =>
            (inl (Thrown.Error
                    (match f with
                     | ByEndpoint _ => "Failed to find push subscription by endpoint"
                     | _ => "Failed to find push subscription by FCM token"
                     end)), w')
        end
    | None => (inr None, w)
    end.
Proof.
  unfold lookupFilter.
  destruct (isWEB (s_deviceType dto) && given (s_endpoint dto)).
  - apply guarded_query.
  - destruct (given (s_fcmToken dto)); [apply guarded_query | reflexivity].
Qed.

(** The subscription [subscribe] builds for a request. *)
Lemma fresh_shape (dto : SubscriptionDTO) (u : string) (c l : JS.Date) :
  let s := mk u (s_userId dto) (s_deviceType dto)
              (JS.orString (s_endpoint dto) "") (s_keys dto) (s_fcmToken dto)
              (s_deviceInfo dto) true c l 0 None None in
  match deviceType s with
  | WEB =>
      JS.truthyString (endpoint s)
      && match keys s with
         | Some k => JS.truthyString (p256dh k) && JS.truthyString (auth k)
         | None => false
         end
  | ANDROID | IOS => given (fcmToken s)
  end = wellShaped dto.
Proof.
  unfold wellShaped. cbn. destruct (s_deviceType dto); try reflexivity.
  f_equal. unfold given, JS.orString.
  destruct (s_endpoint dto) as [e|]; [|reflexivity].
  destruct (JS.truthyString e) eqn:E; [exact E | reflexivity].
Qed.

Lemma wellShaped_routable (dto : SubscriptionDTO) (u : string) (c l : JS.Date) :
  wellShaped dto = true ->
  let s := mk u (s_userId dto) (s_deviceType dto)
              (JS.orString (s_endpoint dto) "") (s_keys dto) (s_fcmToken dto)
              (s_deviceInfo dto) true c l 0 None None in
  isWebPush s = isWEB (s_deviceType dto) /\
  isFCM s = negb (isWEB (s_deviceType dto)) /\
  PushSubscriptionOps.getIdentifier s = address dto /\
  address dto <> "".
Proof.
  unfold wellShaped, address, PushSubscriptionOps.getIdentifier, isWebPush,
    isFCM, given. cbn.
  destruct (s_deviceType dto); cbn.
  - intros H. apply andb_prop in H as [He Hk].
    destruct (s_keys dto) as [k|]; [|discriminate].
    repeat split. destruct (s_endpoint dto) as [e|]; [|discriminate].
    cbn. rewrite He. intros ->. discriminate.
  - destruct (s_fcmToken dto) as [t|]; [|discriminate]. intros H.
    cbn. rewrite H. repeat split. intros ->. discriminate.
  - destruct (s_fcmToken dto) as [t|]; [|discriminate]. intros H.
    cbn. rewrite H. repeat split. intros ->. discriminate.
Qed.

(** The path of [subscribe] for a request that matches nothing stored. *)
Lemma register_outcome (dto : SubscriptionDTO) (w1 : W) :
  let s0 := mk (fst (uuidv4 w1)) (s_userId dto) (s_deviceType dto)
              (JS.orString (s_endpoint dto) "") (s_keys dto) (s_fcmToken dto)
              (s_deviceInfo dto) true
              (fst (newDate (snd (uuidv4 w1))))
              (fst (newDate (snd (newDate (snd (uuidv4 w1))))))
              0 None None in
  let w4 := snd (newDate (snd (newDate (snd (uuidv4 w1))))) in
  (id <- lift uuidv4 ;;
   subscription <-
     PushSubscriptionOps.new id (s_userId dto) (s_deviceType dto)
       (JS.orString (s_endpoint dto) "") (s_keys dto) (s_fcmToken dto)
       (s_deviceInfo dto) ;;
   validateSubscription subscription ;;; save subscription) w1 =
  if wellShaped dto then
    match insertOne s0 w4 with
    | (inr _, w5) => (inr s0, w5)
    | (inl _, w5) => (inl (Thrown.Error "Failed to save push subscription"), w5)
    end
  else
    (inl (Thrown.AppError
            (match s_deviceType dto with
             | WEB => if given (s_endpoint dto)
                      then "VAPID keys are required for Web Push"
                      else "Endpoint is required for Web Push"
             | _ => "FCM token is required for mobile devices"
             end) 400), w4).
Proof.
  intros s0 w4. subst s0 w4.
  unfold PushSubscriptionOps.new, bind, lift, ret.
  destruct (uuidv4 w1) as [u w2]. cbn [fst snd].
  destruct (newDate w2) as [c w3]. cbn [fst snd].
  destruct (newDate w3) as [l w4]. cbn [fst snd].
  rewrite validateSubscription_outcome.
  rewrite (fresh_shape dto u c l).
  destruct (wellShaped dto).
  - cbn [save MongoPushSubscriptionRepository.rest].
    unfold MongoPushSubscriptionRepository.save. apply guarded_command.
  - cbn. destruct (s_deviceType dto); try reflexivity.
    unfold given, JS.orString. destruct (s_endpoint dto) as [e|]; [|reflexivity].
    destruct (JS.truthyString e) eqn:E; [rewrite E|]; reflexivity.
Qed.

Lemma subscribe_inversion (dto : SubscriptionDTO) (w : W)
    (s : PushSubscription.t) (w' : W) :
  subscribe dto w = (inr s, w') ->
  (exists f existing w1,
     lookupFilter dto = Some f /\
     findOne f w = (inr (Some existing), w1) /\
     s = revived existing (fst (newDate w1)))
  \/ (wellShaped dto = true /\
      exists u c l,
        s = mk u (s_userId dto) (s_deviceType dto)
               (JS.orString (s_endpoint dto) "") (s_keys dto) (s_fcmToken dto)
               (s_deviceInfo dto) true c l 0 None None).
Proof.
  unfold subscribe, tryCatch.
  match goal with |- (match ?b w with _ => _ end) = _ -> _ =>
    destruct (b w) as [[e|s0] w0] eqn:Eb end;
    [unfold throw; discriminate|].
  intros H. injection H as -> ->.
  unfold bind at 1 in Eb. rewrite lookup_outcome in Eb.
  destruct (lookupFilter dto) as [f|] eqn:Ef.
  - destruct (findOne f w) as [[e1|[existing|]] w1] eqn:E1; [discriminate| |].
    + left. exists f, existing, w1. split; [reflexivity|]. split; [exact E1|].
      unfold updateLastUsed, bind, lift, ret in Eb.
      destruct (newDate w1) as [now w2] eqn:En.
      cbn [update MongoPushSubscriptionRepository.repository] in Eb.
      unfold MongoPushSubscriptionRepository.update in Eb.
      rewrite guarded_command in Eb.
      destruct (replaceOne _ _ w2) as [[e2|[]] w3]; [discriminate|].
      injection Eb as <- <-. reflexivity.
    + right. rewrite register_outcome in Eb.
      destruct (wellShaped dto); [|discriminate]. split; [reflexivity|].
      destruct (insertOne _ _) as [[e2|[]] w5]; [discriminate|].
      injection Eb as <- <-. eauto.
  - right. rewrite register_outcome in Eb.
    destruct (wellShaped dto); [|discriminate]. split; [reflexivity|].
    destruct (insertOne _ _) as [[e2|[]] w5]; [discriminate|].
    injection Eb as <- <-. eauto.
Qed.


Lemma unsubscribe_outcome (subscriptionId u : string) (w : W) :
  unsubscribe subscriptionId u w =
    match findOne (ById subscriptionId) w with
    | (inl _, w1) =>
        (inl (Thrown.AppError "Failed to find push subscription" 500), w1)
    | (inr None, w1) =>
        (inl (Thrown.AppError "Subscription not found" 404), w1)
    | (inr (Some s), w1) =>
        if String.eqb (userId s) u then
          match deleteOne subscriptionId w1 with
          | (inl _, w2) =>
              (inl (Thrown.AppError "Failed to delete push subscription" 500), w2)
          | (inr _, w2) => (inr tt, w2)
          end
        else
          (inl (Thrown.AppError "Unauthorized to delete this subscription" 403),
           w1)
    end.
Proof.
  unfold unsubscribe, tryCatch, bind.
  cbn [findById deleteById MongoPushSubscriptionRepository.rest].
  unfold MongoPushSubscriptionRepository.findById. rewrite guarded_query.
  destruct (findOne (ById subscriptionId) w) as [[e1|[s|]] w1]; try reflexivity.
  destruct (String.eqb (userId s) u); [|reflexivity]. cbn [negb].
  unfold MongoPushSubscriptionRepository.deleteById, tryCatch, throw.
  destruct (deleteOne subscriptionId w1) as [[e2|[]] w2]; reflexivity.
Qed.

End SubscriptionFacts.

Section SubscriptionsOverMongo.
Import PushSubscription ManageSubscription SubscriptionRepository SubscriptionNotions.
Context {W : Type} {R : Runtime W} {SC : Collection W}.
#[local] Existing Instance MongoPushSubscriptionRepository.repository.
#[local] Existing Instance MongoPushSubscriptionRepository.rest.

(** X9.  What [subscribe] hands back is always in service: active, with no
    failure on record.  It is either a stored subscription that the lookup
    by endpoint or token found - revived and stamped with the present
    instant, still with its own id and its own owner, whoever asks - or a
    new one, and then the request was well shaped, the subscription belongs
    to the requesting user, exactly one of the two providers accepts it
    (Web Push for a browser, FCM for a phone), and its identifier is the
    non-empty endpoint or token of the request. *)
Theorem subscribe_registers (dto : SubscriptionDTO) (w : W)
    (s : PushSubscription.t) (w' : W) :
  subscribe dto w = (inr s, w') ->
  isActive s = true /\ failureCount s = 0%Z /\ errorMessage s = None /\
  ((exists f existing w1,
      lookupFilter dto = Some f /\
      findOne f w = (inr (Some existing), w1) /\
      s = revived existing (fst (newDate w1)))
   \/ (wellShaped dto = true /\
       userId s = s_userId dto /\ deviceType s = s_deviceType dto /\
       lastFailureAt s = None /\
       isWebPush s = isWEB (s_deviceType dto) /\
       isFCM s = negb (isWEB (s_deviceType dto)) /\
       PushSubscriptionOps.getIdentifier s = address dto /\
       address dto <> "")).
Proof.
  intros H. apply subscribe_inversion in H
    as [(f & existing & w1 & Hf & H1 & ->) | (Hshape & u & c & l & ->)].
  - repeat split. left. eauto 6.
  - repeat split. right.
    destruct (wellShaped_routable dto u c l Hshape) as (Hw & Hf & Hi & Ha).
    repeat split; assumption.
Qed.

(** X11.  Only its owner removes a subscription.  Once the collection has
    answered the lookup by id: an unknown id is reported with status 404
    and a subscription of another user with status 403, in both cases
    leaving the world as the lookup left it; and whenever [unsubscribe]
    succeeds, the subscription was the caller's and the world is the one
    [deleteOne] produced. *)
Theorem unsubscribe_only_owner (subscriptionId u : string) (w : W)
    (found : option PushSubscription.t) (w1 : W) :
  findOne (ById subscriptionId) w = (inr found, w1) ->
  (found = None ->
   unsubscribe subscriptionId u w =
     (inl (Thrown.AppError "Subscription not found" 404), w1)) /\
  (forall s, found = Some s -> userId s <> u ->
   unsubscribe subscriptionId u w =
     (inl (Thrown.AppError "Unauthorized to delete this subscription" 403), w1)) /\
  (forall w', unsubscribe subscriptionId u w = (inr tt, w') ->
   exists s, found = Some s /\ userId s = u /\
             deleteOne subscriptionId w1 = (inr tt, w')).
Proof.
  intros Hfind. rewrite unsubscribe_outcome, Hfind. split; [|split].
  - intros ->. reflexivity.
  - intros s -> Hne. apply String.eqb_neq in Hne. rewrite Hne. reflexivity.
  - intros w' H. destruct found as [s|]; [|discriminate].
    destruct (String.eqb_spec (userId s) u) as [Heq|Hne]; [|discriminate].
    exists s. split; [reflexivity|]. split; [exact Heq|].
    destruct (deleteOne subscriptionId w1) as [[e2|[]] w2]; [discriminate|].
    injection H as <-. reflexivity.
Qed.

End SubscriptionsOverMongo.

(** The phone of [u1] registers again: its stored, deactivated subscription
    comes back in service. *)
Lemma subscribe_registers_witness :
  exists s w',
    SubscriptionSim.subscribe SubscriptionSim.phone SubscriptionSim.used
      = (inr s, w') /\
    PushSubscription.isActive s = true /\
    PushSubscription.failureCount s = 0%Z /\
    PushSubscription.id s = "s-0".
Proof.
  destruct (SubscriptionSim.subscribe SubscriptionSim.phone SubscriptionSim.used)
    as [[e|s] w'] eqn:E; [vm_compute in E; discriminate|].
  exists s, w'. split; [reflexivity|].
  destruct (@subscribe_registers SubscriptionSim.World SubscriptionSim.runtime
              SubscriptionSim.collection SubscriptionSim.phone
              SubscriptionSim.used s w' E)
    as (Ha & Hf & _ & _).
  split; [exact Ha|]. split; [exact Hf|].
  vm_compute in E. injection E as <- _. reflexivity.
Defined.


(** Another user asks to remove the phone of [u1]: the store is untouched. *)
Lemma unsubscribe_only_owner_witness :
  SubscriptionSim.unsubscribe "s-0" "u2" SubscriptionSim.used
  = (inl (Thrown.AppError "Unauthorized to delete this subscription" 403),
     SubscriptionSim.used).
Proof.
  apply (proj1 (proj2
    (@unsubscribe_only_owner SubscriptionSim.World SubscriptionSim.collection
       "s-0" "u2" SubscriptionSim.used (Some SubscriptionSim.stored)
       SubscriptionSim.used eq_refl)) SubscriptionSim.stored eq_refl).
  vm_compute. discriminate.
Defined.
(** ** Marking as read: authorisation, and several at once *)

Section MarkAsReadFacts.
Context {W : Type} {R : Runtime W} {NR : INotificationRepository W}.

Lemma orString_nonempty (a : option string) (b : string) :
  b <> "" -> JS.orString a b <> "".
Proof.
  intros Hb. unfold JS.orString. destruct a as [[|c s]|]; cbn; congruence.
Qed.

Lemma orString_given (s b : string) : s <> "" -> JS.orString (Some s) b = s.
Proof. intros Hs. destruct s; [congruence | reflexivity]. Qed.

Lemma orNumber_nonzero (a : option Z) (b : Z) :
  b <> 0%Z -> JS.orNumber a b <> 0%Z.
Proof.
  intros Hb. unfold JS.orNumber. destruct a as [z|]; [|exact Hb].
  destruct (Z.eqb_spec z 0); congruence.
Qed.

Lemma orNumber_given (z b : Z) : z <> 0%Z -> JS.orNumber (Some z) b = z.
Proof.
  intros Hz. unfold JS.orNumber. destruct (Z.eqb_spec z 0); congruence.
Qed.

(** An error rewrapped by the [catch] of a use case is kept by a further
    [catch] of the same kind. *)
Lemma rewrapped_settled (e0 : Thrown.t) (inner outer : string) :
  inner <> "" ->
  let e := Thrown.AppError (JS.orString (Thrown.message e0) inner)
                           (JS.orNumber (Thrown.statusCode e0) 500) in
  Thrown.AppError (JS.orString (Thrown.message e) outer)
                  (JS.orNumber (Thrown.statusCode e) 500) = e.
Proof.
  intros Hin e. subst e. unfold Thrown.AppError. cbn [Thrown.message Thrown.statusCode].
  rewrite orString_given by (apply orString_nonempty; exact Hin).
  rewrite orNumber_given by (apply orNumber_nonzero; discriminate).
  reflexivity.
Qed.

(** Every failure of [MarkAsRead.execute] already is an [AppError] with a
    message and a status that a further [catch] of the same kind keeps. *)
Lemma execute_failure_settled (notificationId u : string) (w : W)
    (e : Thrown.t) (w' : W) (fallback : string) :
  MarkAsRead.execute notificationId u w = (inl e, w') ->
  Thrown.AppError (JS.orString (Thrown.message e) fallback)
                  (JS.orNumber (Thrown.statusCode e) 500) = e.
Proof.
  unfold MarkAsRead.execute, tryCatch.
  match goal with |- (match ?b w with _ => _ end) = _ -> _ =>
    destruct (b w) as [[e0|[]] w0] end; [|discriminate].
  unfold throw. intros [= <- _]. apply rewrapped_settled. discriminate.
Qed.

Lemma forEach_failure_settled (ids : list string) (u : string) (w : W)
    (e : Thrown.t) (w' : W) (fallback : string) :
  MarkAsReadMany.forEach ids u w = (inl e, w') ->
  Thrown.AppError (JS.orString (Thrown.message e) fallback)
                  (JS.orNumber (Thrown.statusCode e) 500) = e.
Proof.
  revert w. induction ids as [|id ids IH]; intros w; cbn [MarkAsReadMany.forEach].
  - discriminate.
  - unfold bind. destruct (MarkAsRead.execute id u w) as [[e0|[]] w0] eqn:E.
    + intros [= <- _]. eapply execute_failure_settled, E.
    + apply IH.
Qed.

Lemma executeMany_forEach (ids : list string) (u : string) (w : W) :
  MarkAsReadMany.executeMany ids u w = MarkAsReadMany.forEach ids u w.
Proof.
  unfold MarkAsReadMany.executeMany, tryCatch, throw.
  destruct (MarkAsReadMany.forEach ids u w) as [[e|[]] w'] eqn:E; [|reflexivity].
  f_equal. f_equal. eapply forEach_failure_settled, E.
Qed.

Lemma forEach_app (l1 l2 : list string) (u : string) (w : W) :
  MarkAsReadMany.forEach (l1 ++ l2) u w =
    match MarkAsReadMany.forEach l1 u w with
    | (inr _, w1) => MarkAsReadMany.forEach l2 u w1
    | (inl e, w1) => (inl e, w1)
    end.
Proof.
  revert w. induction l1 as [|id l1 IH]; intros w; cbn [app MarkAsReadMany.forEach].
  - reflexivity.
  - unfold bind. destruct (MarkAsRead.execute id u w) as [[e0|[]] w0];
      [reflexivity | apply IH].
Qed.

End MarkAsReadFacts.

(** X12.  [executeMany] is [execute] on each id in turn, up to the first
    failure: no id gives [ret], one id gives [execute] itself - the outer
    [catch] hands every failure on with the message and status it came
    with - and a list in two parts gives the first part followed, if it
    succeeded, by the second from the world the first left; a failure of
    the first part is the result, the second part is not touched and what
    the first had marked stays marked. *)
Theorem executeMany_sequential
    {W : Type} (R : Runtime W) (NR : INotificationRepository W)
    (u : string) (w : W) :
  MarkAsReadMany.executeMany [] u w = (inr tt, w) /\
  (forall id, MarkAsReadMany.executeMany [id] u w = MarkAsRead.execute id u w) /\
  (forall l1 l2,
     MarkAsReadMany.executeMany (l1 ++ l2) u w =
       match MarkAsReadMany.executeMany l1 u w with
       | (inr _, w1) => MarkAsReadMany.executeMany l2 u w1
       | (inl e, w1) => (inl e, w1)
       end).
Proof.
  split; [reflexivity|]. split.
  - intros id. rewrite executeMany_forEach. cbn [MarkAsReadMany.forEach].
    unfold bind, ret. destruct (MarkAsRead.execute id u w) as [[e|[]] w'];
      reflexivity.
  - intros l1 l2. rewrite !executeMany_forEach, forEach_app.
    destruct (MarkAsReadMany.forEach l1 u w) as [[e|[]] w1]; [reflexivity|].
    symmetry. apply executeMany_forEach.
Qed.

Section MarkAsReadOverMongo.
Context {W : Type} {R : Runtime W} {NC : NotificationCollection W}.
#[local] Existing Instance MongoNotificationRepository.repository.

(** X13.  Marking as read over the MongoDB repository, once the collection
    has answered the lookup.  An unknown id is reported with status 404 and
    a notification of another user with status 403, the world staying as
    the lookup left it.  For an unread notification of the caller the clock
    is read twice - by the entity, whose stamp stays on the local object
    only, and by the repository - and the read instant written to the
    collection is the second reading; a failing write is reported with
    status 500.  Whenever the call succeeds the notification was the
    caller's. *)
Theorem markAsRead_outcomes (notificationId u : string) (w : W)
    (found : option Notification.t) (w1 : W) :
  notifications_findOne notificationId w = (inr found, w1) ->
  (found = None ->
   MarkAsRead.execute notificationId u w =
     (inl (Thrown.AppError "Notification not found" 404), w1)) /\
  (forall n, found = Some n -> Notification.userId n <> u ->
   MarkAsRead.execute notificationId u w =
     (inl (Thrown.AppError "Unauthorized to mark this notification as read" 403),
      w1)) /\
  (forall n, found = Some n -> Notification.userId n = u ->
   Notification.isRead n = false ->
   let w2 := snd (newDate w1) in
   MarkAsRead.execute notificationId u w =
     match notifications_setRead notificationId (fst (newDate w2))
             (snd (newDate w2)) with
     | (inr _, w') => (inr tt, w')
     | (inl _, w') =>
         (inl (Thrown.AppError "Failed to mark notification as read" 500), w')
     end) /\
  (forall w', MarkAsRead.execute notificationId u w = (inr tt, w') ->
   exists n, found = Some n /\ Notification.userId n = u).
Proof.
  intros Hfind.
  assert (Hlookup : findById notificationId w = (inr found, w1)).
  { cbn [findById MongoNotificationRepository.repository].
    unfold MongoNotificationRepository.findById, tryCatch, bind, ret.
    rewrite Hfind. reflexivity. }
  assert (Hexec : MarkAsRead.execute notificationId u w =
    match found with
    | None => (inl (Thrown.AppError "Notification not found" 404), w1)
    | Some n =>
        if negb (String.eqb (Notification.userId n) u) then
          (inl (Thrown.AppError
                  "Unauthorized to mark this notification as read" 403), w1)
        else if Notification.isRead n then (inr tt, w1)
        else
          tryCatch (Notification.markAsRead n ;;; markAsRead notificationId)
            (fun error =>
               throw (Thrown.AppError
                        (JS.orString (Thrown.message error)
                                     "Failed to mark notification as read")
                        (JS.orNumber (Thrown.statusCode error) 500))) w1
    end).
  { unfold MarkAsRead.execute, tryCatch. unfold bind at 1. rewrite Hlookup.
    destruct found as [n|]; [|reflexivity].
    destruct (negb (String.eqb (Notification.userId n) u)); [reflexivity|].
    destruct (Notification.isRead n); reflexivity. }
  rewrite Hexec. clear Hexec Hlookup.
  split; [|split; [|split]].
  - intros ->. reflexivity.
  - intros n -> Hne. apply String.eqb_neq in Hne. rewrite Hne. reflexivity.
  - intros n -> Hu Hr w2. subst w2. apply String.eqb_eq in Hu. rewrite Hu, Hr.
    cbn [negb]. unfold Notification.markAsRead. rewrite Hr. cbn [negb].
    unfold tryCatch, bind, lift, ret.
    destruct (newDate w1) as [t1 w2]. cbn [fst snd].
    cbn [markAsRead MongoNotificationRepository.repository].
    unfold MongoNotificationRepository.markAsRead, tryCatch, bind, lift, throw.
    destruct (newDate w2) as [t2 w3]. cbn [fst snd].
    destruct (notifications_setRead notificationId t2 w3) as [[e|[]] w4];
      reflexivity.
  - intros w' H. destruct found as [n|]; [|discriminate].
    exists n. split; [reflexivity|].
    destruct (String.eqb_spec (Notification.userId n) u) as [Heq|Hne];
      [exact Heq | discriminate].
Qed.

End MarkAsReadOverMongo.

(** Another user tries to mark the notification of [u1]: refused, the
    inbox is untouched. *)
Lemma markAsRead_outcomes_witness :
  Sim.markRead "n-1" "u2" (Examples.inbox None)
  = (inl (Thrown.AppError "Unauthorized to mark this notification as read" 403),
     Examples.inbox None).
Proof.
  apply (proj1 (proj2
    (@markAsRead_outcomes Sim.World Sim.runtime Sim.notificationCollection
       "n-1" "u2" (Examples.inbox None) (Some (Examples.stored None))
       (Examples.inbox None) eq_refl)) (Examples.stored None) eq_refl).
  vm_compute. discriminate.
Defined.
(** ** Presence: the queries, and registering or removing twice *)

Section PresenceQueries.
Import WebSocketManager WebSocketQueries Reference.

Lemma getUserSockets_socketsOf (u : string) (m : t) :
  getUserSockets u m = socketsOf u m.
Proof.
  unfold getUserSockets, socketsOf. destruct (userConnections m !! u); reflexivity.
Qed.

Lemma size_list_to_set_le (l : list string) :
  (size (list_to_set l : gset string) <= length l)%nat.
Proof.
  induction l as [|x l IH]; cbn [list_to_set length].
  - rewrite size_empty. lia.
  - destruct (decide (x ∈ (list_to_set l : gset string))) as [Hin|Hnin].
    + replace ({[x]} ∪ list_to_set l) with (list_to_set l : gset string)
        by set_solver. lia.
    + rewrite size_union by set_solver. rewrite size_singleton. lia.
Qed.

Lemma size_map_img_le (m : gmap string string) :
  (size (map_img m : gset string) <= size m)%nat.
Proof.
  rewrite map_img_alt_L. etransitivity; [apply size_list_to_set_le|].
  rewrite length_fmap, length_map_to_list. lia.
Qed.

Lemma consistent_counts (m : t) acc :
  consistent m acc -> (getOnlineUsersCount m <= getTotalConnections m)%nat.
Proof.
  intros [I2 I3 I1 I4 I5]. unfold getOnlineUsersCount, getTotalConnections.
  rewrite <- (size_dom (D := gset string) (userConnections m)).
  etransitivity; [|apply size_map_img_le]. apply subseteq_size.
  intros u Hu. apply elem_of_dom in Hu as [ss Hss].
  pose proof (I1 _ _ Hss) as Hne. apply set_choose_L in Hne as [c Hc].
  apply elem_of_map_img. exists c. apply I2. unfold socketsOf. rewrite Hss.
  exact Hc.
Qed.

End PresenceQueries.

(** X14.  After any sequence of presence events in which no socket is
    registered for a second user while still registered for a first, and
    no user id is empty, the queries of the manager agree with each other:
    a socket belongs to the user it is listed under, a user is online
    exactly when listed among the online users and exactly when some
    socket belongs to that user, metadata is held for online users only,
    and there are at most as many online users as connections. *)
Theorem presence_queries_agree (events : list WebSocketManager.Event) :
  Reference.wellFormed events WebSocketManager.empty ->
  let m := WebSocketManager.run events WebSocketManager.empty in
  (forall c u, WebSocketQueries.getUserBySocket c m = Some u <->
               c ∈ WebSocketQueries.getUserSockets u m) /\
  (forall u, WebSocketManager.isUserOnline u m = true <->
             u ∈ WebSocketQueries.getOnlineUsers m) /\
  (forall u, WebSocketManager.isUserOnline u m = true <->
             exists c, WebSocketQueries.getUserBySocket c m = Some u) /\
  (forall u, WebSocketManager.getUserMetadata u m <> None ->
             WebSocketManager.isUserOnline u m = true) /\
  (WebSocketQueries.getOnlineUsersCount m
   <= WebSocketQueries.getTotalConnections m)%nat.
Proof.
  intros Hwf m.
  pose proof (consistent_run events _ _ consistent_empty Hwf) as Hc.
  fold m in Hc. pose proof Hc as [I2 I3 I1 I4 I5].
  assert (Hon : forall u, WebSocketManager.isUserOnline u m = true <->
                          is_Some (WebSocketManager.userConnections m !! u)).
  { intros u. rewrite isUserOnline_nonempty. unfold Reference.socketsOf. split.
    - destruct (WebSocketManager.userConnections m !! u); [eauto|].
      intros H. exfalso. apply H. reflexivity.
    - intros [ss Hss]. rewrite Hss. exact (I1 _ _ Hss). }
  split; [|split; [|split; [|split]]].
  - intros c u. rewrite getUserSockets_socketsOf. symmetry. apply I2.
  - intros u. rewrite Hon. unfold WebSocketQueries.getOnlineUsers.
    rewrite elem_of_dom. reflexivity.
  - intros u. rewrite isUserOnline_nonempty. split.
    + intros Hne. apply set_choose_L in Hne as [c Hx]. exists c. apply I2, Hx.
    + intros [c Hx]. apply I2 in Hx. set_solver.
  - intros u Hmd. apply Hon, I4. unfold WebSocketManager.getUserMetadata in Hmd.
    destruct (WebSocketManager.userMetadata m !! u); [eauto | congruence].
  - eapply consistent_counts, Hc.
Qed.

(** Two devices of one user and one of another, the first device leaving. *)
Lemma presence_queries_witness :
  let m := WebSocketManager.run
             [WebSocketManager.Connect "c1" "u1" Examples.browser;
              WebSocketManager.Connect "c2" "u1" None;
              WebSocketManager.Connect "c3" "u2" None;
              WebSocketManager.Disconnect "c1"]
             WebSocketManager.empty in
  (WebSocketQueries.getOnlineUsersCount m
   <= WebSocketQueries.getTotalConnections m)%nat.
Proof.
  intros m.
  apply (presence_queries_agree
           [WebSocketManager.Connect "c1" "u1" Examples.browser;
            WebSocketManager.Connect "c2" "u1" None;
            WebSocketManager.Connect "c3" "u2" None;
            WebSocketManager.Disconnect "c1"]).
  cbn [Reference.wellFormed Reference.admissible WebSocketManager.step].
  repeat split; discriminate.
Defined.
Section PresenceAlgebra.
Import WebSocketManager WebSocketQueries Reference.

Lemma manager_eq (m1 m2 : t) :
  userConnections m1 = userConnections m2 ->
  socketUsers m1 = socketUsers m2 ->
  userMetadata m1 = userMetadata m2 -> m1 = m2.
Proof. destruct m1, m2. cbn. intros -> -> ->. reflexivity. Qed.

Lemma addConnection_userMetadata (c u : string) md (m : t) :
  userMetadata (addConnection c u md m) =
    match md with
    | Some v => if JS.truthy v then <[u := v]> (userMetadata m) else userMetadata m
    | None => userMetadata m
    end.
Proof. reflexivity. Qed.

Lemma socketsOf_addConnection (c u : string) md (m : t) :
  socketsOf u (addConnection c u md m) = socketsOf u m ∪ {[c]}.
Proof.
  unfold socketsOf at 1. rewrite addConnection_userConnections, lookup_insert_eq.
  reflexivity.
Qed.

Lemma removeConnection_socketUsers (c : string) (m : t) :
  socketUsers (removeConnection c m) !! c = None
  \/ removeConnection c m = m.
Proof.
  unfold removeConnection. destruct (socketUsers m !! c) as [u|] eqn:E; [|auto].
  destruct (JS.truthyString u); [|auto]. left.
  destruct (userConnections m !! u) as [ss|];
    [destruct (size (ss ∖ {[c]}) =? 0)%nat|]; cbn; apply lookup_delete_eq.
Qed.

End PresenceAlgebra.

(** X15.  Registering a connection twice, or removing one twice, is the
    same as doing it once, in every state of the manager; and removing a
    socket the manager does not know changes nothing. *)
Theorem presence_updates_idempotent
    (c u : string) (md : option JS.Value) (m : WebSocketManager.t) :
  WebSocketManager.addConnection c u md (WebSocketManager.addConnection c u md m)
    = WebSocketManager.addConnection c u md m /\
  WebSocketManager.removeConnection c (WebSocketManager.removeConnection c m)
    = WebSocketManager.removeConnection c m /\
  (WebSocketQueries.getUserBySocket c m = None ->
   WebSocketManager.removeConnection c m = m).
Proof.
  split; [|split].
  - apply manager_eq.
    + rewrite !addConnection_userConnections, socketsOf_addConnection.
      rewrite insert_insert_eq. f_equal. set_solver.
    + rewrite !addConnection_socketUsers. apply insert_insert_eq.
    + rewrite !addConnection_userMetadata. destruct md as [v|]; [|reflexivity].
      destruct (JS.truthy v); [apply insert_insert_eq | reflexivity].
  - destruct (removeConnection_socketUsers c m) as [Hgone|Hsame].
    + apply removeConnection_unknown, Hgone.
    + rewrite !Hsame. reflexivity.
  - apply removeConnection_unknown.
Qed.

(** X16.  A new socket that connects and disconnects leaves no trace in the
    connection maps.  For the first device of a user without metadata the
    manager is back in the state it was in; for a further device of a user
    who is online the two connection maps are back as they were, and the
    metadata is the one the new connection brought, if it brought any. *)
Theorem presence_round_trip
    (c u : string) (md : option JS.Value) (m : WebSocketManager.t) :
  WebSocketManager.socketUsers m !! c = None ->
  u <> "" ->
  let m' := WebSocketManager.removeConnection c
              (WebSocketManager.addConnection c u md m) in
  (WebSocketManager.userConnections m !! u = None ->
   WebSocketManager.userMetadata m !! u = None ->
   m' = m) /\
  (forall ss, WebSocketManager.userConnections m !! u = Some ss ->
              ss <> ∅ -> c ∉ ss ->
   WebSocketManager.userConnections m' = WebSocketManager.userConnections m /\
   WebSocketManager.socketUsers m' = WebSocketManager.socketUsers m /\
   WebSocketManager.userMetadata m' =
     match md with
     | Some v => if JS.truthy v
                 then <[u := v]> (WebSocketManager.userMetadata m)
                 else WebSocketManager.userMetadata m
     | None => WebSocketManager.userMetadata m
     end).
Proof.
  intros Hc Hu m'.
  assert (Hm' : m' =
    match WebSocketManager.userConnections
            (WebSocketManager.addConnection c u md m) !! u with
    | Some sockets =>
        if decide (sockets ∖ {[c]} = ∅) then
          WebSocketManager.mk
            (delete u (WebSocketManager.userConnections
                         (WebSocketManager.addConnection c u md m)))
            (delete c (WebSocketManager.socketUsers
                         (WebSocketManager.addConnection c u md m)))
            (delete u (WebSocketManager.userMetadata
                         (WebSocketManager.addConnection c u md m)))
        else
          WebSocketManager.mk
            (<[u := sockets ∖ {[c]}]>
               (WebSocketManager.userConnections
                  (WebSocketManager.addConnection c u md m)))
            (delete c (WebSocketManager.socketUsers
                         (WebSocketManager.addConnection c u md m)))
            (WebSocketManager.userMetadata
               (WebSocketManager.addConnection c u md m))
    | None =>
        WebSocketManager.mk
          (WebSocketManager.userConnections
             (WebSocketManager.addConnection c u md m))
          (delete c (WebSocketManager.socketUsers
                       (WebSocketManager.addConnection c u md m)))
          (WebSocketManager.userMetadata
             (WebSocketManager.addConnection c u md m))
    end).
  { apply removeConnection_known; [|exact Hu].
    rewrite addConnection_socketUsers. apply lookup_insert_eq. }
  rewrite addConnection_userConnections, lookup_insert_eq,
    addConnection_socketUsers, addConnection_userMetadata in Hm'.
  assert (Hsu : delete c (<[c := u]> (WebSocketManager.socketUsers m))
                = WebSocketManager.socketUsers m).
  { rewrite delete_insert_eq. apply delete_id, Hc. }
  rewrite Hsu in Hm'. clear Hsu.
  split.
  - intros Hnone Hmeta. unfold Reference.socketsOf in Hm'. rewrite Hnone in Hm'.
    cbn [default from_option] in Hm'. unfold id in Hm'.
    destruct (decide (((∅ : gset string) ∪ {[c]}) ∖ {[c]} = ∅)) as [_|Hne];
      [|exfalso; apply Hne; set_solver].
    rewrite Hm'. apply manager_eq; cbn.
    + rewrite delete_insert_eq. apply delete_id, Hnone.
    + reflexivity.
    + destruct md as [v|]; [destruct (JS.truthy v)|];
        rewrite ?delete_insert_eq; apply delete_id, Hmeta.
  - intros ss Hss Hne Hnin. unfold Reference.socketsOf in Hm'. rewrite Hss in Hm'.
    cbn [default from_option] in Hm'.
    assert (Hback : (ss ∪ {[c]}) ∖ {[c]} = ss) by set_solver.
    unfold id in Hm'. rewrite Hback in Hm'.
    destruct (decide (ss = ∅)) as [He|_]; [contradiction|].
    rewrite Hm'. cbn. split; [|split; reflexivity].
    rewrite insert_insert_eq. apply insert_id, Hss.
Qed.

(** The first device of [u1] connects to the empty manager and leaves. *)
Lemma presence_round_trip_witness :
  WebSocketManager.removeConnection "c1"
    (WebSocketManager.addConnection "c1" "u1" Examples.browser
       WebSocketManager.empty)
  = WebSocketManager.empty.
Proof.
  apply (presence_round_trip "c1" "u1" Examples.browser WebSocketManager.empty).
  - reflexivity.
  - discriminate.
  - reflexivity.
  - reflexivity.
Defined.
(** ** The request schema and the use case's own validation *)

(** X17.  The validation of [subscribe] is the schema's refinement and one
    check more.  A subscription built from a request passes
    [validateSubscription] only if the request satisfies the refinement of
    [subscriptionSchema]; and a request that satisfies the refinement is
    turned down by [validateSubscription] in one case only: a browser
    whose keys hold an empty [p256dh] or [auth]. *)
Theorem validation_refines_schema
    {W : Type} (dto : ManageSubscription.SubscriptionDTO)
    (u : string) (c l : JS.Date) (w : W) :
  let s := PushSubscription.mk u (ManageSubscription.s_userId dto)
             (ManageSubscription.s_deviceType dto)
             (JS.orString (ManageSubscription.s_endpoint dto) "")
             (ManageSubscription.s_keys dto) (ManageSubscription.s_fcmToken dto)
             (ManageSubscription.s_deviceInfo dto) true c l 0 None None in
  (ManageSubscription.validateSubscription s w = (inr tt, w) ->
   Schemas.subscriptionRefinement dto = true) /\
  (Schemas.subscriptionRefinement dto = true ->
   ManageSubscription.validateSubscription s w <> (inr tt, w) ->
   ManageSubscription.s_deviceType dto = PushSubscription.WEB /\
   exists k, ManageSubscription.s_keys dto = Some k /\
             (PushSubscription.p256dh k = "" \/ PushSubscription.auth k = "")).
Proof.
  intros s. subst s. rewrite validateSubscription_outcome.
  rewrite (fresh_shape dto u c l).
  unfold SubscriptionNotions.wellShaped, Schemas.subscriptionRefinement.
  destruct (ManageSubscription.s_deviceType dto); cbn [ManageSubscription.isWEB].
  - destruct (ManageSubscription.given (ManageSubscription.s_endpoint dto));
      cbn [andb].
    + destruct (ManageSubscription.s_keys dto) as [k|].
      * split; [reflexivity|]. intros _ Hfail. split; [reflexivity|].
        exists k. split; [reflexivity|].
        destruct (PushSubscription.p256dh k); [left; reflexivity|].
        destruct (PushSubscription.auth k); [right; reflexivity|].
        exfalso. apply Hfail. reflexivity.
      * split; discriminate.
    + split; discriminate.
  - destruct (ManageSubscription.given (ManageSubscription.s_fcmToken dto)).
    + split; [reflexivity|]. intros _ Hfail. exfalso. apply Hfail. reflexivity.
    + split; discriminate.
  - destruct (ManageSubscription.given (ManageSubscription.s_fcmToken dto)).
    + split; [reflexivity|]. intros _ Hfail. exfalso. apply Hfail. reflexivity.
    + split; discriminate.
Qed.
(** ** Age of a subscription *)

(** X18.  On a host whose offset from UTC never changes, a subscription is
    expired exactly when its last use lies more than ninety days of
    86,400,000 ms before the instant of the check, which reads the clock
    once; so a subscription just stamped by [updateLastUsed] is not expired
    at a check whose clock reading is at most ninety days after the
    reading of the stamp. *)
Theorem subscription_expires_after_ninety_days
    {W : Type} (R : Runtime W) (host : JS.Host)
    (s : PushSubscription.t) (w : W) :
  (forall a b c d, JS.LocalTZA a b = JS.LocalTZA c d) ->
  PushSubscriptionOps.isExpired s w =
    (inr (PushSubscription.lastUsedAt s + 90 * JS.msPerDay <? fst (newDate w))%Z,
     snd (newDate w)) /\
  (forall s1 w1,
     PushSubscription.updateLastUsed s w = (inr s1, w1) ->
     (fst (newDate w1) <= fst (newDate w) + 90 * JS.msPerDay)%Z ->
     PushSubscriptionOps.isExpired s1 w1 = (inr false, snd (newDate w1))).
Proof.
  intros Hfix.
  assert (Hexp : forall s0 w0,
    PushSubscriptionOps.isExpired s0 w0 =
      (inr (PushSubscription.lastUsedAt s0 + 90 * JS.msPerDay
            <? fst (newDate w0))%Z, snd (newDate w0))).
  { intros s0 w0. unfold PushSubscriptionOps.isExpired, bind, lift, ret.
    destruct (newDate w0) as [now w0']. cbn [fst snd].
    rewrite (setDatePlus_fixed_offset now (-90) Hfix). do 2 f_equal.
    destruct (Z.ltb_spec (PushSubscription.lastUsedAt s0) (now + -90 * JS.msPerDay));
      destruct (Z.ltb_spec (PushSubscription.lastUsedAt s0 + 90 * JS.msPerDay) now);
      try reflexivity; lia. }
  split; [apply Hexp|].
  intros s1 w1 Hused Hclock. rewrite Hexp. do 2 f_equal.
  unfold PushSubscription.updateLastUsed, bind, lift, ret in Hused.
  destruct (newDate w) as [now w0]. cbn [fst] in Hclock.
  injection Hused as <- <-. cbn [PushSubscription.lastUsedAt PushSubscription.assign].
  apply Z.ltb_ge. lia.
Qed.

(** A subscription last used at instant 0, checked ninety days and one
    millisecond later on a host in UTC. *)
Lemma subscription_expires_witness :
  @PushSubscriptionOps.isExpired Sim.World Sim.runtime Sim.utcHost
     (Examples.webSubscription 0%Z) (Examples.frozen (90 * JS.msPerDay + 1)%Z)
  = (inr true, Examples.frozen (90 * JS.msPerDay + 1)%Z).
Proof.
  apply (proj1 (subscription_expires_after_ninety_days Sim.runtime Sim.utcHost
                  (Examples.webSubscription 0%Z)
                  (Examples.frozen (90 * JS.msPerDay + 1)%Z)
                  (fun _ _ _ _ => eq_refl))).
Defined.
(** ** Queries: pages and the unread list *)

Section QueryFacts.
Import Notification.
Context {W : Type} {R : Runtime W}.

(** [filterExpired] always returns: some of its input, in order, with
    every notification that has no expiry. *)
Lemma filterExpired_sublist (ns : list Notification.t) (w : W) :
  exists kept w',
    NotificationDomainService.filterExpired ns w = (inr kept, w') /\
    sublist kept ns /\
    (forall n, In n ns -> expiresAt n = None -> In n kept).
Proof.
  revert w. induction ns as [|n rest IH]; intros w.
  - exists [], w. split; [reflexivity|]. split; [constructor | tauto].
  - cbn [NotificationDomainService.filterExpired]. unfold bind at 1.
    assert (Hexp : exists b w1, Notification.isExpired n w = (inr b, w1) /\
                     (expiresAt n = None -> b = false)).
    { unfold Notification.isExpired. destruct (expiresAt n) as [e|].
      - unfold bind, lift, ret. destruct (newDate w) as [t w1].
        eexists _, _. split; [reflexivity | discriminate].
      - eexists _, _. split; [reflexivity | reflexivity]. }
    destruct Hexp as (b & w1 & -> & Hb).
    destruct (IH w1) as (kept & w' & Hrest & Hsub & Hnever).
    unfold bind. rewrite Hrest. unfold ret.
    eexists _, w'. split; [reflexivity|]. split.
    + destruct b; [apply sublist_cons | apply sublist_skip]; exact Hsub.
    + intros m [<-|Hin] Hm.
      * rewrite (Hb Hm). left. reflexivity.
      * destruct b; [|right]; apply Hnever; assumption.
Qed.

Lemma sortByPriority_permutation (ns : list Notification.t) :
  Permutation (DomainServiceOps.sortByPriority ns) ns.
Proof.
  induction ns as [|x ns IH]; [reflexivity|].
  cbn [DomainServiceOps.sortByPriority]. rewrite insert_permutation, IH.
  reflexivity.
Qed.

Lemma sortByPriority_sorted (ns : list Notification.t) :
  StronglySorted Notions.before (DomainServiceOps.sortByPriority ns).
Proof.
  induction ns as [|x ns IH]; [constructor|].
  cbn [DomainServiceOps.sortByPriority]. apply insert_sorted. exact IH.
Qed.

End QueryFacts.

(** X19.  [getUnread] asks the repository for at most [limit] unread
    notifications - twenty when no limit or a limit of 0 is given - and,
    whatever the repository answers, returns: the answer without some of
    its expiring notifications (never without one that has no expiry),
    ordered by decreasing priority weight and, within a weight, newest
    first. *)
Theorem getUnread_ordered
    {W : Type} (R : Runtime W) (NQ : QueryNotifications.Queries W)
    (u : string) (limit : option Z) (w : W)
    (fetched : list Notification.t) (w1 : W) :
  QueryNotifications.findUnreadByUserId u (JS.orNumber limit 20) w
    = (inr fetched, w1) ->
  exists sorted kept w',
    QueryNotifications.getUnread u limit w
      = (inr (map DTO.toResponseDTO sorted), w') /\
    StronglySorted Notions.before sorted /\
    Permutation sorted kept /\
    sublist kept fetched /\
    (forall n, In n fetched -> Notification.expiresAt n = None -> In n sorted).
Proof.
  intros Hfetch.
  destruct (filterExpired_sublist fetched w1) as (kept & w' & Hf & Hsub & Hnever).
  exists (DomainServiceOps.sortByPriority kept), kept, w'.
  split; [|split; [|split; [|split]]].
  - unfold QueryNotifications.getUnread, tryCatch, bind. rewrite Hfetch, Hf.
    reflexivity.
  - apply sortByPriority_sorted.
  - apply sortByPriority_permutation.
  - exact Hsub.
  - intros n Hin Hn.
    apply (Permutation_in n (Permutation_sym (sortByPriority_permutation kept))).
    apply Hnever; assumption.
Qed.

(** Three unread notifications at instant 1000, the urgent one expired at
    500: what is returned is ordered and drawn from the three. *)
Lemma getUnread_ordered_witness :
  let fetched := Sim.notifications QuerySim.pending in
  exists sorted kept w',
    @QueryNotifications.getUnread Sim.World Sim.runtime QuerySim.queries
       "u1" None QuerySim.pending
      = (inr (map DTO.toResponseDTO sorted), w') /\
    StronglySorted Notions.before sorted /\
    Permutation sorted kept /\
    sublist kept fetched /\
    (forall n, In n fetched -> Notification.expiresAt n = None -> In n sorted).
Proof.
  exact (getUnread_ordered Sim.runtime QuerySim.queries "u1" None
           QuerySim.pending (Sim.notifications QuerySim.pending)
           QuerySim.pending eq_refl).
Defined.

(** The same list as the socket handler sends it. *)
Example unread_of_u1 :
  fst (@QueryNotifications.getUnread Sim.World Sim.runtime QuerySim.queries
         "u1" None QuerySim.pending)
  = inr (map DTO.toResponseDTO
           [Samples.item "n-3" Notification.HIGH 30%Z;
            Samples.item "n-1" Notification.NORMAL 10%Z]).
Proof. vm_compute. reflexivity. Qed.

(** X20.  A page of [execute]: the repository is asked for [limit]
    notifications after [skip] - twenty after none by default, also when 0
    is given as the limit - and for the unread count; the page holds the
    fetched notifications without some of the expiring ones, in the order
    fetched; [total] is the number of notifications on the page, so never
    more than were fetched; and [unreadCount] is the repository's count,
    whatever has expired. *)
Theorem query_page
    {W : Type} (R : Runtime W) (NQ : QueryNotifications.Queries W)
    (dto : QueryNotifications.QueryNotificationsDTO) (w : W)
    (fetched : list Notification.t) (w1 : W) (count : Z) (w2 : W) :
  QueryNotifications.findByUserId (QueryNotifications.q_userId dto)
    {| QueryNotifications.f_type := QueryNotifications.q_type dto;
       QueryNotifications.f_isRead := QueryNotifications.q_isRead dto;
       QueryNotifications.f_fromDate := QueryNotifications.q_fromDate dto;
       QueryNotifications.f_toDate := QueryNotifications.q_toDate dto;
       QueryNotifications.f_priority := QueryNotifications.q_priority dto |}
    (JS.orNumber (QueryNotifications.q_limit dto) 20)
    (JS.orNumber (QueryNotifications.q_skip dto) 0) w = (inr fetched, w1) ->
  QueryNotifications.countUnread (QueryNotifications.q_userId dto) w1
    = (inr count, w2) ->
  exists page kept w',
    QueryNotifications.execute dto w = (inr page, w') /\
    QueryNotifications.notifications page = map DTO.toResponseDTO kept /\
    sublist kept fetched /\
    (forall n, In n fetched -> Notification.expiresAt n = None -> In n kept) /\
    QueryNotifications.total page = Z.of_nat (length kept) /\
    (QueryNotifications.total page <= Z.of_nat (length fetched))%Z /\
    QueryNotifications.unreadCount page = count.
Proof.
  intros Hfetch Hcount.
  destruct (filterExpired_sublist fetched w2) as (kept & w' & Hf & Hsub & Hnever).
  eexists _, kept, w'. split.
  - unfold QueryNotifications.execute, tryCatch, bind.
    rewrite Hfetch, Hcount, Hf. reflexivity.
  - cbn. repeat split; try assumption.
    apply sublist_length in Hsub. lia.
Qed.

(** The first page of [u1]: three fetched, two on the page, three unread. *)
Lemma query_page_witness :
  exists page w',
    @QueryNotifications.execute Sim.World Sim.runtime QuerySim.queries
      {| QueryNotifications.q_userId := "u1";
         QueryNotifications.q_type := None;
         QueryNotifications.q_isRead := None;
         QueryNotifications.q_fromDate := None;
         QueryNotifications.q_toDate := None;
         QueryNotifications.q_priority := None;
         QueryNotifications.q_limit := Some 0%Z;
         QueryNotifications.q_skip := None |} QuerySim.pending
    = (inr page, w') /\
    QueryNotifications.total page = 2%Z /\
    QueryNotifications.unreadCount page = 3%Z.
Proof.
  destruct (query_page Sim.runtime QuerySim.queries
              {| QueryNotifications.q_userId := "u1";
                 QueryNotifications.q_type := None;
                 QueryNotifications.q_isRead := None;
                 QueryNotifications.q_fromDate := None;
                 QueryNotifications.q_toDate := None;
                 QueryNotifications.q_priority := None;
                 QueryNotifications.q_limit := Some 0%Z;
                 QueryNotifications.q_skip := None |}
              QuerySim.pending _ _ _ _ eq_refl eq_refl)
    as (page & kept & w' & Hexec & _ & _ & _ & _ & _ & Hcount).
  exists page, w'. split; [exact Hexec|]. split; [|exact Hcount].
  vm_compute in Hexec. injection Hexec as <- _. reflexivity.
Defined.
(** ** The delivery worker: what reconciliation touches *)

Section WorkerFacts.
Import PushSubscription PushNotificationQueue QueueNotions.
Context {W : Type} {R : Runtime W} {SR : ISubsriptionRepository W}
        {PP : PushProviders W}.

Lemma laterStateOf_refl (s : PushSubscription.t) : laterStateOf s s.
Proof. unfold laterStateOf. tauto. Qed.

Lemma laterStateOf_trans (a b c : PushSubscription.t) :
  laterStateOf a b -> laterStateOf b c -> laterStateOf a c.
Proof.
  unfold laterStateOf. intros (?&?&?&?&?&?&?&?&?) (?&?&?&?&?&?&?&?&?).
  repeat split; try congruence. tauto.
Qed.

Lemma recordSuccess_later (s s' : PushSubscription.t) (w w' : W) :
  recordSuccess s w = (inr s', w') -> laterStateOf s s'.
Proof.
  destruct (recordSuccess_spec s w) as (s1 & E & _ & _ & _ & Ha).
  rewrite E. intros [= <- _].
  unfold recordSuccess, updateLastUsed, bind, lift, ret in E.
  destruct (newDate w) as [now w0]. injection E as <-.
  unfold laterStateOf. cbn. tauto.
Qed.

Lemma settle_later (failed : FailedSend) (s s' : PushSubscription.t) (w w' : W) :
  settle failed s w = (inr s', w') -> laterStateOf s s'.
Proof.
  unfold settle. destruct (String.eqb (error failed) "SUBSCRIPTION_EXPIRED").
  - intros [= <- _]. unfold laterStateOf, deactivate. cbn.
    repeat split; try reflexivity. discriminate.
  - unfold recordFailure, bind, lift, ret. destruct (newDate w) as [now w0].
    cbn [failureCount assign].
    destruct (3 <=? failureCount s + 1)%Z; intros [= <- _];
      unfold laterStateOf, deactivate; cbn; repeat split; try reflexivity;
      try discriminate; tauto.
Qed.

Lemma settledFor_refl (ids : list string) (l : list PushSubscription.t) :
  Forall2 (settledFor ids) l l.
Proof.
  induction l; constructor; [|assumption].
  split; [apply laterStateOf_refl | reflexivity].
Qed.

Lemma settledFor_weaken (ids ids' : list string) (l l' : list PushSubscription.t) :
  (forall x, In x ids -> In x ids') ->
  Forall2 (settledFor ids) l l' -> Forall2 (settledFor ids') l l'.
Proof.
  intros Hsub H. eapply Forall2_impl; [exact H|].
  intros s s' [Hl Hs]. split; [exact Hl|].
  intros Hn. apply Hs. intros Hin. apply Hn, Hsub, Hin.
Qed.

Lemma settledFor_trans (ids1 ids2 : list string)
    (l l' l'' : list PushSubscription.t) :
  Forall2 (settledFor ids1) l l' -> Forall2 (settledFor ids2) l' l'' ->
  Forall2 (settledFor (ids1 ++ ids2)) l l''.
Proof.
  intros H1. revert l''. induction H1 as [|s s' l l' [Hl Hs] _ IH];
    intros l'' H2; inversion H2 as [|? s'' ? l2 [Hl' Hs'] Hrest]; subst;
    constructor.
  - split; [eapply laterStateOf_trans; eassumption|].
    intros Hn. rewrite in_app_iff in Hn.
    assert (E : s' = s) by (apply Hs; tauto). subst s'.
    apply Hs'. tauto.
  - apply IH. exact Hrest.
Qed.

Lemma replaced_settled (wanted : string) (l : list PushSubscription.t)
    (i : nat) (sub sub' : PushSubscription.t) :
  find wanted l = Some (i, sub) -> laterStateOf sub sub' ->
  Forall2 (settledFor [wanted]) l (<[i := sub']> l).
Proof.
  unfold find. intros Hfind Hlater. apply list_find_Some in Hfind as (Hi & Hid & _).
  revert i Hi. induction l as [|s l IH]; intros i Hi; [discriminate|].
  destruct i as [|i]; cbn in *.
  - injection Hi as ->. constructor; [|apply settledFor_refl].
    split; [exact Hlater|]. intros Hn. exfalso. apply Hn. left. symmetry. exact Hid.
  - constructor; [|apply IH; exact Hi].
    split; [apply laterStateOf_refl | reflexivity].
Qed.

Lemma onSuccessful_settled (subId : string) (l l' : list PushSubscription.t)
    (w w' : W) :
  onSuccessful subId l w = (inr l', w') -> Forall2 (settledFor [subId]) l l'.
Proof.
  unfold onSuccessful. destruct (find subId l) as [[i sub]|] eqn:Hfind.
  - unfold bind, ret. destruct (recordSuccess sub w) as [[e|sub'] w1] eqn:Hs;
      [discriminate|].
    destruct (update sub' w1) as [[e|r] w2]; [discriminate|].
    intros [= <- _]. eapply replaced_settled; [exact Hfind|].
    eapply recordSuccess_later, Hs.
  - intros [= <- _]. apply settledFor_refl.
Qed.

Lemma onFailed_settled (failed : FailedSend) (l l' : list PushSubscription.t)
    (w w' : W) :
  onFailed failed l w = (inr l', w') ->
  Forall2 (settledFor [failed_id failed]) l l'.
Proof.
  unfold onFailed. destruct (find (failed_id failed) l) as [[i sub]|] eqn:Hfind.
  - unfold bind, ret. destruct (settle failed sub w) as [[e|sub'] w1] eqn:Hs;
      [discriminate|].
    destruct (update sub' w1) as [[e|r] w2]; [discriminate|].
    intros [= <- _]. eapply replaced_settled; [exact Hfind|].
    eapply settle_later, Hs.
  - intros [= <- _]. apply settledFor_refl.
Qed.

Lemma forEach_settled {A} (body : A -> list PushSubscription.t -> M W (list PushSubscription.t))
    (name : A -> string) (items : list A) :
  (forall x l l' w w', body x l w = (inr l', w') ->
                       Forall2 (settledFor [name x]) l l') ->
  forall l l' w w',
    forEach body items l w = (inr l', w') ->
    Forall2 (settledFor (map name items)) l l'.
Proof.
  intros Hbody. induction items as [|x items IH]; intros l l' w w'.
  - intros [= <- _]. apply settledFor_refl.
  - cbn [forEach]. unfold bind. destruct (body x l w) as [[e|l1] w1] eqn:Hx;
      [discriminate|].
    intros Hrest. change (map name (x :: items)) with ([name x] ++ map name items).
    eapply settledFor_trans; [eapply Hbody, Hx | eapply IH, Hrest].
Qed.

Lemma reconcile_settled (result : BatchResult) (l l' : list PushSubscription.t)
    (w w' : W) :
  reconcile result l w = (inr l', w') ->
  Forall2 (settledFor (mentioned result)) l l'.
Proof.
  unfold reconcile, bind.
  destruct (forEach onSuccessful (successful result) l w) as [[e|l1] w1] eqn:H1;
    [discriminate|].
  intros H2. unfold mentioned. eapply settledFor_trans.
  - rewrite <- (map_id (successful result)).
    eapply (forEach_settled onSuccessful (fun x => x)); [|exact H1].
    intros x a b c d. apply onSuccessful_settled.
  - eapply (forEach_settled onFailed failed_id); [|exact H2].
    intros x a b c d. apply onFailed_settled.
Qed.

End WorkerFacts.

(** X21.  Reconciling a batch result touches only the subscriptions the
    result names.  Whenever the two loops over [successful] and [failed]
    run to their end, the list of subscription objects has the same length
    and order; each object is a later state of itself - same id, owner,
    device, endpoint, keys and token, and active only if it was active
    before - and an object whose id the result does not name is
    unchanged. *)
Theorem reconcile_touches_named_only
    {W : Type} (R : Runtime W) (SR : ISubsriptionRepository W)
    (result : PushNotificationQueue.BatchResult)
    (subscriptions subscriptions' : list PushSubscription.t) (w w' : W) :
  PushNotificationQueue.reconcile result subscriptions w
    = (inr subscriptions', w') ->
  length subscriptions' = length subscriptions /\
  Forall2 (QueueNotions.settledFor (QueueNotions.mentioned result))
    subscriptions subscriptions'.
Proof.
  intros H. apply reconcile_settled in H. split; [|exact H].
  symmetry. eapply Forall2_length, H.
Qed.

(** A result that reports the phone's endpoint as gone: the browser's
    subscription is not touched. *)
Lemma reconcile_touches_witness :
  let result := {| PushNotificationQueue.successful := [];
                   PushNotificationQueue.failed :=
                     [{| PushNotificationQueue.failed_id := "s-0";
                         PushNotificationQueue.error := "SUBSCRIPTION_EXPIRED" |}] |} in
  exists subscriptions' w',
    @PushNotificationQueue.reconcile SubscriptionSim.World SubscriptionSim.runtime
       (@MongoPushSubscriptionRepository.repository SubscriptionSim.World
          SubscriptionSim.collection)
       result [Examples.webSubscription 0%Z; ProviderSim.phoneInService]
       ProviderSim.devices
    = (inr subscriptions', w') /\
    length subscriptions' = 2%nat /\
    Forall2 (QueueNotions.settledFor ["s-0"])
      [Examples.webSubscription 0%Z; ProviderSim.phoneInService] subscriptions'.
Proof.
  intros result.
  destruct (@PushNotificationQueue.reconcile SubscriptionSim.World
              SubscriptionSim.runtime
              (@MongoPushSubscriptionRepository.repository SubscriptionSim.World
                 SubscriptionSim.collection)
              result [Examples.webSubscription 0%Z; ProviderSim.phoneInService]
              ProviderSim.devices) as [[e|subscriptions'] w'] eqn:E;
    [vm_compute in E; discriminate|].
  exists subscriptions', w'. split; [reflexivity|].
  exact (reconcile_touches_named_only SubscriptionSim.runtime _ result _ _ _ _ E).
Defined.
Section JobFacts.
Import PushSubscription PushNotificationQueue QueueNotions.
Context {W : Type} {R : Runtime W} {SR : ISubsriptionRepository W}
        {PP : PushProviders W}.

Lemma settled_later (ids : list string) (l l' : list PushSubscription.t) :
  Forall2 (settledFor ids) l l' -> Forall2 laterStateOf l l'.
Proof. intros H. eapply Forall2_impl; [exact H|]. intros s s' [Hl _]. exact Hl. Qed.

Lemma later_trans (l l' l'' : list PushSubscription.t) :
  Forall2 laterStateOf l l' -> Forall2 laterStateOf l' l'' ->
  Forall2 laterStateOf l l''.
Proof.
  intros H1. revert l''. induction H1 as [|s s' l l' Hl _ IH]; intros l'' H2;
    inversion H2 as [|? s'' ? l2 Hl' Hrest]; subst; constructor.
  - eapply laterStateOf_trans; eassumption.
  - apply IH. exact Hrest.
Qed.

Lemma later_refl (l : list PushSubscription.t) : Forall2 laterStateOf l l.
Proof. induction l; constructor; [apply laterStateOf_refl | assumption]. Qed.

Lemma filter_none {A} (P : A -> Prop) `{forall x, Decision (P x)} (l : list A) :
  (forall x, In x l -> ~ P x) -> filter P l = [].
Proof.
  induction l as [|x l IH]; intros Hall; [reflexivity|].
  rewrite filter_cons. destruct (decide (P x)) as [Hp|_].
  - exfalso. apply (Hall x); [left; reflexivity | exact Hp].
  - apply IH. intros y Hy. apply Hall. right. exact Hy.
Qed.

End JobFacts.

(** X22.  A push job never changes which devices a user has.  Whenever
    [processJob] runs to its end, the subscription objects it loaded are
    the same devices in the same order, each a later state of itself and
    none re-activated.  No subscription is handed to both providers; and
    when the user has no subscription that either provider accepts - in
    particular, none at all - no provider is called and nothing is
    written: the world is the one the lookup left. *)
Theorem processJob_keeps_devices
    {W : Type} (R : Runtime W) (SR : ISubsriptionRepository W)
    (PP : PushNotificationQueue.PushProviders W)
    (job : PushNotificationQueue.Job.t) (w : W)
    (subscriptions : list PushSubscription.t) (w1 : W)
    (subscriptions' : list PushSubscription.t) (w' : W) :
  findActiveByUserId (PushNotificationQueue.Job.userId job) w
    = (inr subscriptions, w1) ->
  PushNotificationQueue.processJob job w = (inr subscriptions', w') ->
  Forall2 QueueNotions.laterStateOf subscriptions subscriptions' /\
  (forall s, PushSubscription.isWebPush s && PushSubscription.isFCM s = false) /\
  ((forall s, In s subscriptions ->
      PushSubscription.isWebPush s = false /\ PushSubscription.isFCM s = false) ->
   subscriptions' = subscriptions /\ w' = w1).
Proof.
  intros Hfind Hjob.
  unfold PushNotificationQueue.processJob in Hjob. unfold bind at 1 in Hjob.
  rewrite Hfind in Hjob.
  split; [|split].
  - destruct (length subscriptions =? 0)%nat.
    + injection Hjob as <- _. apply later_refl.
    + unfold bind at 1 in Hjob.
      match type of Hjob with
      | (let (_, _) := ?c w1 in _) = _ =>
          destruct (c w1) as [[e|subs1] w2] eqn:Hweb
      | match ?c w1 with _ => _ end = _ =>
          destruct (c w1) as [[e|subs1] w2] eqn:Hweb
      end; [discriminate|].
      assert (H1 : Forall2 QueueNotions.laterStateOf subscriptions subs1).
      { destruct (0 <? length _)%nat in Hweb.
        - unfold bind in Hweb.
          destruct (PushNotificationQueue.webPushProvider_sendBatch _ _ w1)
            as [[e|webResult] w3]; [discriminate|].
          eapply settled_later, reconcile_settled, Hweb.
        - injection Hweb as <- _. apply later_refl. }
      eapply later_trans; [exact H1|].
      destruct (0 <? length _)%nat in Hjob.
      * unfold bind in Hjob.
        destruct (PushNotificationQueue.fcmProvider_sendBatch _ _ w2)
          as [[e|fcmResult] w3]; [discriminate|].
        eapply settled_later, reconcile_settled, Hjob.
      * injection Hjob as <- _. apply later_refl.
  - intros s. unfold PushSubscription.isWebPush, PushSubscription.isFCM.
    destruct (PushSubscription.deviceType s); [apply andb_false_r| |];
      reflexivity.
  - intros Hnone.
    destruct (length subscriptions =? 0)%nat;
      [injection Hjob as <- <-; split; reflexivity|].
    rewrite (filter_none (fun s => PushSubscription.isWebPush s = true)) in Hjob.
    2:{ intros s Hs. destruct (Hnone s Hs) as [-> _]. discriminate. }
    cbn [length Nat.ltb Nat.leb] in Hjob. unfold bind at 1 in Hjob. unfold ret at 1 in Hjob.
    rewrite (filter_none (fun s => PushSubscription.isFCM s = true)) in Hjob.
    2:{ intros s Hs. destruct (Hnone s Hs) as [_ ->]. discriminate. }
    cbn [length Nat.ltb Nat.leb] in Hjob. unfold ret in Hjob.
    injection Hjob as <- <-. split; reflexivity.
Qed.

(** The browser's send succeeds and the phone's times out: both devices
    are still the user's, in the same order. *)
Lemma processJob_keeps_devices_witness :
  exists subscriptions' w',
    ProviderSim.processJob ProviderSim.job ProviderSim.devices
      = (inr subscriptions', w') /\
    Forall2 QueueNotions.laterStateOf
      [Examples.webSubscription 0%Z; ProviderSim.phoneInService] subscriptions'.
Proof.
  destruct (ProviderSim.processJob ProviderSim.job ProviderSim.devices)
    as [[e|subscriptions'] w'] eqn:E; [vm_compute in E; discriminate|].
  exists subscriptions', w'. split; [reflexivity|].
  exact (proj1 (processJob_keeps_devices SubscriptionSim.runtime
                  (@MongoPushSubscriptionRepository.repository
                     SubscriptionSim.World SubscriptionSim.collection)
                  ProviderSim.providers ProviderSim.job ProviderSim.devices
                  [Examples.webSubscription 0%Z; ProviderSim.phoneInService]
                  ProviderSim.devices subscriptions' w' eq_refl E)).
Defined.

(** What the job leaves behind: the browser used at the instant of the
    send, the phone with one failure on record. *)
Example job_outcome :
  fst (ProviderSim.processJob ProviderSim.job ProviderSim.devices)
  = inr [PushSubscription.assign (Examples.webSubscription 0%Z)
           true 1000%Z 0%Z None None;
         PushSubscription.assign ProviderSim.phoneInService
           true 20%Z 1%Z (Some 1001%Z) (Some "timeout")].
Proof. vm_compute. reflexivity. Qed.
(** ** FCM batches: who is reported *)

Section FCMFacts.
Import PushSubscription PushNotificationQueue FCMProvider FCMNotions.

Lemma attribute_aligned (responses : list SendResponse) :
  forall (pre rest : list PushSubscription.t)
         (successful : list string) (failed : list FailedSend),
    (length responses <= length rest)%nat ->
    attribute (pre ++ rest) responses (length pre) successful failed =
      (successful ++ delivered (zip rest responses),
       failed ++ undelivered (zip rest responses), None).
Proof.
  induction responses as [|res responses IH]; intros pre rest successful failed Hlen.
  - destruct rest; cbn; rewrite !app_nil_r; reflexivity.
  - destruct rest as [|s rest]; [cbn in Hlen; lia|].
    cbn [attribute]. rewrite lookup_app_r by lia.
    rewrite Nat.sub_diag. cbn [lookup list_lookup].
    replace (pre ++ s :: rest) with ((pre ++ [s]) ++ rest)
      by (rewrite <- app_assoc; reflexivity).
    replace (S (length pre)) with (length (pre ++ [s]))
      by (rewrite length_app; cbn; lia).
    cbn in Hlen.
    unfold delivered, undelivered. cbn [zip zip_with List.filter snd fst].
    destruct (success res); cbn [negb map]; rewrite IH by lia;
      unfold delivered, undelivered; rewrite <- !app_assoc; reflexivity.
Qed.

Lemma all_eligible (subscriptions : list PushSubscription.t) :
  (forall s, In s subscriptions -> isFCM s && isActive s = true) ->
  List.filter (fun s => isFCM s && isActive s) subscriptions = subscriptions.
Proof.
  induction subscriptions as [|s l IH]; intros Hall; [reflexivity|].
  cbn [List.filter]. rewrite (Hall s) by (left; reflexivity).
  f_equal. apply IH. intros x Hx. apply Hall. right. exact Hx.
Qed.

End FCMFacts.

(** X23.  An FCM batch of subscriptions that all are active FCM
    subscriptions - what the worker hands over - reports every
    subscription exactly once, and never throws.  The service is called
    with their tokens in order.  If it answers with one response per
    token, the subscription at each position is reported with the
    response at that position: among [successful] when the response
    reports success, otherwise among [failed] with the message of the
    response's error, or ["Unknown error"]; both in the order of the
    batch.  If the call fails, all are reported failed with its message,
    or ["Batch send failed"].  *)
Theorem fcm_sendBatch_reports_each_once
    {W : Type} (FM : FCMProvider.Messaging W)
    (subscriptions : list PushSubscription.t)
    (payload : PushNotificationQueue.Payload) (w : W) :
  subscriptions <> [] ->
  (forall s, In s subscriptions ->
     PushSubscription.isFCM s && PushSubscription.isActive s = true) ->
  (forall responses w',
     FCMProvider.sendEachForMulticast (map FCMNotions.token subscriptions)
       payload w = (inr responses, w') ->
     length responses = length subscriptions ->
     FCMProvider.sendBatch subscriptions payload w =
       (inr {| PushNotificationQueue.successful :=
                 FCMNotions.delivered (zip subscriptions responses);
               PushNotificationQueue.failed :=
                 FCMNotions.undelivered (zip subscriptions responses) |}, w') /\
     Permutation
       (FCMNotions.delivered (zip subscriptions responses)
        ++ map PushNotificationQueue.failed_id
             (FCMNotions.undelivered (zip subscriptions responses)))
       (map PushSubscription.id subscriptions)) /\
  (forall e w',
     FCMProvider.sendEachForMulticast (map FCMNotions.token subscriptions)
       payload w = (inl e, w') ->
     FCMProvider.sendBatch subscriptions payload w =
       (inr {| PushNotificationQueue.successful := [];
               PushNotificationQueue.failed :=
                 map (fun sub =>
                        {| PushNotificationQueue.failed_id := PushSubscription.id sub;
                           PushNotificationQueue.error :=
                             JS.orString (Thrown.message e) "Batch send failed" |})
                     subscriptions |}, w')).
Proof.
  intros Hne Hall.
  assert (Hbatch : FCMProvider.sendBatch subscriptions payload w =
    match FCMProvider.sendEachForMulticast (map FCMNotions.token subscriptions)
            payload w with
    | (inr responses, w') =>
        match FCMProvider.attribute subscriptions responses 0 [] [] with
        | (successful, failed, None) =>
            (inr {| PushNotificationQueue.successful := successful;
                    PushNotificationQueue.failed := failed |}, w')
        | (successful, failed, Some e) =>
            (inr {| PushNotificationQueue.successful := successful;
                    PushNotificationQueue.failed :=
                      FCMProvider.markAll subscriptions e failed |}, w')
        end
    | (inl e, w') =>
        (inr {| PushNotificationQueue.successful := [];
                PushNotificationQueue.failed :=
                  FCMProvider.markAll subscriptions e [] |}, w')
    end).
  { unfold FCMProvider.sendBatch. rewrite (all_eligible subscriptions Hall).
    rewrite length_map. destruct subscriptions as [|s l]; [congruence|].
    reflexivity. }
  split.
  - intros responses w' Hsend Hlen. rewrite Hbatch, Hsend. split.
    + pose proof (attribute_aligned responses [] subscriptions [] []) as Ha.
      cbn [app length] in Ha. rewrite Ha by lia. reflexivity.
    + clear Hbatch Hsend Hall Hne. revert responses Hlen.
      induction subscriptions as [|s l IH]; intros [|res responses] Hlen;
        try discriminate; [reflexivity|].
      injection Hlen as Hlen. specialize (IH responses Hlen).
      unfold FCMNotions.delivered, FCMNotions.undelivered in *.
      cbn [zip zip_with List.filter snd fst map].
      destruct (FCMProvider.success res); cbn [negb map app fst].
      * constructor. exact IH.
      * rewrite <- Permutation_middle. constructor. exact IH.
  - intros e w' Hsend. rewrite Hbatch, Hsend. reflexivity.
Qed.

(** The phone is reached, the tablet's token is no longer registered. *)
Lemma fcm_sendBatch_witness :
  @FCMProvider.sendBatch SubscriptionSim.World FCMSim.messaging
     [ProviderSim.phoneInService; FCMSim.tablet] FCMSim.payload
     SubscriptionSim.fresh
  = (inr {| PushNotificationQueue.successful := ["s-0"];
            PushNotificationQueue.failed :=
              [{| PushNotificationQueue.failed_id := "s-9";
                  PushNotificationQueue.error :=
                    "Requested entity was not found." |}] |},
     SubscriptionSim.fresh).
Proof.
  assert (Hne : [ProviderSim.phoneInService; FCMSim.tablet] <> []) by discriminate.
  assert (Hall : forall s, In s [ProviderSim.phoneInService; FCMSim.tablet] ->
                   PushSubscription.isFCM s && PushSubscription.isActive s = true).
  { intros s [<-|[<-|[]]]; reflexivity. }
  apply (proj1 (proj1
    (fcm_sendBatch_reports_each_once FCMSim.messaging
       [ProviderSim.phoneInService; FCMSim.tablet] FCMSim.payload
       SubscriptionSim.fresh Hne Hall)
    (imap FCMSim.answer ["tok-1"; "tok-9"]) SubscriptionSim.fresh
    eq_refl eq_refl)).
Defined.
(** ** Preferences: what an update changes *)

Section PreferenceFacts.
Import Notification UserPreferences UserPreferencesOps UpdatePreferences
       PreferenceNotions.
Context {W : Type} {R : Runtime W}.

Lemma flag_updated (p : UserPreferences.t) (ty ty' : NotificationType)
    (k k' : ChannelKey) (b : bool) :
  getChannel (index (setIndex (preferences p) ty
                       (setChannel (index (preferences p) ty) k b)) ty') k' =
    if DomainServiceOps.type_eqb ty ty' && key_eqb k k' then b
    else flag p ty' k'.
Proof. unfold flag. destruct ty, ty', k, k'; reflexivity. Qed.

Lemma reflagged_refl (p : UserPreferences.t) : reflagged p p.
Proof. unfold reflagged. tauto. Qed.

Lemma reflagged_trans (p q r : UserPreferences.t) :
  reflagged p q -> reflagged q r -> reflagged p r.
Proof.
  unfold reflagged. intros (?&?&?&?&?&?&?) (?&?&?&?&?&?&?).
  repeat split; congruence.
Qed.

Lemma patchChannel_spec (ty : NotificationType) (k : ChannelKey)
    (v : option bool) (p : UserPreferences.t) (w : W) :
  exists p1 w1,
    patchChannel ty k v p w = (inr p1, w1) /\ reflagged p p1 /\
    forall ty' k',
      flag p1 ty' k' =
        match v with
        | Some b => if DomainServiceOps.type_eqb ty ty' && key_eqb k k' then b
                    else flag p ty' k'
        | None => flag p ty' k'
        end.
Proof.
  unfold patchChannel. destruct v as [b|].
  - unfold updatePreference, bind, lift, ret. destruct (newDate w) as [now w1].
    eexists _, _. split; [reflexivity|]. split.
    + unfold reflagged. cbn. tauto.
    + intros ty' k'. unfold flag at 1. cbn [preferences assign].
      apply flag_updated.
  - exists p, w. split; [reflexivity|]. split; [apply reflagged_refl | reflexivity].
Qed.

Lemma patchType_spec (entry : string * ChannelPatch) (p : UserPreferences.t)
    (w : W) :
  exists p1 w1,
    patchType entry p w = (inr p1, w1) /\ reflagged p p1 /\
    forall ty k,
      flag p1 ty k =
        match requestedBy entry ty k with
        | Some b => b
        | None => flag p ty k
        end.
Proof.
  unfold patchType, requestedBy. destruct (typeOfName (fst entry)) as [ty0|].
  - destruct (patchChannel_spec ty0 inAppKey (p_inApp (snd entry)) p w)
      as (p1 & w1 & E1 & F1 & H1).
    destruct (patchChannel_spec ty0 pushKey (p_push (snd entry)) p1 w1)
      as (p2 & w2 & E2 & F2 & H2).
    destruct (patchChannel_spec ty0 websocketKey (p_websocket (snd entry)) p2 w2)
      as (p3 & w3 & E3 & F3 & H3).
    exists p3, w3. unfold bind. rewrite E1, E2, E3. split; [reflexivity|].
    split; [eauto using reflagged_trans|].
    intros ty k. rewrite H3, H2, H1.
    destruct (DomainServiceOps.type_eqb ty0 ty); cbn [andb];
      [|destruct (p_inApp (snd entry)), (p_push (snd entry)),
                 (p_websocket (snd entry)); reflexivity].
    destruct k; cbn [key_eqb];
      destruct (p_inApp (snd entry)), (p_push (snd entry)),
               (p_websocket (snd entry)); reflexivity.
  - exists p, w. split; [reflexivity|]. split; [apply reflagged_refl | reflexivity].
Qed.

Lemma patchTypes_spec (entries : list (string * ChannelPatch)) :
  forall (p : UserPreferences.t) (w : W),
  exists p1 w1,
    patchTypes entries p w = (inr p1, w1) /\ reflagged p p1 /\
    forall ty k,
      flag p1 ty k =
        match requested entries ty k with
        | Some b => b
        | None => flag p ty k
        end.
Proof.
  induction entries as [|entry rest IH]; intros p w.
  - exists p, w. split; [reflexivity|]. split; [apply reflagged_refl | reflexivity].
  - destruct (patchType_spec entry p w) as (p1 & w1 & E1 & F1 & H1).
    destruct (IH p1 w1) as (p2 & w2 & E2 & F2 & H2).
    exists p2, w2. cbn [patchTypes]. unfold bind. rewrite E1, E2.
    split; [reflexivity|]. split; [eauto using reflagged_trans|].
    intros ty k. rewrite H2. cbn [requested].
    destruct (requested rest ty k); [reflexivity | apply H1].
Qed.

End PreferenceFacts.

Section PreferencesOverMongo.
Import Notification UserPreferences UserPreferencesOps UpdatePreferences
       PreferenceNotions.
Context {W : Type} {R : Runtime W} {PC : UserPreferencesCollection W}
        {PS : PreferencesRepository.Collection W}.
#[local] Existing Instance MongoUserPreferencesRepository.repository.
#[local] Existing Instance MongoUserPreferencesStore.rest.

(** X24.  An update of preferences changes what the request names and
    nothing else.  Whenever [execute] succeeds, the record it returns is
    the stored record of the user - or, when there is none, a new record
    for the user with every flag on, quiet hours off and language [es] -
    with the same id, owner and creation instant, in which: a flag has the
    value the request gives it (the last entry naming it, entries whose key
    is not a notification type being skipped) and otherwise its former
    value; the quiet hours are the former ones overridden by the fields
    the request gives; language, sound and vibration likewise. *)
Theorem updatePreferences_applies (dto : PreferencesDTO) (w : W)
    (p' : UserPreferences.t) (w' : W) :
  execute dto w = (inr p', w') ->
  exists found w1 base,
    preferences_findOne (d_userId dto) w = (inr found, w1) /\
    match found with
    | Some stored => base = stored
    | None => exists id createdAt updatedAt,
                base = defaults id (d_userId dto) createdAt updatedAt
    end /\
    applied dto base p'.
Proof.
  unfold execute, tryCatch.
  match goal with |- (match ?b w with _ => _ end) = _ -> _ =>
    destruct (b w) as [[e|r] w0] eqn:Eb end;
    [unfold throw; discriminate|].
  intros [= <- <-]. unfold bind at 1 in Eb.
  cbn [findByUserId MongoUserPreferencesRepository.repository] in Eb.
  unfold MongoUserPreferencesRepository.findByUserId in Eb.
  unfold tryCatch at 1, bind at 1, ret at 1 in Eb.
  destruct (preferences_findOne (d_userId dto) w) as [[e|found] w1] eqn:Efind;
    [discriminate|].
  exists found, w1.
  unfold bind at 1 in Eb.
  match type of Eb with
  | match ?c w1 with _ => _ end = _ =>
      assert (Hbase : exists base w2, c w1 = (inr base, w2) /\
                match found with
                | Some stored => base = stored
                | None => exists id createdAt updatedAt,
                            base = defaults id (d_userId dto) createdAt updatedAt
                end)
  end.
  { destruct found as [stored|].
    - eexists _, _. split; reflexivity.
    - unfold UserPreferencesOps.new, bind, lift, ret.
      destruct (uuidv4 w1) as [u w2]. destruct (newDate w2) as [c w3].
      destruct (newDate w3) as [l w4].
      eexists _, _. split; [reflexivity|]. exists u, c, l. reflexivity. }
  destruct Hbase as (base & w2 & Ebase & Hbase). rewrite Ebase in Eb.
  exists base. split; [reflexivity|]. split; [exact Hbase|]. clear Ebase Hbase Efind.
  unfold bind at 1 in Eb.
  match type of Eb with
  | match ?c w2 with _ => _ end = _ =>
      assert (Hflags : exists p1 w3, c w2 = (inr p1, w3) /\ reflagged base p1 /\
                forall ty k,
                  flag p1 ty k =
                    match requested (match d_preferences dto with
                                     | Some es => es | None => [] end) ty k with
                    | Some b => b
                    | None => flag base ty k
                    end)
  end.
  { destruct (d_preferences dto) as [entries|].
    - apply patchTypes_spec.
    - exists base, w2. split; [reflexivity|].
      split; [apply reflagged_refl | reflexivity]. }
  destruct Hflags as (p1 & w3 & E1 & F1 & H1). rewrite E1 in Eb. clear E1.
  unfold bind at 1 in Eb.
  match type of Eb with
  | match ?c w3 with _ => _ end = _ =>
      assert (Hquiet : exists p2 w4, c w3 = (inr p2, w4) /\
                id p2 = id p1 /\ userId p2 = userId p1 /\
                createdAt p2 = createdAt p1 /\ preferences p2 = preferences p1 /\
                language p2 = language p1 /\ soundEnabled p2 = soundEnabled p1 /\
                vibrationEnabled p2 = vibrationEnabled p1 /\
                quietHours p2 =
                  match d_quietHours dto with
                  | Some patch => spread (quietHours p1) patch
                  | None => quietHours p1
                  end)
  end.
  { destruct (d_quietHours dto) as [patch|].
    - unfold updateQuietHours, bind, lift, ret. destruct (newDate w3) as [now w4].
      eexists _, _. split; [reflexivity|]. cbn. tauto.
    - exists p1, w3. split; [reflexivity|]. tauto. }
  destruct Hquiet as (p2 & w4 & E2 & Q1 & Q2 & Q3 & Q4 & Q5 & Q6 & Q7 & Q8).
  rewrite E2 in Eb. clear E2.
  unfold bind at 1 in Eb.
  cbn [PreferencesRepository.exists_ PreferencesRepository.update
       PreferencesRepository.save MongoUserPreferencesStore.rest] in Eb.
  destruct (MongoUserPreferencesStore.exists_ (d_userId dto) w4)
    as [[e|known] w5]; [discriminate|].
  assert (Hstored : exists now,
    r = assign (assignSettings dto p2) (preferences p2) (quietHours p2)
          (language (assignSettings dto p2))
          (soundEnabled (assignSettings dto p2))
          (vibrationEnabled (assignSettings dto p2)) now).
  { destruct known.
    - unfold MongoUserPreferencesStore.update, tryCatch, bind, lift, ret, throw in Eb.
      destruct (newDate w5) as [now w6].
      destruct (PreferencesRepository.replaceOne _ _ w6) as [[e|[]] w7];
        [discriminate|].
      injection Eb as <- _. exists now. reflexivity.
    - unfold MongoUserPreferencesStore.save, tryCatch, bind, ret, throw in Eb.
      destruct (PreferencesRepository.insertOne _ w5) as [[e|[]] w6];
        [discriminate|].
      injection Eb as <- _. exists (updatedAt p2).
      destruct p2; reflexivity. }
  destruct Hstored as (now & ->).
  destruct F1 as (G1 & G2 & G3 & G4 & G5 & G6 & G7).
  unfold applied. cbn [id userId createdAt quietHours language soundEnabled
                       vibrationEnabled assign assignSettings].
  repeat split; try congruence.
  - intros ty k. unfold flag at 1. cbn [preferences assign]. rewrite Q4.
    apply H1.
  - rewrite Q8, G4. reflexivity.
  - rewrite Q5, G5. reflexivity.
  - rewrite Q6, G6. reflexivity.
  - rewrite Q7, G7. reflexivity.
Qed.

End PreferencesOverMongo.

(** Recipient A, who has a record with every flag on, switches push off
    for INFO and turns quiet hours on: that flag is off, the in-app flag
    of INFO and the push flag of WARNING stay on, the window stays 22:00
    to 08:00. *)
Lemma updatePreferences_applies_witness :
  exists p' w',
    PreferencesSim.updatePreferences (PreferencesSim.quieter "A") Examples.office
      = (inr p', w') /\
    PreferenceNotions.flag p' Notification.INFO UserPreferencesOps.pushKey = false /\
    PreferenceNotions.flag p' Notification.INFO UserPreferencesOps.inAppKey = true /\
    PreferenceNotions.flag p' Notification.WARNING UserPreferencesOps.pushKey = true /\
    UserPreferences.quietHours p' = Examples.nightly "America/Mexico_City".
Proof.
  destruct (PreferencesSim.updatePreferences (PreferencesSim.quieter "A")
              Examples.office) as [[e|p'] w'] eqn:E;
    [vm_compute in E; discriminate|].
  exists p', w'. split; [reflexivity|].
  destruct (@updatePreferences_applies Sim.World Sim.runtime
              Sim.preferencesCollection PreferencesSim.collection
              (PreferencesSim.quieter "A") Examples.office p' w' E)
    as (found & w1 & base & Hfind & Hbase & _ & _ & _ & Hflags & Hquiet & _).
  vm_compute in Hfind. injection Hfind as <- _. subst base.
  rewrite !Hflags, Hquiet. repeat split.
Defined.
(** ** Preferences: the defaults *)

Section DefaultsOverMongo.
Import Notification UserPreferences UpdatePreferences PreferenceNotions.
Context {W : Type} {R : Runtime W} {host : JS.Host}
        {PC : UserPreferencesCollection W}.
#[local] Existing Instance MongoUserPreferencesRepository.repository.

(** X25.  [get] only reads.  For a user with a stored record it returns
    that record, the world staying as the lookup left it.  For a user
    without one it returns a new record of that user which lets everything
    through: [shouldSendToUser] answers yes for every notification on every
    channel, whatever the time, without reading the clock, and every type
    has the three channels enabled. *)
Theorem get_defaults_receive_everything (u : string) (w : W)
    (found : option UserPreferences.t) (w1 : W) :
  preferences_findOne u w = (inr found, w1) ->
  exists p w',
    get u w = (inr p, w') /\
    match found with
    | Some stored => p = stored /\ w' = w1
    | None =>
        UserPreferences.userId p = u /\
        (forall n channel w2,
           NotificationDomainService.shouldSendToUser n p channel w2
             = (inr true, w2)) /\
        (forall ty, getEnabledChannels p ty = [IN_APP; PUSH; WEBSOCKET])
    end.
Proof.
  intros Hfind. unfold get, tryCatch, bind at 1.
  cbn [findByUserId MongoUserPreferencesRepository.repository].
  unfold MongoUserPreferencesRepository.findByUserId, tryCatch, bind at 1, ret at 1.
  rewrite Hfind. destruct found as [stored|].
  - exists stored, w1. split; [reflexivity|]. split; reflexivity.
  - unfold UserPreferencesOps.new, bind, lift, ret.
    destruct (uuidv4 w1) as [id w2]. destruct (newDate w2) as [c w3].
    destruct (newDate w3) as [l w4].
    eexists _, _. split; [reflexivity|]. split; [reflexivity|]. split.
    + intros n channel w5.
      unfold NotificationDomainService.shouldSendToUser,
        shouldReceiveNotification, isQuietHours, bind, ret.
      cbn [quietHours enabled getDefaultQuietHours negb preferences].
      destruct (priority n), (type n), channel; reflexivity.
    + intros ty. destruct ty; reflexivity.
Qed.

End DefaultsOverMongo.

(** Recipient B has no record: the record returned is B's. *)
Lemma get_defaults_witness :
  exists p w',
    @UpdatePreferences.get Sim.World Sim.runtime Sim.preferencesRepository "B"
       Examples.office
      = (inr p, w') /\
    UserPreferences.userId p = "B".
Proof.
  destruct (@get_defaults_receive_everything Sim.World Sim.runtime Sim.utcHost
              Sim.preferencesCollection "B" Examples.office None Examples.office
              eq_refl)
    as (p & w' & Hget & Hu & _).
  exists p, w'. split; [exact Hget | exact Hu].
Defined.
(** ** Quiet hours with a time written without a colon *)

Lemma split_colonFree (s : string) :
  QuietHoursNotions.colonFree s = true -> JS.split ":" s = [s].
Proof.
  induction s as [|c s' IH]; [reflexivity|].
  cbn [QuietHoursNotions.colonFree JS.split]. intros H.
  apply andb_prop in H as [Hc Hs]. apply negb_true_iff in Hc.
  rewrite Hc, (IH Hs). reflexivity.
Qed.

(** Without a colon there is no minute component: [minute] is
    [undefined] and the sum is NaN, whatever number the text reads as. *)
Lemma minutesOf_colonFree (s : string) :
  QuietHoursNotions.colonFree s = true -> UserPreferences.minutesOf s = None.
Proof.
  intros H. unfold UserPreferences.minutesOf. rewrite (split_colonFree s H).
  cbn [map UserPreferences.component lookup list_lookup].
  destruct (JS.mul (JS.toNumber s) (Some 60%Z)); reflexivity.
Qed.

(** X26.  Enabled quiet hours in which each time either has the accepted
    [HH:mm] format or is written without a colon, and at least one is
    written without a colon (["22"], say).  Such a time has no minute
    component, its minutes of the day are NaN, and every comparison with
    NaN is false, so the branch of a plain window is never taken.  With a
    colon-free start the user is quiet before the end time only; with a
    colon-free end, from the start time on only; with both, never.  The
    clock is read once in each case. *)
Theorem quietHours_unreadable_times
    {W : Type} (R : Runtime W) (host : JS.Host)
    (p : UserPreferences.t) (w : W) :
  UserPreferences.enabled (UserPreferences.quietHours p) = true ->
  Reference.isHHmm (UserPreferences.startTime (UserPreferences.quietHours p)) = true
  \/ QuietHoursNotions.colonFree
       (UserPreferences.startTime (UserPreferences.quietHours p)) = true ->
  Reference.isHHmm (UserPreferences.endTime (UserPreferences.quietHours p)) = true
  \/ QuietHoursNotions.colonFree
       (UserPreferences.endTime (UserPreferences.quietHours p)) = true ->
  QuietHoursNotions.colonFree
    (UserPreferences.startTime (UserPreferences.quietHours p)) = true
  \/ QuietHoursNotions.colonFree
       (UserPreferences.endTime (UserPreferences.quietHours p)) = true ->
  UserPreferences.isQuietHours p w =
    (inr (if QuietHoursNotions.colonFree
               (UserPreferences.startTime (UserPreferences.quietHours p))
          then
            if QuietHoursNotions.colonFree
                 (UserPreferences.endTime (UserPreferences.quietHours p))
            then false
            else (Reference.hostMinutes (fst (newDate w))
                  <? Reference.clockMinutes
                       (UserPreferences.endTime (UserPreferences.quietHours p)))%Z
          else (Reference.clockMinutes
                  (UserPreferences.startTime (UserPreferences.quietHours p))
                <=? Reference.hostMinutes (fst (newDate w)))%Z),
     snd (newDate w)).
Proof.
  intros Hen Hstart Hstop Hfree.
  unfold UserPreferences.isQuietHours. rewrite Hen. cbn [negb].
  unfold bind, lift, ret. destruct (newDate w) as [now w']. cbn [fst snd].
  unfold Reference.hostMinutes.
  destruct (QuietHoursNotions.colonFree
              (UserPreferences.startTime (UserPreferences.quietHours p)))
    eqn:Fs;
  destruct (QuietHoursNotions.colonFree
              (UserPreferences.endTime (UserPreferences.quietHours p)))
    eqn:Fe.
  - rewrite (minutesOf_colonFree _ Fs), (minutesOf_colonFree _ Fe). reflexivity.
  - destruct Hstop as [He|He]; [|discriminate].
    rewrite (minutesOf_colonFree _ Fs), (proj1 (minutesOf_HHmm _ He)).
    reflexivity.
  - destruct Hstart as [Hs|Hs]; [|discriminate].
    rewrite (minutesOf_colonFree _ Fe), (proj1 (minutesOf_HHmm _ Hs)).
    cbn [JS.lt JS.ge]. rewrite orb_false_r. reflexivity.
  - destruct Hfree; discriminate.
Qed.

(** Quiet hours from ["22"] to ["08:00"] on a host in UTC: the start has
    no minutes, so at 23:00 the user is not quiet. *)
Lemma quietHours_unreadable_witness :
  @UserPreferences.isQuietHours Sim.World Sim.runtime Sim.utcHost
     (Examples.preferencesWith "A"
        {| UserPreferences.enabled := true; UserPreferences.startTime := "22";
           UserPreferences.endTime := "08:00";
           UserPreferences.timezone := "UTC" |})
     (Examples.at_ 23 0)
  = (inr false, Examples.at_ 23 0).
Proof.
  apply (quietHours_unreadable_times Sim.runtime Sim.utcHost
           (Examples.preferencesWith "A"
              {| UserPreferences.enabled := true; UserPreferences.startTime := "22";
                 UserPreferences.endTime := "08:00";
                 UserPreferences.timezone := "UTC" |})
           (Examples.at_ 23 0) eq_refl (or_intror eq_refl) (or_introl eq_refl)
           (or_introl eq_refl)).
Defined.
(** ** The single and the bulk creation path *)

Section PathsAgree.
Import Notification DTO.
Context {W : Type} {R : Runtime W} {host : JS.Host}
        {NR : INotificationRepository W} {PR : IUserPreferencesRepository W}.

Lemma resolved_generic (explicit : option (list NotificationChannel))
    (prefs : option UserPreferences.t) (ty : NotificationType) :
  match prefs with
  | Some preferences =>
      if (0 <? length (UserPreferences.getEnabledChannels preferences ty))%nat
         && negb (bool_decide (is_Some explicit))
      then UserPreferences.getEnabledChannels preferences ty
      else JS.orObject explicit [ALL]
  | None => JS.orObject explicit [ALL]
  end = Resolution.resolved explicit prefs ty.
Proof.
  unfold Resolution.resolved. destruct explicit as [cs|], prefs as [p|]; cbn;
    try reflexivity.
  - rewrite andb_false_r. reflexivity.
  - destruct (UserPreferences.getEnabledChannels p ty); reflexivity.
Qed.

Lemma resolved_nonempty (explicit : option (list NotificationChannel))
    (prefs : option UserPreferences.t) (ty : NotificationType) :
  explicit <> Some [] -> Resolution.resolved explicit prefs ty <> [].
Proof.
  unfold Resolution.resolved. destruct explicit as [cs|].
  - intros H ->. apply H. reflexivity.
  - intros _. destruct prefs as [p|]; [|discriminate].
    destruct (UserPreferences.getEnabledChannels p ty); discriminate.
Qed.

Lemma create_as_build (dto : BulkNotificationDTO) (u : string) (w : W) :
  CreateNotification.execute (BulkNotions.single dto u) w =
    match findByUserId u w with
    | (inr prefs, w1) =>
        tryCatch
          (BulkNotions.build dto u
             (Resolution.resolved (channels dto) prefs (type dto)))
          (fun error =>
             throw (Thrown.AppError
                      (JS.orString (Thrown.message error)
                                   "Failed to create notification")
                      (JS.orNumber (Thrown.statusCode error) 500))) w1
    | (inl error, w1) =>
        (inl (Thrown.AppError
                (JS.orString (Thrown.message error) "Failed to create notification")
                (JS.orNumber (Thrown.statusCode error) 500)), w1)
    end.
Proof.
  unfold CreateNotification.execute, tryCatch. unfold bind at 1.
  cbn [c_userId BulkNotions.single].
  destruct (findByUserId u w) as [[e|prefs] w1]; [reflexivity|].
  cbn [c_channels c_type c_expiresAt c_title c_message c_priority c_metadata
       c_actions c_imageUrl c_iconUrl BulkNotions.single].
  rewrite (resolved_generic (channels dto) prefs (type dto)). reflexivity.
Qed.

Lemma build_either (dto : BulkNotificationDTO) (u : string)
    (cs : list NotificationChannel) (w1 : W) :
  (let (s, w') :=
     (id <- lift uuidv4 ;;
      expiresAt <- match expiresAt dto with
                   | Some d => ret d
                   | None => NotificationDomainService.calculateExpiryDate 30
                   end ;;
      notification <-
        Notification.new id u (type dto) (title dto) (message dto) cs
          (JS.orObject (priority dto) NORMAL) (metadata dto) (actions dto)
          (Some expiresAt) (imageUrl dto) (iconUrl dto) ;;
      NotificationDomainService.validateNotification notification ;;;
      saved <- save notification ;;
      ret (inr (toResponseDTO saved) : SendBulkNotifications.Failed + _)) w1 in
   match s with
   | inl e =>
       ret (inl {| SendBulkNotifications.userId := u;
                   SendBulkNotifications.error :=
                     JS.orString (Thrown.message e)
                                 "Failed to create notification" |}) w'
   | inr a => (inr a, w')
   end) =
  match BulkNotions.build dto u cs w1 with
  | (inr r, w') => (inr (inr r), w')
  | (inl error, w') =>
      (inr (inl {| SendBulkNotifications.userId := u;
                   SendBulkNotifications.error :=
                     JS.orString (Thrown.message error)
                                 "Failed to create notification" |}), w')
  end.
Proof.
  unfold BulkNotions.build, Notification.new,
    NotificationDomainService.calculateExpiryDate, bind, lift, ret.
  destruct (uuidv4 w1) as [ident w2].
  destruct (expiresAt dto) as [d|].
  - destruct (newDate w2) as [created w3].
    match goal with |- context [NotificationDomainService.validateNotification ?n w3] =>
      destruct (NotificationDomainService.validateNotification n w3)
        as [[e|[]] w4]; [reflexivity|];
      destruct (save n w4) as [[e|saved] w5]; reflexivity end.
  - destruct (newDate w2) as [t w3]. destruct (newDate w3) as [created w4].
    match goal with |- context [NotificationDomainService.validateNotification ?n w4] =>
      destruct (NotificationDomainService.validateNotification n w4)
        as [[e|[]] w5]; [reflexivity|];
      destruct (save n w5) as [[e|saved] w6]; reflexivity end.
Qed.

Lemma iteration_as_build (dto : BulkNotificationDTO) (u : string) (w : W) :
  SendBulkNotifications.iteration dto u w =
    match findByUserId u w with
    | (inr prefs, w1) =>
        if match prefs with
           | Some _ =>
               (length (Resolution.resolved (channels dto) prefs (type dto))
                =? 0)%nat
           | None => false
           end
        then (inr (inl (BulkNotions.disabledEntry u)), w1)
        else
          match BulkNotions.build dto u
                  (Resolution.resolved (channels dto) prefs (type dto)) w1 with
          | (inr r, w') => (inr (inr r), w')
          | (inl error, w') =>
              (inr (inl {| SendBulkNotifications.userId := u;
                           SendBulkNotifications.error :=
                             JS.orString (Thrown.message error)
                                         "Failed to create notification" |}), w')
          end
    | (inl error, w1) =>
        (inr (inl {| SendBulkNotifications.userId := u;
                     SendBulkNotifications.error :=
                       JS.orString (Thrown.message error)
                                   "Failed to create notification" |}), w1)
    end.
Proof.
  unfold SendBulkNotifications.iteration, SendBulkNotifications.tryBody, tryCatch.
  unfold bind at 1.
  destruct (findByUserId u w) as [[e|prefs] w1]; [reflexivity|].
  destruct prefs as [p|].
  - rewrite (resolved_generic (channels dto) (Some p) (type dto)).
    destruct (length (Resolution.resolved (channels dto) (Some p) (type dto)) =? 0)%nat;
      [reflexivity|].
    apply build_either.
  - rewrite (resolved_generic (channels dto) None (type dto)). apply build_either.
Qed.

End PathsAgree.

(** X27.  The single and the bulk path treat a recipient alike.  For a
    bulk request that does not name an empty channel list, one iteration
    of the bulk loop for a recipient does what the single creation does
    for the same fields, from the same world to the same world: where the
    single creation returns a response, the iteration pushes that response
    on [successful]; where it throws, the iteration pushes on [failed] an
    entry for the recipient with the message of the error thrown.  (With an
    empty channel list the paths part: for a recipient with stored
    preferences the bulk path records the recipient as having disabled all
    channels before an id is drawn.) *)
Theorem single_and_bulk_agree
    {W : Type} (R : Runtime W) (host : JS.Host)
    (NR : INotificationRepository W) (PR : IUserPreferencesRepository W)
    (dto : DTO.BulkNotificationDTO) (u : string) (w : W) :
  DTO.channels dto <> Some [] ->
  match CreateNotification.execute (BulkNotions.single dto u) w with
  | (inr r, w') =>
      SendBulkNotifications.iteration dto u w = (inr (inr r), w')
  | (inl e, w') =>
      exists f,
        SendBulkNotifications.iteration dto u w = (inr (inl f), w') /\
        SendBulkNotifications.userId f = u /\
        Thrown.message e = Some (SendBulkNotifications.error f)
  end.
Proof.
  intros Hexplicit. rewrite create_as_build, iteration_as_build.
  destruct (findByUserId u w) as [[e0|prefs] w1].
  - eexists. split; [reflexivity|]. split; reflexivity.
  - pose proof (resolved_nonempty (DTO.channels dto) prefs (DTO.type dto) Hexplicit)
      as Hne.
    assert (Hcheck : match prefs with
                     | Some _ =>
                         (length (Resolution.resolved (DTO.channels dto) prefs
                                    (DTO.type dto)) =? 0)%nat
                     | None => false
                     end = false).
    { destruct prefs; [|reflexivity].
      destruct (Resolution.resolved _ _ _); [congruence | reflexivity]. }
    rewrite Hcheck. unfold tryCatch, throw.
    destruct (BulkNotions.build dto u _ w1) as [[e0|r] w2]; [|reflexivity].
    eexists. split; [reflexivity|]. split; reflexivity.
Qed.

(** Recipient A of the announcement, alone and as a member of the bulk
    request. *)
Lemma single_and_bulk_witness :
  exists r w',
    Sim.create (BulkNotions.single (Examples.announcement ["A"]) "A")
      Examples.office = (inr r, w') /\
    @SendBulkNotifications.iteration Sim.World Sim.runtime Sim.utcHost
       Sim.notificationRepository Sim.preferencesRepository
       (Examples.announcement ["A"]) "A" Examples.office
    = (inr (inr r), w').
Proof.
  pose proof (single_and_bulk_agree Sim.runtime Sim.utcHost
                Sim.notificationRepository Sim.preferencesRepository
                (Examples.announcement ["A"]) "A" Examples.office) as H.
  change (CreateNotification.execute
            (BulkNotions.single (Examples.announcement ["A"]) "A")
            Examples.office)
    with (Sim.create (BulkNotions.single (Examples.announcement ["A"]) "A")
            Examples.office) in H.
  destruct (Sim.create (BulkNotions.single (Examples.announcement ["A"]) "A")
              Examples.office) as [[e|r] w'] eqn:E;
    [vm_compute in E; discriminate|].
  exists r, w'. split; [reflexivity|]. apply H. discriminate.
Defined.
(** ** The socket's data handlers *)

Section HandlerFacts.
Import SocketIOHandler HandlerNotions.
Context {W : Type} {R : Runtime W}
        {NR : INotificationRepository W} {NQ : QueryNotifications.Queries W}.

Lemma whenAuthenticated_anonymous (m : WebSocketManager.t) (c : string)
    (work : string -> M W (list Emit)) (w : W) :
  anonymous c m ->
  whenAuthenticated m c work w = (inr [error "Not authenticated"], w).
Proof.
  unfold whenAuthenticated. intros [-> | ->]; reflexivity.
Qed.

Lemma answer_error (msg : string) : msg <> "" -> answer [error msg].
Proof.
  intros Hm. split; [discriminate|].
  intros msg' [[= <-]|[]]. split; [reflexivity | exact Hm].
Qed.

Lemma answer_plain (emits : list Emit) :
  emits <> [] -> (forall msg, ~ In (error msg) emits) -> answer emits.
Proof. intros Hne Hno. split; [exact Hne|]. intros msg Hin. destruct (Hno _ Hin). Qed.

(** A handler answers whenever the work it does for an authenticated
    socket answers when it succeeds. *)
Lemma handler_answers (m : WebSocketManager.t) (c : string)
    (work : string -> M W (list Emit)) (fallback : string) (w : W) :
  fallback <> "" ->
  (forall u w0 emits w1, work u w0 = (inr emits, w1) -> answer emits) ->
  exists emits w',
    tryCatch (whenAuthenticated m c work)
      (fun e => ret [error (JS.orString (Thrown.message e) fallback)]) w
      = (inr emits, w') /\ answer emits.
Proof.
  intros Hf Hwork. unfold tryCatch.
  destruct (whenAuthenticated m c work w) as [[e|emits] w'] eqn:E.
  - eexists _, _. split; [reflexivity|]. apply answer_error.
    unfold JS.orString. destruct (Thrown.message e) as [[|a s]|]; cbn;
      congruence.
  - exists emits, w'. split; [reflexivity|].
    unfold whenAuthenticated in E.
    destruct (WebSocketQueries.getUserBySocket c m) as [u|].
    + destruct (JS.truthyString u).
      * eapply Hwork, E.
      * injection E as <- _. apply answer_error. discriminate.
    + injection E as <- _. apply answer_error. discriminate.
Qed.

End HandlerFacts.

(** X28.  No data handler does anything for a socket that has not
    authenticated.  When the manager holds no user for the socket, each of
    [get_notifications], [get_unread], [mark_as_read] and
    [mark_all_as_read] emits the one error [Not authenticated] and leaves
    the world as it is: no repository is asked, nothing is marked. *)
Theorem handlers_require_authentication
    {W : Type} (R : Runtime W) (NR : INotificationRepository W)
    (NQ : QueryNotifications.Queries W)
    (m : WebSocketManager.t) (c : string) (w : W) :
  HandlerNotions.anonymous c m ->
  (forall data,
     SocketIOHandler.on_get_notifications m c data w
       = (inr [SocketIOHandler.error "Not authenticated"], w)) /\
  SocketIOHandler.on_get_unread m c w
    = (inr [SocketIOHandler.error "Not authenticated"], w) /\
  (forall notificationId,
     SocketIOHandler.on_mark_as_read m c notificationId w
       = (inr [SocketIOHandler.error "Not authenticated"], w)) /\
  SocketIOHandler.on_mark_all_as_read m c w
    = (inr [SocketIOHandler.error "Not authenticated"], w).
Proof.
  intros Hanon.
  unfold SocketIOHandler.on_get_notifications, SocketIOHandler.on_get_unread,
    SocketIOHandler.on_mark_as_read, SocketIOHandler.on_mark_all_as_read, tryCatch.
  repeat split; intros; rewrite whenAuthenticated_anonymous by exact Hanon;
    reflexivity.
Qed.

(** Socket [c1] has not authenticated; [c2] has, as [u2]. *)
Lemma handlers_require_authentication_witness :
  HandlerSim.on_mark_as_read HandlerSim.session "c1" "n-1" (Examples.inbox None)
  = (inr [SocketIOHandler.error "Not authenticated"], Examples.inbox None).
Proof.
  apply (handlers_require_authentication Sim.runtime Sim.notificationRepository
           QuerySim.queries HandlerSim.session "c1" (Examples.inbox None)).
  left. reflexivity.
Defined.

(** X29.  Every data handler answers, whatever the repositories do: it
    never throws, it emits at least one event, and when it emits an error
    that error is its only event and has a message. *)
Theorem handlers_always_answer
    {W : Type} (R : Runtime W) (NR : INotificationRepository W)
    (NQ : QueryNotifications.Queries W)
    (m : WebSocketManager.t) (c : string) (w : W) :
  (forall data, exists emits w',
     SocketIOHandler.on_get_notifications m c data w = (inr emits, w') /\
     HandlerNotions.answer emits) /\
  (exists emits w',
     SocketIOHandler.on_get_unread m c w = (inr emits, w') /\
     HandlerNotions.answer emits) /\
  (forall notificationId, exists emits w',
     SocketIOHandler.on_mark_as_read m c notificationId w = (inr emits, w') /\
     HandlerNotions.answer emits) /\
  (exists emits w',
     SocketIOHandler.on_mark_all_as_read m c w = (inr emits, w') /\
     HandlerNotions.answer emits).
Proof.
  split; [|split; [|split]]; intros;
    (apply handler_answers; [discriminate|]);
    intros u w0 emits w1; unfold bind, ret.
  - destruct (QueryNotifications.execute _ w0) as [[e|page] w2]; [discriminate|].
    intros [= <- _]. apply answer_plain; [discriminate|].
    intros msg [H|[]]. discriminate.
  - destruct (QueryNotifications.getUnread u None w0) as [[e|l] w2];
      [discriminate|].
    intros [= <- _]. apply answer_plain; [discriminate|].
    intros msg [H|[]]. discriminate.
  - destruct (MarkAsRead.execute notificationId u w0) as [[e|[]] w2];
      [discriminate|].
    destruct (QueryNotifications.getUnreadCount u w2) as [[e|k] w3];
      [discriminate|].
    intros [= <- _]. apply answer_plain; [discriminate|].
    intros msg [H|[H|[]]]; discriminate.
  - destruct (QueryNotifications.getUnread u None w0) as [[e|l] w2];
      [discriminate|].
    destruct (MarkAsReadMany.executeMany _ u w2) as [[e|[]] w3]; [discriminate|].
    intros [= <- _]. apply answer_plain; [discriminate|].
    intros msg [H|[H|[]]]; discriminate.
Qed.

Section HandlersOverMongo.
Import SocketIOHandler.
Context {W : Type} {R : Runtime W} {NC : NotificationCollection W}
        {NQ : QueryNotifications.Queries W}.
#[local] Existing Instance MongoNotificationRepository.repository.

Lemma execute_success_owner (notificationId u : string) (w w' : W) :
  MarkAsRead.execute notificationId u w = (inr tt, w') ->
  exists n w1,
    notifications_findOne notificationId w = (inr (Some n), w1) /\
    Notification.userId n = u.
Proof.
  unfold MarkAsRead.execute. unfold tryCatch at 1, bind at 1.
  cbn [findById MongoNotificationRepository.repository].
  unfold MongoNotificationRepository.findById.
  unfold tryCatch at 1, bind at 1, ret at 1.
  destruct (notifications_findOne notificationId w) as [[e|[n|]] w1];
    [discriminate| |discriminate].
  destruct (String.eqb_spec (Notification.userId n) u) as [Heq|Hne];
    [|discriminate].
  intros _. exists n, w1. split; [reflexivity | exact Heq].
Qed.

(** X30.  Over a socket a notification is marked as read only for the
    user the socket authenticated as.  Whenever [mark_as_read] emits
    [marked_as_read], the id is the one asked for, the socket is
    registered for a user, and the notification the collection holds under
    that id belongs to that user - whatever user the client says it is,
    and whichever notification id it sends. *)
Theorem socket_marks_own_only (m : WebSocketManager.t) (c : string)
    (notificationId : string) (w : W) (emits : list Emit) (w' : W)
    (marked : string) :
  on_mark_as_read m c notificationId w = (inr emits, w') ->
  In (marked_as_read marked) emits ->
  marked = notificationId /\
  exists u n w1,
    WebSocketQueries.getUserBySocket c m = Some u /\
    notifications_findOne notificationId w = (inr (Some n), w1) /\
    Notification.userId n = u.
Proof.
  unfold on_mark_as_read, tryCatch, whenAuthenticated.
  destruct (WebSocketQueries.getUserBySocket c m) as [u|].
  - destruct (JS.truthyString u).
    + unfold bind.
      destruct (MarkAsRead.execute notificationId u w) as [[e|[]] w1] eqn:E.
      * intros [= <- _] [H|[]]. discriminate.
      * destruct (QueryNotifications.getUnreadCount u w1) as [[e|k] w2].
        -- intros [= <- _] [H|[]]. discriminate.
        -- intros [= <- _] [H|[H|[]]]; [discriminate|].
           injection H as <-. split; [reflexivity|].
           destruct (execute_success_owner notificationId u w w1 E)
             as (n & w0 & Hfind & Hown).
           exists u, n, w0. split; [reflexivity|]. split; assumption.
    + intros [= <- _] [H|[]]. discriminate.
  - intros [= <- _] [H|[]]. discriminate.
Qed.

End HandlersOverMongo.

(** User [u1], authenticated on socket [c1], marks the notification
    [n-1], which is [u1]'s. *)
Lemma socket_marks_own_witness :
  let m := WebSocketManager.addConnection "c1" "u1" None WebSocketManager.empty in
  exists emits w',
    HandlerSim.on_mark_as_read m "c1" "n-1" (Examples.inbox None)
      = (inr emits, w') /\
    In (SocketIOHandler.marked_as_read "n-1") emits /\
    exists n w1,
      @notifications_findOne Sim.World Sim.notificationCollection "n-1"
         (Examples.inbox None) = (inr (Some n), w1) /\
      Notification.userId n = "u1".
Proof.
  intros m.
  destruct (HandlerSim.on_mark_as_read m "c1" "n-1" (Examples.inbox None))
    as [[e|emits] w'] eqn:E; [vm_compute in E; discriminate|].
  assert (Hin : In (SocketIOHandler.marked_as_read "n-1") emits).
  { vm_compute in E. injection E as <- _. right. left. reflexivity. }
  exists emits, w'. split; [reflexivity|]. split; [exact Hin|].
  destruct (@socket_marks_own_only Sim.World Sim.runtime
              Sim.notificationCollection QuerySim.queries m "c1" "n-1"
              (Examples.inbox None) emits w' "n-1" E Hin)
    as (_ & u & n & w1 & Hu & Hfind & Hown).
  exists n, w1. split; [exact Hfind|].
  vm_compute in Hu. injection Hu as <-. exact Hown.
Defined.
